(** * Storage resource adapters of the azurerm provider

    A shallow embedding of the four resource adapters
    ([azurerm_storage_table], [azurerm_storage_queue],
    [azurerm_storage_container], [azurerm_data_lake_store_file]) and of
    their name validators, followed by the properties established about
    them.

    Conventions.
    - A Go [string] is a [string] of bytes; [len(value)] is [String.length].
    - [*schema.ResourceData] is the record [ResourceData]: the identifier
      set by [d.SetId] and the attribute store read by [d.Get] and written
      by [d.Set].
    - A callback of type [func(d, meta) error] is a computation in the
      monad [M]: it threads the resource data, the vendor's world, a
      logical clock in milliseconds and the journal of vendor calls, and
      yields [Ok] (Go's [nil] error) or [Err e].  What a callback did to
      [d] before it failed stays done, as in Go.
    - Logging, the deadlines of [context.WithTimeout] and the deferred
      [Close] and [cancel] have no counterpart: a call that runs out of
      time is a call that fails.
    - The vendor SDK and the provider's client resolver are a record of
      operations [Vendor W] over an arbitrary world [W]; the adapters are
      written once, for every vendor. *)

From Stdlib Require Import String Ascii List ZArith Lia Bool.
From stdpp Require Import base gmap strings list.

Local Open Scope string_scope.
Local Open Scope list_scope.

(** ** Errors *)

(** Go's [error] values, by where they are made.
    - [VendorError]: an error handed back by the SDK, the resolver or the
      operating system, kept opaque.
    - [Errorf format args cause]: [fmt.Errorf(format, args..., cause)];
      the format string is kept as written in the source, the string
      arguments in order, and the error argument (if any) as [cause].
    - [ImportAsExistsError resourceName id]: the value returned by
      [tf.ImportAsExistsError(resourceName, id)]; the helper is outside
      the sources, and its result is kept apart from every other error,
      as the signal that the resource has to be imported.
    - [TimeoutError last]: what the retry helper returns when its budget
      is spent, carrying the last failure seen. *)
#[warnings="-register-all"]
Inductive error : Type :=
| VendorError (msg : string)
| Errorf (format : string) (args : list string) (cause : option error)
| ImportAsExistsError (resourceName id : string)
| TimeoutError (last : option error).

(** ** Name validators *)

Module Validate.

Definition byte_in (lo hi : nat) (c : ascii) : bool :=
  (lo <=? nat_of_ascii c)%nat && (nat_of_ascii c <=? hi)%nat.

(** The character classes of the regular expressions. *)
Definition is_lower (c : ascii) : bool := byte_in 97 122 c.   (* a-z *)
Definition is_upper (c : ascii) : bool := byte_in 65 90 c.    (* A-Z *)
Definition is_digit (c : ascii) : bool := byte_in 48 57 c.    (* 0-9 *)
Definition is_hyphen (c : ascii) : bool := (nat_of_ascii c =? 45)%nat.

(** [[a-z0-9-]], also written [[0-9a-z-]]. *)
Definition lower_alnum_hyphen (c : ascii) : bool :=
  is_lower c || is_digit c || is_hyphen c.
(** [[A-Za-z]] *)
Definition letter (c : ascii) : bool := is_upper c || is_lower c.
(** [[A-Za-z0-9]] *)
Definition alnum (c : ascii) : bool := letter c || is_digit c.

Fixpoint all_chars (p : ascii -> bool) (s : string) : bool :=
  match s with
  | EmptyString => true
  | String c s' => p c && all_chars p s'
  end.

Fixpoint last_char (s : string) : option ascii :=
  match s with
  | EmptyString => None
  | String c EmptyString => Some c
  | String _ s' => last_char s'
  end.

Definition is_empty (s : string) : bool :=
  match s with EmptyString => true | _ => false end.

(** [regexp.MustCompile(`^[a-z0-9-]+$`).MatchString(value)]: the whole
    text is one or more characters of the class. *)
Definition match_lower_alnum_hyphen_plus (value : string) : bool :=
  negb (is_empty value) && all_chars lower_alnum_hyphen value.

(** [regexp.MustCompile(`^-`).MatchString(value)] *)
Definition match_leading_hyphen (value : string) : bool :=
  match value with
  | String c _ => is_hyphen c
  | EmptyString => false
  end.

(** [regexp.MustCompile(`-$`).MatchString(value)]; without the [m] flag
    Go's [$] matches at the end of the text only. *)
Definition match_trailing_hyphen (value : string) : bool :=
  match last_char value with
  | Some c => is_hyphen c
  | None => false
  end.

(** [regexp.MustCompile(`^\$root$|^[0-9a-z-]+$`).MatchString(value)] *)
Definition match_root_or_lower_alnum_hyphen_plus (value : string) : bool :=
  String.eqb value "$root" || match_lower_alnum_hyphen_plus value.

(** [regexp.MustCompile(`^[A-Za-z][A-Za-z0-9]{2,62}$`).MatchString(value)] *)
Definition match_table_name (value : string) : bool :=
  match value with
  | String c rest =>
      letter c && all_chars alnum rest
      && (2 <=? String.length rest)%nat && (String.length rest <=? 62)%nat
  | EmptyString => false
  end.

(** [errors = append(errors, e)] under a condition. *)
Definition append_if (cond : bool) (e : error) (errors : list error) : list error :=
  if cond then errors ++ [e] else errors.

(** The messages, one per [fmt.Errorf] of the validators. *)
Definition table_reserved_msg (k value : string) : error :=
  Errorf "Table Storage %q cannot use the word `table`: %q" [k; value] None.
Definition table_pattern_msg (k value : string) : error :=
  Errorf "Table Storage %q cannot begin with a numeric character, only alphanumeric characters are allowed and must be between 3 and 63 characters long: %q"
         [k; value] None.

Definition queue_charset_msg (k : string) : error :=
  Errorf "only lowercase alphanumeric characters and hyphens allowed in %q" [k] None.
Definition queue_leading_msg (k : string) : error :=
  Errorf "%q cannot start with a hyphen" [k] None.
Definition queue_trailing_msg (k : string) : error :=
  Errorf "%q cannot end with a hyphen" [k] None.
Definition queue_too_long_msg (k : string) : error :=
  Errorf "%q cannot be longer than 63 characters" [k] None.
Definition queue_too_short_msg (k : string) : error :=
  Errorf "%q must be at least 3 characters" [k] None.

Definition container_charset_msg (k value : string) : error :=
  Errorf "only lowercase alphanumeric characters and hyphens allowed in %q: %q" [k; value] None.
Definition container_length_msg (k value : string) : error :=
  Errorf "%q must be between 3 and 63 characters: %q" [k; value] None.
Definition container_leading_msg (k value : string) : error :=
  Errorf "%q cannot begin with a hyphen: %q" [k; value] None.

(** [validateArmStorageTableName(v, k) (ws []string, errors []error)] *)
Definition validateArmStorageTableName (value k : string) : list string * list error :=
  let errors := [] in
  let errors := append_if (String.eqb value "table") (table_reserved_msg k value) errors in
  let errors := append_if (negb (match_table_name value)) (table_pattern_msg k value) errors in
  ([], errors).

(** [validateArmStorageQueueName(v, k) (ws []string, errors []error)] *)
Definition validateArmStorageQueueName (value k : string) : list string * list error :=
  let errors := [] in
  let errors := append_if (negb (match_lower_alnum_hyphen_plus value)) (queue_charset_msg k) errors in
  let errors := append_if (match_leading_hyphen value) (queue_leading_msg k) errors in
  let errors := append_if (match_trailing_hyphen value) (queue_trailing_msg k) errors in
  let errors := append_if (63 <? String.length value)%nat (queue_too_long_msg k) errors in
  let errors := append_if (String.length value <? 3)%nat (queue_too_short_msg k) errors in
  ([], errors).

(** [validateArmStorageContainerName(v, k) (ws []string, errors []error)] *)
Definition validateArmStorageContainerName (value k : string) : list string * list error :=
  let errors := [] in
  let errors := append_if (negb (match_root_or_lower_alnum_hyphen_plus value))
                          (container_charset_msg k value) errors in
  let errors := append_if ((String.length value <? 3)%nat || (63 <? String.length value)%nat)
                          (container_length_msg k value) errors in
  let errors := append_if (match_leading_hyphen value) (container_leading_msg k value) errors in
  ([], errors).

(** The rules of each validator, one per [if], with the condition under
    which the rule is violated and the message it appends. *)
Inductive QueueRule := QCharset | QLeadingHyphen | QTrailingHyphen | QTooLong | QTooShort.
Inductive ContainerRule := CCharset | CLength | CLeadingHyphen.
Inductive TableRule := TReserved | TPattern.

Definition queue_violates (r : QueueRule) (value : string) : bool :=
  match r with
  | QCharset => negb (match_lower_alnum_hyphen_plus value)
  | QLeadingHyphen => match_leading_hyphen value
  | QTrailingHyphen => match_trailing_hyphen value
  | QTooLong => (63 <? String.length value)%nat
  | QTooShort => (String.length value <? 3)%nat
  end.

Definition queue_message (r : QueueRule) (k : string) : error :=
  match r with
  | QCharset => queue_charset_msg k
  | QLeadingHyphen => queue_leading_msg k
  | QTrailingHyphen => queue_trailing_msg k
  | QTooLong => queue_too_long_msg k
  | QTooShort => queue_too_short_msg k
  end.

Definition container_violates (r : ContainerRule) (value : string) : bool :=
  match r with
  | CCharset => negb (match_root_or_lower_alnum_hyphen_plus value)
  | CLength => (String.length value <? 3)%nat || (63 <? String.length value)%nat
  | CLeadingHyphen => match_leading_hyphen value
  end.

Definition container_message (r : ContainerRule) (k value : string) : error :=
  match r with
  | CCharset => container_charset_msg k value
  | CLength => container_length_msg k value
  | CLeadingHyphen => container_leading_msg k value
  end.

Definition table_violates (r : TableRule) (value : string) : bool :=
  match r with
  | TReserved => String.eqb value "table"
  | TPattern => negb (match_table_name value)
  end.

Definition table_message (r : TableRule) (k value : string) : error :=
  match r with
  | TReserved => table_reserved_msg k value
  | TPattern => table_pattern_msg k value
  end.

End Validate.

(** ** Resource data *)

(** An attribute value: the schemas hold strings and, for the container's
    computed [properties], a map of strings. *)
Inductive Value :=
| VString (s : string)
| VMap (m : gmap string string).

(** [*schema.ResourceData], as far as these adapters use it. *)
Record ResourceData := {
  rd_id : string;
  rd_attrs : gmap string Value
}.

(** [d.Id()] *)
Definition Id (d : ResourceData) : string := rd_id d.

(** [d.SetId(v)] *)
Definition SetId (v : string) (d : ResourceData) : ResourceData :=
  {| rd_id := v; rd_attrs := rd_attrs d |}.

(** [d.Get(key).(string)]: the attribute, or the schema's default for an
    attribute that is not set (the zero value when the schema has none). *)
Definition GetStringOr (default key : string) (d : ResourceData) : string :=
  match rd_attrs d !! key with
  | Some (VString s) => s
  | _ => default
  end.

Definition GetString (key : string) (d : ResourceData) : string :=
  GetStringOr EmptyString key d.

(** [d.Set(key, v)]; a later [d.Get] sees the value. *)
Definition SetAttr (key : string) (v : Value) (d : ResourceData) : ResourceData :=
  {| rd_id := rd_id d; rd_attrs := <[key := v]> (rd_attrs d) |}.

(** The two states of the reconciliation: a record is PRESENT exactly when
    its identifier is not empty. *)
Inductive Presence := ABSENT | PRESENT.

Definition presence (d : ResourceData) : Presence :=
  if Validate.is_empty (Id d) then ABSENT else PRESENT.

(** ** The vendor boundary *)

(** [storage.Table], reduced to the field the adapters read. *)
Record Table := { Table_Name : string }.

(** [storage.ContainerProperties] *)
Record ContainerProperties := {
  LastModified : string;
  LeaseStatus : string;
  LeaseState : string;
  LeaseDuration : string
}.

(** [storage.Container] as it comes back from [ListContainers]. *)
Record Container := {
  Container_Name : string;
  Properties : ContainerProperties
}.

(** The outcome of [armClient.get...ClientForStorageAccount]: the Go
    triple [(client, accountExists, err)], in the order the callers
    inspect it: [err != nil] first, then [!accountExists]. *)
Inductive Resolved (C : Type) :=
| ResolveError (err : string)
| AccountMissing
| AccountFound (client : C).
Arguments ResolveError {C} err.
Arguments AccountMissing {C}.
Arguments AccountFound {C} client.

(** The [autorest.Response] of a Data Lake call: [None] when no HTTP
    response came back, otherwise its status code. *)
Definition Response := option Z.

(** Modelled from the spec: [utils.ResponseWasNotFound(resp)] and
    [response.WasNotFound(resp)], helpers outside the sources, inspect the
    response for the not-found condition: a response was received and its
    status is 404. *)
Definition ResponseWasNotFound (resp : Response) : bool :=
  match resp with
  | Some code => (code =? 404)%Z
  | None => false
  end.

(** The calls that cross the boundary, as recorded in the journal. *)
Inductive Call :=
| CallGetTableClient (resourceGroup account : string)
| CallGetQueueClient (resourceGroup account : string)
| CallGetBlobClient (resourceGroup account : string)
| CallQueryTables
| CallTableCreate (name : string)
| CallTableDelete (name : string)
| CallQueueExists (name : string)
| CallQueueCreate (name : string)
| CallQueueDelete (name : string)
| CallContainerExists (name : string)
| CallContainerCreateIfNotExists (name : string)
| CallContainerSetPermissions (name accessType : string)
| CallListContainers (prefix : string)
| CallContainerDeleteIfExists (name : string)
| CallOpen (path : string)
| CallReadAll
| CallFileCreate (account path : string) (overwrite : bool)
| CallGetFileStatus (account path : string)
| CallFileDelete (account path : string).

Set Implicit Arguments.

(** The SDK clients, the provider's client resolver and the local file
    system, over a world [W]: everything the adapters call and the sources
    do not contain.  A failed call hands back its message; [latency] is
    the time a call takes in a given world. *)
Record Vendor (W : Type) := {
  TableServiceClient : Type;
  QueueServiceClient : Type;
  BlobStorageClient : Type;
  File : Type;
  latency : Call -> W -> N;
  getTableServiceClientForStorageAccount :
    string -> string -> W -> Resolved TableServiceClient * W;
  getQueueServiceClientForStorageAccount :
    string -> string -> W -> Resolved QueueServiceClient * W;
  getBlobStorageClientForStorageAccount :
    string -> string -> W -> Resolved BlobStorageClient * W;
  QueryTables : TableServiceClient -> W -> (string + list Table) * W;
  Table_Create : TableServiceClient -> string -> W -> option string * W;
  Table_Delete : TableServiceClient -> string -> W -> option string * W;
  Queue_Exists : QueueServiceClient -> string -> W -> (string + bool) * W;
  Queue_Create : QueueServiceClient -> string -> W -> option string * W;
  Queue_Delete : QueueServiceClient -> string -> W -> option string * W;
  Container_Exists : BlobStorageClient -> string -> W -> (string + bool) * W;
  Container_CreateIfNotExists : BlobStorageClient -> string -> W -> (string + bool) * W;
  Container_SetPermissions : BlobStorageClient -> string -> string -> W -> option string * W;
  ListContainers : BlobStorageClient -> string -> W -> (string + list Container) * W;
  Container_DeleteIfExists : BlobStorageClient -> string -> W -> (string + bool) * W;
  os_Open : string -> W -> (string + File) * W;
  ioutil_ReadAll : File -> W -> (string + list ascii) * W;
  Files_Create : string -> string -> list ascii -> bool -> W -> option string * W;
  Files_GetFileStatus : string -> string -> W -> (Response * option string) * W;
  Files_Delete : string -> string -> W -> (Response * option string) * W
}.
Unset Implicit Arguments.

(** ** The monad of the callbacks *)

Inductive Result (A : Type) :=
| Ok (a : A)
| Err (e : error).
Arguments Ok {A} a.
Arguments Err {A} e.

Record State (W : Type) := {
  data : ResourceData;
  world : W;
  clock : N;
  journal : list (N * Call)
}.
Arguments data {W} s.
Arguments world {W} s.
Arguments clock {W} s.
Arguments journal {W} s.

Definition M (W A : Type) : Type := State W -> Result A * State W.

Definition ret {W A} (a : A) : M W A := fun s => (Ok a, s).

Definition fail {W A} (e : error) : M W A := fun s => (Err e, s).

Definition bind {W A B} (c : M W A) (k : A -> M W B) : M W B :=
  fun s =>
    match c s with
    | (Ok a, s') => k a s'
    | (Err e, s') => (Err e, s')
    end.

Declare Scope adapter_scope.
Delimit Scope adapter_scope with adapter.
Notation "'let*' x ':=' c 'in' k" := (bind c (fun x => k))
  (at level 10, x name, c at level 100, k at level 200) : adapter_scope.
Notation "'run' c 'in' k" := (bind c (fun _ => k))
  (at level 10, c at level 100, k at level 200) : adapter_scope.

(** Reading and updating [d]. *)
Definition get_data {W} : M W ResourceData := fun s => (Ok (data s), s).

Definition update_data {W} (f : ResourceData -> ResourceData) : M W unit :=
  fun s => (Ok tt, {| data := f (data s); world := world s;
                      clock := clock s; journal := journal s |}).

(** The calling goroutine sleeps. *)
Definition sleep {W} (ms : N) : M W unit :=
  fun s => (Ok tt, {| data := data s; world := world s;
                      clock := (clock s + ms)%N; journal := journal s |}).

(** The calls of a journal, without their times. *)
Definition calls {W} (s : State W) : list Call := map snd (journal s).

(** ** The adapters *)

Section Adapters.

Context {W : Type} (V : Vendor W).
Local Open Scope adapter_scope.

(** A call across the boundary: it is entered in the journal with the
    time it starts at, it acts on the world, and the clock advances by
    its latency. *)
Definition call {A : Type} (c : Call) (op : W -> A * W) : M W A :=
  fun s =>
    let (a, w') := op (world s) in
    (Ok a, {| data := data s; world := w';
              clock := (clock s + latency V c (world s))%N;
              journal := journal s ++ [(clock s, c)] |}).

(** *** azurerm_storage_table *)

(** The loop of [resourceArmStorageTableRead]:
    [var table *storage.Table
     for _, t := range tables.Tables { if t.Name == name { table = &t } }].
    The provider predates Go 1.22, so [t] is one variable for the whole
    loop: every iteration assigns the next element to it, and [&t] is the
    address of that one variable.  [loop_t] is its content and
    [table_is_t] tells whether [table] holds its address ([false]: nil). *)
Record TableLoop := {
  loop_t : Table;
  table_is_t : bool
}.

Fixpoint rangeTablesRead (name : string) (tables : list Table) (st : TableLoop) : TableLoop :=
  match tables with
  | [] => st
  | elem :: rest =>
      let st := {| loop_t := elem; table_is_t := table_is_t st |} in
      let st := if String.eqb (Table_Name (loop_t st)) name
                then {| loop_t := loop_t st; table_is_t := true |}
                else st in
      rangeTablesRead name rest st
  end.

(** The zero value of [storage.Table], held by [t] before the first
    iteration. *)
Definition zero_table : Table := {| Table_Name := EmptyString |}.

(** [table], dereferenced after the loop: nil, or the content of [t]. *)
Definition deref_table (st : TableLoop) : option Table :=
  if table_is_t st then Some (loop_t st) else None.

Definition resourceArmStorageTableRead : M W unit :=
  let* d := get_data in
  let name := GetString "name" d in
  let resourceGroupName := GetString "resource_group_name" d in
  let storageAccountName := GetString "storage_account_name" d in
  let* r := call (CallGetTableClient resourceGroupName storageAccountName)
                 (getTableServiceClientForStorageAccount V resourceGroupName storageAccountName) in
  match r with
  | ResolveError err => fail (VendorError err)
  | AccountMissing => update_data (SetId EmptyString)
  | AccountFound tableClient =>
      let* q := call CallQueryTables (QueryTables V tableClient) in
      match q with
      | inl err =>
          fail (Errorf "Failed to retrieve storage tables in account %q: %s"
                       [name] (Some (VendorError err)))
      | inr tables =>
          let st := rangeTablesRead name tables
                      {| loop_t := zero_table; table_is_t := false |} in
          match deref_table st with
          | None => update_data (SetId EmptyString)
          | Some table => update_data (SetAttr "name" (VString (Table_Name table)))
          end
      end
  end.

(** The guard loop of [resourceArmStorageTableCreate]; it returns from
    inside the loop, at the first table of that name. *)
Fixpoint rangeTablesCreate (name : string) (tables : list Table) : option error :=
  match tables with
  | [] => None
  | t :: rest =>
      if String.eqb (Table_Name t) name
      then Some (ImportAsExistsError "azurerm_storage_table" (Table_Name t))
      else rangeTablesCreate name rest
  end.

Definition resourceArmStorageTableCreate : M W unit :=
  let* d := get_data in
  let name := GetString "name" d in
  let resourceGroupName := GetString "resource_group_name" d in
  let storageAccountName := GetString "storage_account_name" d in
  let* r := call (CallGetTableClient resourceGroupName storageAccountName)
                 (getTableServiceClientForStorageAccount V resourceGroupName storageAccountName) in
  match r with
  | ResolveError err => fail (VendorError err)
  | AccountMissing => fail (Errorf "Storage Account %q Not Found" [storageAccountName] None)
  | AccountFound tableClient =>
      let* q := call CallQueryTables (QueryTables V tableClient) in
      match q with
      | inl err =>
          fail (Errorf "Failed to retrieve storage tables in account %q: %s"
                       [name] (Some (VendorError err)))
      | inr tables =>
          match rangeTablesCreate name tables with
          | Some e => fail e
          | None =>
              let* err := call (CallTableCreate name) (Table_Create V tableClient name) in
              match err with
              | Some err =>
                  fail (Errorf "Error creating table %q in storage account %q: %s"
                               [name; storageAccountName] (Some (VendorError err)))
              | None =>
                  run update_data (SetId name) in
                  resourceArmStorageTableRead
              end
          end
      end
  end.

Definition resourceArmStorageTableDelete : M W unit :=
  let* d := get_data in
  let name := GetString "name" d in
  let resourceGroupName := GetString "resource_group_name" d in
  let storageAccountName := GetString "storage_account_name" d in
  let* r := call (CallGetTableClient resourceGroupName storageAccountName)
                 (getTableServiceClientForStorageAccount V resourceGroupName storageAccountName) in
  match r with
  | ResolveError err => fail (VendorError err)
  | AccountMissing => ret tt
  | AccountFound tableClient =>
      let* err := call (CallTableDelete name) (Table_Delete V tableClient name) in
      match err with
      | Some err =>
          fail (Errorf "Error deleting storage table %q from storage account %q: %s"
                       [name; storageAccountName] (Some (VendorError err)))
      | None => ret tt
      end
  end.

(** *** azurerm_storage_queue *)

Definition resourceArmStorageQueueExists : M W bool :=
  let* d := get_data in
  let resourceGroupName := GetString "resource_group_name" d in
  let storageAccountName := GetString "storage_account_name" d in
  let* r := call (CallGetQueueClient resourceGroupName storageAccountName)
                 (getQueueServiceClientForStorageAccount V resourceGroupName storageAccountName) in
  match r with
  | ResolveError err => fail (VendorError err)
  | AccountMissing =>
      run update_data (SetId EmptyString) in
      ret false
  | AccountFound queueClient =>
      let name := GetString "name" d in
      let* q := call (CallQueueExists name) (Queue_Exists V queueClient name) in
      match q with
      | inl err =>
          fail (Errorf "error testing existence of storage queue %q: %s"
                       [name] (Some (VendorError err)))
      | inr exists_ =>
          run (if negb exists_ then update_data (SetId EmptyString) else ret tt) in
          ret exists_
      end
  end.

Definition resourceArmStorageQueueRead : M W unit :=
  let* exists_ := resourceArmStorageQueueExists in
  if negb exists_ then ret tt else ret tt.

Definition resourceArmStorageQueueCreate : M W unit :=
  let* d := get_data in
  let resourceGroupName := GetString "resource_group_name" d in
  let storageAccountName := GetString "storage_account_name" d in
  let* r := call (CallGetQueueClient resourceGroupName storageAccountName)
                 (getQueueServiceClientForStorageAccount V resourceGroupName storageAccountName) in
  match r with
  | ResolveError err => fail (VendorError err)
  | AccountMissing => fail (Errorf "Storage Account %q Not Found" [storageAccountName] None)
  | AccountFound queueClient =>
      let name := GetString "name" d in
      let* q := call (CallQueueExists name) (Queue_Exists V queueClient name) in
      match q with
      | inl err =>
          fail (Errorf "Error checking for the existence of queue %q in storage account %q: %+v"
                       [name; storageAccountName] (Some (VendorError err)))
      | inr true => fail (ImportAsExistsError "azurerm_storage_queue" name)
      | inr false =>
          let* err := call (CallQueueCreate name) (Queue_Create V queueClient name) in
          match err with
          | Some err =>
              fail (Errorf "Error creating storage queue on Azure: %s" [] (Some (VendorError err)))
          | None =>
              run update_data (SetId name) in
              resourceArmStorageQueueRead
          end
      end
  end.

Definition resourceArmStorageQueueDelete : M W unit :=
  let* d := get_data in
  let resourceGroupName := GetString "resource_group_name" d in
  let storageAccountName := GetString "storage_account_name" d in
  let* r := call (CallGetQueueClient resourceGroupName storageAccountName)
                 (getQueueServiceClientForStorageAccount V resourceGroupName storageAccountName) in
  match r with
  | ResolveError err => fail (VendorError err)
  | AccountMissing => ret tt
  | AccountFound queueClient =>
      let name := GetString "name" d in
      let* err := call (CallQueueDelete name) (Queue_Delete V queueClient name) in
      match err with
      | Some err =>
          fail (Errorf "Error deleting storage queue %q: %s" [name] (Some (VendorError err)))
      | None => ret tt
      end
  end.

(** *** The bounded retry around container creation *)

(** Modelled from the spec: [resource.RetryError] of the host's helper
    library, a failure together with the mark that makes it retryable. *)
Record RetryError := {
  RetryError_Err : error;
  Retryable : bool
}.

(** Modelled from the spec: [resource.RetryableError(err)] marks the
    failure as retryable. *)
Definition RetryableError (err : error) : RetryError :=
  {| RetryError_Err := err; Retryable := true |}.

(** [blobClient.GetContainerReference(name)]: a local handle, no call. *)
Definition ContainerReference : Type := BlobStorageClient V * string.

Definition GetContainerReference (blobClient : BlobStorageClient V) (name : string)
  : ContainerReference := (blobClient, name).

(** [checkContainerIsCreated(reference)], the function handed to the
    retry helper. *)
Definition checkContainerIsCreated (reference : ContainerReference)
  : M W (option RetryError) :=
  let* r := call (CallContainerCreateIfNotExists (snd reference))
                 (Container_CreateIfNotExists V (fst reference) (snd reference)) in
  match r with
  | inl err => ret (Some (RetryableError (VendorError err)))
  | inr _ => ret None
  end.

(** Modelled from the spec: the pause of the retry helper between two
    attempts (5: it sleeps between attempts), in milliseconds. *)
Definition poll_interval : N := 500.

(** Modelled from the spec: [resource.Retry] of the host's helper library
    is not among the sources.  After the spec (4.3 and 5): the call is
    repeated until it succeeds or a fixed wall-clock budget has elapsed;
    the calling goroutine sleeps between attempts and no attempt runs
    concurrently; a failure marked retryable within the budget leads to
    another attempt, and once the budget has elapsed the outcome is a
    fatal error.  An attempt is made only while the budget has not
    elapsed, and its success counts when it comes back within the budget.
    A failure that is not marked retryable ends the loop with that
    error.  [deadline] is the clock value at which the budget ends and
    [last] the last failure seen. *)
Fixpoint retry_loop (fuel : nat) (deadline : N) (f : M W (option RetryError))
         (last : option error) (s : State W) {struct fuel} : Result unit * State W :=
  match fuel with
  | O => (Err (TimeoutError last), s)
  | S fuel' =>
      if (deadline <=? clock s)%N then (Err (TimeoutError last), s)
      else
        match f s with
        | (Err e, s1) => (Err e, s1)
        | (Ok None, s1) =>
            if (clock s1 <=? deadline)%N then (Ok tt, s1)
            else (Err (TimeoutError last), s1)
        | (Ok (Some rerr), s1) =>
            if Retryable rerr
            then match sleep poll_interval s1 with
                 | (_, s2) => retry_loop fuel' deadline f (Some (RetryError_Err rerr)) s2
                 end
            else (Err (RetryError_Err rerr), s1)
        end
  end.

(** Modelled from the spec: [resource.Retry(timeout, f)], with [timeout]
    in milliseconds.  Every round sleeps [poll_interval], so
    [timeout / poll_interval + 1] rounds reach the deadline. *)
Definition Retry (timeout : N) (f : M W (option RetryError)) : M W unit :=
  fun s => retry_loop (N.to_nat (timeout / poll_interval) + 1) (clock s + timeout)%N f None s.

(** [120*time.Second], in milliseconds. *)
Definition container_create_budget : N := 120000.

(** *** azurerm_storage_container *)

(** The [props] map built for a listed container. *)
Definition container_props (cont : Container) : gmap string string :=
  <["lease_duration" := LeaseDuration (Properties cont)]>
  (<["lease_state" := LeaseState (Properties cont)]>
  (<["lease_status" := LeaseStatus (Properties cont)]>
  (<["last_modified" := LastModified (Properties cont)]> ∅))).

(** The loop of [resourceArmStorageContainerRead]; the properties are
    copied inside the iteration that matches. *)
Fixpoint rangeContainersRead (name : string) (containers : list Container) (found : bool)
  : M W bool :=
  match containers with
  | [] => ret found
  | cont :: rest =>
      if String.eqb (Container_Name cont) name
      then run update_data (SetAttr "properties" (VMap (container_props cont))) in
           rangeContainersRead name rest true
      else rangeContainersRead name rest found
  end.

Definition resourceArmStorageContainerRead : M W unit :=
  let* d := get_data in
  let resourceGroupName := GetString "resource_group_name" d in
  let storageAccountName := GetString "storage_account_name" d in
  let* r := call (CallGetBlobClient resourceGroupName storageAccountName)
                 (getBlobStorageClientForStorageAccount V resourceGroupName storageAccountName) in
  match r with
  | ResolveError err => fail (VendorError err)
  | AccountMissing => update_data (SetId EmptyString)
  | AccountFound blobClient =>
      let name := GetString "name" d in
      let* l := call (CallListContainers name) (ListContainers V blobClient name) in
      match l with
      | inl err =>
          fail (Errorf "Failed to retrieve storage containers in account %q: %s"
                       [name] (Some (VendorError err)))
      | inr containers =>
          let* found := rangeContainersRead name containers false in
          if negb found then update_data (SetId EmptyString) else ret tt
      end
  end.

Definition resourceArmStorageContainerCreate : M W unit :=
  let* d := get_data in
  let resourceGroupName := GetString "resource_group_name" d in
  let storageAccountName := GetString "storage_account_name" d in
  let* r := call (CallGetBlobClient resourceGroupName storageAccountName)
                 (getBlobStorageClientForStorageAccount V resourceGroupName storageAccountName) in
  match r with
  | ResolveError err => fail (VendorError err)
  | AccountMissing => fail (Errorf "Storage Account %q Not Found" [storageAccountName] None)
  | AccountFound blobClient =>
      let name := GetString "name" d in
      let accessType :=
        if String.eqb (GetStringOr "private" "container_access_type" d) "private"
        then EmptyString
        else GetStringOr "private" "container_access_type" d in
      let reference := GetContainerReference blobClient name in
      let* e := call (CallContainerExists name) (Container_Exists V blobClient name) in
      match e with
      | inl err =>
          fail (Errorf "Error checking if container %q exists in storage account %q: %+v"
                       [name; storageAccountName] (Some (VendorError err)))
      | inr true => fail (ImportAsExistsError "azurerm_storage_container" name)
      | inr false =>
          fun s =>
            match Retry container_create_budget (checkContainerIsCreated reference) s with
            | (Err err, s1) =>
                (Err (Errorf "Error creating container %q in storage account %q: %s"
                             [name; storageAccountName] (Some err)), s1)
            | (Ok _, s1) =>
                (let* perr := call (CallContainerSetPermissions name accessType)
                                   (Container_SetPermissions V blobClient name accessType) in
                 match perr with
                 | Some err =>
                     fail (Errorf "Error setting permissions for container %s in storage account %s: %+v"
                                  [name; storageAccountName] (Some (VendorError err)))
                 | None =>
                     run update_data (SetId name) in
                     resourceArmStorageContainerRead
                 end) s1
            end
      end
  end.

Definition resourceArmStorageContainerExists : M W bool :=
  let* d := get_data in
  let resourceGroupName := GetString "resource_group_name" d in
  let storageAccountName := GetString "storage_account_name" d in
  let* r := call (CallGetBlobClient resourceGroupName storageAccountName)
                 (getBlobStorageClientForStorageAccount V resourceGroupName storageAccountName) in
  match r with
  | ResolveError err => fail (VendorError err)
  | AccountMissing =>
      run update_data (SetId EmptyString) in
      ret false
  | AccountFound blobClient =>
      let name := GetString "name" d in
      let* e := call (CallContainerExists name) (Container_Exists V blobClient name) in
      match e with
      | inl err =>
          fail (Errorf "Error querying existence of storage container %q in storage account %q: %s"
                       [name; storageAccountName] (Some (VendorError err)))
      | inr exists_ =>
          run (if negb exists_ then update_data (SetId EmptyString) else ret tt) in
          ret exists_
      end
  end.

Definition resourceArmStorageContainerDelete : M W unit :=
  let* d := get_data in
  let resourceGroupName := GetString "resource_group_name" d in
  let storageAccountName := GetString "storage_account_name" d in
  let* r := call (CallGetBlobClient resourceGroupName storageAccountName)
                 (getBlobStorageClientForStorageAccount V resourceGroupName storageAccountName) in
  match r with
  | ResolveError err => fail (VendorError err)
  | AccountMissing => ret tt
  | AccountFound blobClient =>
      let name := GetString "name" d in
      let* e := call (CallContainerDeleteIfExists name)
                     (Container_DeleteIfExists V blobClient name) in
      match e with
      | inl err =>
          fail (Errorf "Error deleting storage container %q from storage account %q: %s"
                       [name; storageAccountName] (Some (VendorError err)))
      | inr _ => ret tt
      end
  end.

(** *** azurerm_data_lake_store_file *)

Definition resourceArmDataLakeStoreFileRead : M W unit :=
  let* d := get_data in
  let accountName := GetString "account_name" d in
  let remoteFilePath := Id d in
  let* r := call (CallGetFileStatus accountName remoteFilePath)
                 (Files_GetFileStatus V accountName remoteFilePath) in
  match r with
  | (resp, Some err) =>
      if ResponseWasNotFound resp
      then update_data (SetId EmptyString)
      else fail (Errorf "Error making Read request on Azure Data Lake Store File %q (Account %q): %+v"
                        [remoteFilePath; accountName] (Some (VendorError err)))
  | (_, None) => ret tt
  end.

(** The import check of this adapter is commented out in the source: the
    create request is issued without asking whether the file exists. *)
Definition resourceArmDataLakeStoreFileCreate : M W unit :=
  let* d := get_data in
  let accountName := GetString "account_name" d in
  let remoteFilePath := GetString "remote_file_path" d in
  let localFilePath := GetString "local_file_path" d in
  let* o := call (CallOpen localFilePath) (os_Open V localFilePath) in
  match o with
  | inl err =>
      fail (Errorf "error opening file %q: %+v" [localFilePath] (Some (VendorError err)))
  | inr file =>
      let* c := call CallReadAll (ioutil_ReadAll V file) in
      match c with
      | inl err => fail (VendorError err)
      | inr fileContents =>
          (* [utils.Bool(false)] is the overwrite argument of [client.Create] *)
          let* err := call (CallFileCreate accountName remoteFilePath false)
                           (Files_Create V accountName remoteFilePath fileContents false) in
          match err with
          | Some err =>
              fail (Errorf "Error issuing create request for Data Lake Store File %q : %+v"
                           [remoteFilePath] (Some (VendorError err)))
          | None =>
              run update_data (SetId remoteFilePath) in
              resourceArmDataLakeStoreFileRead
          end
      end
  end.

Definition resourceArmDataLakeStoreFileDelete : M W unit :=
  let* d := get_data in
  let accountName := GetString "account_name" d in
  let remoteFilePath := Id d in
  let* r := call (CallFileDelete accountName remoteFilePath)
                 (Files_Delete V accountName remoteFilePath) in
  match r with
  | (resp, Some err) =>
      if ResponseWasNotFound resp
      then ret tt
      else fail (Errorf "Error issuing delete request for Data Lake Store File %q (Account %q): %+v"
                        [remoteFilePath; accountName] (Some (VendorError err)))
  | (_, None) => ret tt
  end.

End Adapters.

Arguments ContainerReference {W} V.

(** ** What the vendor reports about a remote object *)

(** The presence of the remote object as the vendor reports it to the
    adapter's own query: [Some true] present, [Some false] missing (an
    account that cannot be found holds nothing), [None] when the resolver
    or the query fails. *)
Section Reports.

Context {W : Type} (V : Vendor W).

Definition named (name : string) (t : Table) : bool := String.eqb (Table_Name t) name.

Definition same_name (name : string) (c : Container) : bool :=
  String.eqb (Container_Name c) name.

(** By [QueryTables], as the table adapter asks. *)
Definition table_reported (d : ResourceData) (w : W) : option bool :=
  match getTableServiceClientForStorageAccount V
          (GetString "resource_group_name" d) (GetString "storage_account_name" d) w with
  | (ResolveError _, _) => None
  | (AccountMissing, _) => Some false
  | (AccountFound tableClient, w1) =>
      match QueryTables V tableClient w1 with
      | (inl _, _) => None
      | (inr tables, _) => Some (existsb (named (GetString "name" d)) tables)
      end
  end.

(** By [queueReference.Exists()]. *)
Definition queue_reported (d : ResourceData) (w : W) : option bool :=
  match getQueueServiceClientForStorageAccount V
          (GetString "resource_group_name" d) (GetString "storage_account_name" d) w with
  | (ResolveError _, _) => None
  | (AccountMissing, _) => Some false
  | (AccountFound queueClient, w1) =>
      match Queue_Exists V queueClient (GetString "name" d) w1 with
      | (inl _, _) => None
      | (inr b, _) => Some b
      end
  end.

(** By [reference.Exists()] on the container. *)
Definition container_reported (d : ResourceData) (w : W) : option bool :=
  match getBlobStorageClientForStorageAccount V
          (GetString "resource_group_name" d) (GetString "storage_account_name" d) w with
  | (ResolveError _, _) => None
  | (AccountMissing, _) => Some false
  | (AccountFound blobClient, w1) =>
      match Container_Exists V blobClient (GetString "name" d) w1 with
      | (inl _, _) => None
      | (inr b, _) => Some b
      end
  end.

(** By [ListContainers] with the name as prefix, as the container's Read
    asks: the containers of that very name in the listing. *)
Definition container_listed (d : ResourceData) (w : W) : option (list Container) :=
  match getBlobStorageClientForStorageAccount V
          (GetString "resource_group_name" d) (GetString "storage_account_name" d) w with
  | (ResolveError _, _) => None
  | (AccountMissing, _) => Some []
  | (AccountFound blobClient, w1) =>
      match ListContainers V blobClient (GetString "name" d) w1 with
      | (inl _, _) => None
      | (inr containers, _) =>
          Some (List.filter (same_name (GetString "name" d)) containers)
      end
  end.

(** By [GetFileStatus] on the identifier, as the file's Read asks. *)
Definition file_reported (d : ResourceData) (w : W) : option bool :=
  match Files_GetFileStatus V (GetString "account_name" d) (Id d) w with
  | ((_, None), _) => Some true
  | ((resp, Some _), _) => if ResponseWasNotFound resp then Some false else None
  end.

(** The response of [QueryTables], when the account resolves and the
    query succeeds. *)
Definition tables_response (d : ResourceData) (w : W) : option (list Table) :=
  match getTableServiceClientForStorageAccount V
          (GetString "resource_group_name" d) (GetString "storage_account_name" d) w with
  | (AccountFound tableClient, w1) =>
      match QueryTables V tableClient w1 with
      | (inr tables, _) => Some tables
      | (inl _, _) => None
      end
  | _ => None
  end.

(** Whether the resolver reports the owning account as not found. *)
Definition table_account_missing (d : ResourceData) (w : W) : bool :=
  match getTableServiceClientForStorageAccount V
          (GetString "resource_group_name" d) (GetString "storage_account_name" d) w with
  | (AccountMissing, _) => true
  | _ => false
  end.

Definition queue_account_missing (d : ResourceData) (w : W) : bool :=
  match getQueueServiceClientForStorageAccount V
          (GetString "resource_group_name" d) (GetString "storage_account_name" d) w with
  | (AccountMissing, _) => true
  | _ => false
  end.

Definition blob_account_missing (d : ResourceData) (w : W) : bool :=
  match getBlobStorageClientForStorageAccount V
          (GetString "resource_group_name" d) (GetString "storage_account_name" d) w with
  | (AccountMissing, _) => true
  | _ => false
  end.

(** The calls an adapter issued when run from [s]. *)
Definition issued {A : Type} (c : M W A) (s : State W) : list Call :=
  drop (length (journal s)) (calls (snd (c s))).

(** What [checkContainerIsCreated] returns for an answer of
    [CreateIfNotExists]. *)
Definition attempt_answer (r : string + bool) : option RetryError :=
  match r with
  | inl err => Some (RetryableError (VendorError err))
  | inr _ => None
  end.

(** The state reached after [n] failed attempts of [f], each followed by
    the pause of the retry loop. *)
Fixpoint after_failures (f : M W (option RetryError)) (n : nat) (s : State W) : State W :=
  match n with
  | O => s
  | S n' => snd (sleep poll_interval (snd (f (after_failures f n' s))))
  end.

End Reports.

(** ** A reference vendor *)

(** An in-memory storage service, strongly consistent, against which the
    adapters can be run.  It answers as the storage services do: a table
    or queue that does not exist cannot be deleted (404, which the SDK
    returns as an error), [DeleteIfExists] and [CreateIfNotExists] absorb
    the missing or existing container, a file is not created over an
    existing one, and a freshly provisioned account rejects its first
    [warmup] container creations. *)
Module Sim.

Record Account := {
  tables : gset string;
  queues : gset string;
  containers : gmap string ContainerProperties;
  warmup : nat
}.

Record World := {
  accounts : gmap (string * string) Account;
  lake : gmap string (gmap string (list ascii));
  disk : gmap string (list ascii);
  call_latency : N
}.

Abbreviation AccountKey := (string * string)%type.

Definition set_account (key : AccountKey) (a : Account) (w : World) : World :=
  {| accounts := <[key := a]> (accounts w); lake := lake w;
     disk := disk w; call_latency := call_latency w |}.

Definition set_lake (account : string) (files : gmap string (list ascii)) (w : World) : World :=
  {| accounts := accounts w; lake := <[account := files]> (lake w);
     disk := disk w; call_latency := call_latency w |}.

Definition resolve (resourceGroup account : string) (w : World) : Resolved AccountKey * World :=
  match accounts w !! (resourceGroup, account) with
  | Some _ => (AccountFound (resourceGroup, account), w)
  | None => (AccountMissing, w)
  end.

Definition no_account : string := "AccountNotFound".
Definition not_found : string := "404 ResourceNotFound".

Definition query_tables (key : AccountKey) (w : World) : (string + list Table) * World :=
  match accounts w !! key with
  | Some a => (inr (map Build_Table (elements (tables a))), w)
  | None => (inl no_account, w)
  end.

Definition table_create (key : AccountKey) (name : string) (w : World) : option string * World :=
  match accounts w !! key with
  | Some a =>
      if bool_decide (name ∈ tables a) then (Some "409 TableAlreadyExists", w)
      else (None, set_account key {| tables := {[name]} ∪ tables a; queues := queues a;
                                     containers := containers a; warmup := warmup a |} w)
  | None => (Some no_account, w)
  end.

Definition table_delete (key : AccountKey) (name : string) (w : World) : option string * World :=
  match accounts w !! key with
  | Some a =>
      if bool_decide (name ∈ tables a)
      then (None, set_account key {| tables := tables a ∖ {[name]}; queues := queues a;
                                     containers := containers a; warmup := warmup a |} w)
      else (Some not_found, w)
  | None => (Some no_account, w)
  end.

Definition queue_exists (key : AccountKey) (name : string) (w : World) : (string + bool) * World :=
  match accounts w !! key with
  | Some a => (inr (bool_decide (name ∈ queues a)), w)
  | None => (inl no_account, w)
  end.

Definition queue_create (key : AccountKey) (name : string) (w : World) : option string * World :=
  match accounts w !! key with
  | Some a =>
      (None, set_account key {| tables := tables a; queues := {[name]} ∪ queues a;
                                containers := containers a; warmup := warmup a |} w)
  | None => (Some no_account, w)
  end.

Definition queue_delete (key : AccountKey) (name : string) (w : World) : option string * World :=
  match accounts w !! key with
  | Some a =>
      if bool_decide (name ∈ queues a)
      then (None, set_account key {| tables := tables a; queues := queues a ∖ {[name]};
                                     containers := containers a; warmup := warmup a |} w)
      else (Some not_found, w)
  | None => (Some no_account, w)
  end.

Definition container_exists (key : AccountKey) (name : string) (w : World)
  : (string + bool) * World :=
  match accounts w !! key with
  | Some a => (inr (bool_decide (is_Some (containers a !! name))), w)
  | None => (inl no_account, w)
  end.

Definition fresh_properties : ContainerProperties :=
  {| LastModified := "Thu, 01 Jan 1970 00:00:00 GMT"; LeaseStatus := "unlocked";
     LeaseState := "available"; LeaseDuration := EmptyString |}.

Definition container_create_if_not_exists (key : AccountKey) (name : string) (w : World)
  : (string + bool) * World :=
  match accounts w !! key with
  | Some a =>
      match warmup a with
      | S n =>
          (inl "503 ServerBusy",
           set_account key {| tables := tables a; queues := queues a;
                              containers := containers a; warmup := n |} w)
      | O =>
          match containers a !! name with
          | Some _ => (inr false, w)
          | None =>
              (inr true,
               set_account key {| tables := tables a; queues := queues a;
                                  containers := <[name := fresh_properties]> (containers a);
                                  warmup := O |} w)
          end
      end
  | None => (inl no_account, w)
  end.

Definition container_set_permissions (key : AccountKey) (name accessType : string) (w : World)
  : option string * World :=
  match accounts w !! key with
  | Some a =>
      match containers a !! name with
      | Some _ => (None, w)
      | None => (Some not_found, w)
      end
  | None => (Some no_account, w)
  end.

Definition list_containers (key : AccountKey) (prefix : string) (w : World)
  : (string + list Container) * World :=
  match accounts w !! key with
  | Some a =>
      (inr (List.filter (fun c => String.prefix prefix (Container_Name c))
              (map (fun np => {| Container_Name := fst np; Properties := snd np |})
                   (map_to_list (containers a)))), w)
  | None => (inl no_account, w)
  end.

Definition container_delete_if_exists (key : AccountKey) (name : string) (w : World)
  : (string + bool) * World :=
  match accounts w !! key with
  | Some a =>
      match containers a !! name with
      | Some _ =>
          (inr true, set_account key {| tables := tables a; queues := queues a;
                                        containers := delete name (containers a);
                                        warmup := warmup a |} w)
      | None => (inr false, w)
      end
  | None => (inl no_account, w)
  end.

Definition open (path : string) (w : World) : (string + list ascii) * World :=
  match disk w !! path with
  | Some contents => (inr contents, w)
  | None => (inl "no such file or directory", w)
  end.

Definition read_all (file : list ascii) (w : World) : (string + list ascii) * World :=
  (inr file, w).

Definition files_create (account path : string) (contents : list ascii) (overwrite : bool)
           (w : World) : option string * World :=
  match lake w !! account with
  | Some files =>
      match files !! path with
      | Some _ =>
          if overwrite then (None, set_lake account (<[path := contents]> files) w)
          else (Some "403 FileAlreadyExistsException", w)
      | None => (None, set_lake account (<[path := contents]> files) w)
      end
  | None => (Some "no such host", w)
  end.

Definition files_get_file_status (account path : string) (w : World)
  : (Response * option string) * World :=
  match lake w !! account with
  | Some files =>
      match files !! path with
      | Some _ => ((Some 200%Z, None), w)
      | None => ((Some 404%Z, Some "404 FileNotFoundException"), w)
      end
  | None => ((None, Some "no such host"), w)
  end.

Definition files_delete (account path : string) (w : World)
  : (Response * option string) * World :=
  match lake w !! account with
  | Some files =>
      match files !! path with
      | Some _ => ((Some 200%Z, None), set_lake account (delete path files) w)
      | None => ((Some 404%Z, Some "404 FileNotFoundException"), w)
      end
  | None => ((None, Some "no such host"), w)
  end.

Definition vendor : Vendor World := {|
  TableServiceClient := AccountKey;
  QueueServiceClient := AccountKey;
  BlobStorageClient := AccountKey;
  File := list ascii;
  latency := fun _ w => call_latency w;
  getTableServiceClientForStorageAccount := resolve;
  getQueueServiceClientForStorageAccount := resolve;
  getBlobStorageClientForStorageAccount := resolve;
  QueryTables := query_tables;
  Table_Create := table_create;
  Table_Delete := table_delete;
  Queue_Exists := queue_exists;
  Queue_Create := queue_create;
  Queue_Delete := queue_delete;
  Container_Exists := container_exists;
  Container_CreateIfNotExists := container_create_if_not_exists;
  Container_SetPermissions := container_set_permissions;
  ListContainers := list_containers;
  Container_DeleteIfExists := container_delete_if_exists;
  os_Open := open;
  ioutil_ReadAll := read_all;
  Files_Create := files_create;
  Files_GetFileStatus := files_get_file_status;
  Files_Delete := files_delete
|}.

(** The account a storage declaration points at. *)
Definition key_of (d : ResourceData) : AccountKey :=
  (GetString "resource_group_name" d, GetString "storage_account_name" d).

(** Some worlds and declarations to run the adapters on. *)

Definition declare (attrs : list (string * string)) : ResourceData :=
  {| rd_id := EmptyString;
     rd_attrs := list_to_map (map (fun kv => (fst kv, VString (snd kv))) attrs) |}.

Definition start (d : ResourceData) (w : World) : State World :=
  {| data := d; world := w; clock := 0%N; journal := [] |}.

Definition empty_account : Account :=
  {| tables := ∅; queues := ∅; containers := ∅; warmup := 0 |}.

(** One storage account [rg/acct], a Data Lake account [lake1] and a
    local file [/tmp/report.csv]; every call takes 200 ms. *)
Definition world_with (a : Account) (files : gmap string (list ascii)) : World :=
  {| accounts := {[ ("rg", "acct") := a ]};
     lake := {[ "lake1" := files ]};
     disk := {[ "/tmp/report.csv" := list_ascii_of_string "a,b" ]};
     call_latency := 200%N |}.

Definition bare_world : World :=
  {| accounts := ∅; lake := ∅; disk := ∅; call_latency := 200%N |}.

(** An account in use, and a remote file already in place. *)
Definition busy_account : Account :=
  {| tables := {[ "zeta"; "alpha" ]}; queues := {[ "jobs" ]};
     containers := {[ "logs" := fresh_properties ]}; warmup := 0 |}.

Definition busy_world : World :=
  world_with busy_account {[ "/data/report.csv" := list_ascii_of_string "old" ]}.

(** An account provisioned a moment ago: its first [n] container
    creations are rejected. *)
Definition fresh_world (n : nat) : World :=
  world_with {| tables := ∅; queues := ∅; containers := ∅; warmup := n |} ∅.

(** The same account behind a slow link: a call takes [ms] milliseconds. *)
Definition slow_world (n : nat) (ms : N) : World :=
  {| accounts := accounts (fresh_world n); lake := ∅; disk := ∅; call_latency := ms |}.

Definition storage_decl (name : string) : ResourceData :=
  declare [("name", name); ("resource_group_name", "rg"); ("storage_account_name", "acct")].

Definition file_decl : ResourceData :=
  declare [("account_name", "lake1"); ("remote_file_path", "/data/report.csv");
           ("local_file_path", "/tmp/report.csv")].

End Sim.

(** ** Further notions for the statements *)

(** The calls that only ask: the client resolver and the queries. *)
Definition is_query (c : Call) : bool :=
  match c with
  | CallGetTableClient _ _ | CallGetQueueClient _ _ | CallGetBlobClient _ _
  | CallQueryTables | CallQueueExists _ | CallContainerExists _
  | CallListContainers _ | CallGetFileStatus _ _ => true
  | _ => false
  end.

(** An adapter stops with the error [e]: it returns [e], leaves the
    record as it was, and has issued the calls [cs] and no other. *)
Definition stops_with {W A : Type} (c : M W A) (s : State W) (e : error) (cs : list Call)
  : Prop :=
  fst (c s) = Err e /\ data (snd (c s)) = data s /\ issued c s = cs.

(** A container declaration that names its access type. *)
Definition container_decl (name accessType : string) : ResourceData :=
  Sim.declare [("name", name); ("resource_group_name", "rg");
               ("storage_account_name", "acct"); ("container_access_type", accessType)].

(** What a Read or an Exists does besides answering: it adds queries,
    and nothing else, to the journal, and it leaves the identifier alone
    or clears it. *)
Definition only_asks {W A : Type} (c : M W A) (s : State W) : Prop :=
  exists l, journal (snd (c s)) = journal s ++ l
            /\ forallb is_query (map snd l) = true
            /\ (Id (data (snd (c s))) = Id (data s)
                \/ Id (data (snd (c s))) = EmptyString).

(** How a Create ends: in an error, without having changed the record; or
    after its create call [c], with the identifier [name] or, cleared by
    the Read that follows, empty. *)
Definition create_ends {W : Type} (create : M W unit) (s : State W) (c : Call)
           (name : string) : Prop :=
  (data (snd (create s)) = data s /\ exists e, fst (create s) = Err e)
  \/ (In c (issued create s)
      /\ (Id (data (snd (create s))) = name
          \/ Id (data (snd (create s))) = EmptyString)).

(** The reference vendor during an outage: the client resolver answers
    every request with the error [msg], and a local file that opens
    cannot be read. *)
Definition outage (msg : string) : Vendor Sim.World := {|
  TableServiceClient := Sim.AccountKey;
  QueueServiceClient := Sim.AccountKey;
  BlobStorageClient := Sim.AccountKey;
  File := list ascii;
  latency := fun _ w => Sim.call_latency w;
  getTableServiceClientForStorageAccount := fun _ _ w => (ResolveError msg, w);
  getQueueServiceClientForStorageAccount := fun _ _ w => (ResolveError msg, w);
  getBlobStorageClientForStorageAccount := fun _ _ w => (ResolveError msg, w);
  QueryTables := Sim.query_tables;
  Table_Create := Sim.table_create;
  Table_Delete := Sim.table_delete;
  Queue_Exists := Sim.queue_exists;
  Queue_Create := Sim.queue_create;
  Queue_Delete := Sim.queue_delete;
  Container_Exists := Sim.container_exists;
  Container_CreateIfNotExists := Sim.container_create_if_not_exists;
  Container_SetPermissions := Sim.container_set_permissions;
  ListContainers := Sim.list_containers;
  Container_DeleteIfExists := Sim.container_delete_if_exists;
  os_Open := Sim.open;
  ioutil_ReadAll := fun _ w => (inl msg, w);
  Files_Create := Sim.files_create;
  Files_GetFileStatus := Sim.files_get_file_status;
  Files_Delete := Sim.files_delete
|}.

(** The reference vendor behind a paged table listing: [QueryTables]
    answers with the first [page] tables of the account and leaves the
    rest to a continuation, which the adapters never follow (they read
    [tables.Tables] of the one response). *)
Definition paged (page : nat) : Vendor Sim.World := {|
  TableServiceClient := Sim.AccountKey;
  QueueServiceClient := Sim.AccountKey;
  BlobStorageClient := Sim.AccountKey;
  File := list ascii;
  latency := fun _ w => Sim.call_latency w;
  getTableServiceClientForStorageAccount := Sim.resolve;
  getQueueServiceClientForStorageAccount := Sim.resolve;
  getBlobStorageClientForStorageAccount := Sim.resolve;
  QueryTables := fun key w =>
    match Sim.query_tables key w with
    | (inr tables, w') => (inr (firstn page tables), w')
    | answer => answer
    end;
  Table_Create := Sim.table_create;
  Table_Delete := Sim.table_delete;
  Queue_Exists := Sim.queue_exists;
  Queue_Create := Sim.queue_create;
  Queue_Delete := Sim.queue_delete;
  Container_Exists := Sim.container_exists;
  Container_CreateIfNotExists := Sim.container_create_if_not_exists;
  Container_SetPermissions := Sim.container_set_permissions;
  ListContainers := Sim.list_containers;
  Container_DeleteIfExists := Sim.container_delete_if_exists;
  os_Open := Sim.open;
  ioutil_ReadAll := Sim.read_all;
  Files_Create := Sim.files_create;
  Files_GetFileStatus := Sim.files_get_file_status;
  Files_Delete := Sim.files_delete
|}.

(** * Properties *)

(** ** Name validators *)

Section ValidatorFacts.

Import Validate.

(** Each validator returns, in the order of its [if]s, the messages of
    the rules the name violates. *)
Lemma queue_errors_are_violations (value k : string) :
  snd (validateArmStorageQueueName value k)
  = map (fun r => queue_message r k)
        (List.filter (fun r => queue_violates r value)
           [QCharset; QLeadingHyphen; QTrailingHyphen; QTooLong; QTooShort]).
Proof.
  unfold validateArmStorageQueueName, append_if; simpl.
  destruct (negb (match_lower_alnum_hyphen_plus value)),
           (match_leading_hyphen value), (match_trailing_hyphen value),
           (63 <? String.length value)%nat, (String.length value <? 3)%nat;
    reflexivity.
Qed.

Lemma container_errors_are_violations (value k : string) :
  snd (validateArmStorageContainerName value k)
  = map (fun r => container_message r k value)
        (List.filter (fun r => container_violates r value)
           [CCharset; CLength; CLeadingHyphen]).
Proof.
  unfold validateArmStorageContainerName, append_if; simpl.
  destruct (negb (match_root_or_lower_alnum_hyphen_plus value)),
           ((String.length value <? 3)%nat || (63 <? String.length value)%nat),
           (match_leading_hyphen value);
    reflexivity.
Qed.

Lemma table_errors_are_violations (value k : string) :
  snd (validateArmStorageTableName value k)
  = map (fun r => table_message r k value)
        (List.filter (fun r => table_violates r value) [TReserved; TPattern]).
Proof.
  unfold validateArmStorageTableName, append_if; simpl.
  destruct (String.eqb value "table"), (negb (match_table_name value)); reflexivity.
Qed.

(** A rule other than the single violated one is not violated. *)
Ltac other_rule H r' :=
  let E := fresh "E" in
  match goal with
  | |- context [List.filter ?v _] =>
      assert (E : v r' = false)
        by (destruct (v r') eqn:E; [apply H in E; discriminate E | reflexivity])
  end.

Ltac this_rule H r :=
  let E := fresh "E" in
  match goal with
  | |- context [List.filter ?v _] =>
      assert (E : v r = true) by (apply H; reflexivity)
  end.

Lemma queue_single_violation (value k : string) (r : QueueRule) :
  (forall r', queue_violates r' value = true <-> r' = r) ->
  snd (validateArmStorageQueueName value k) = [queue_message r k].
Proof.
  intros H. rewrite queue_errors_are_violations.
  destruct r.
  - this_rule H QCharset. other_rule H QLeadingHyphen. other_rule H QTrailingHyphen.
    other_rule H QTooLong. other_rule H QTooShort.
    cbn [List.filter]. rewrite E, E0, E1, E2, E3. reflexivity.
  - this_rule H QLeadingHyphen. other_rule H QCharset. other_rule H QTrailingHyphen.
    other_rule H QTooLong. other_rule H QTooShort.
    cbn [List.filter]. rewrite E, E0, E1, E2, E3. reflexivity.
  - this_rule H QTrailingHyphen. other_rule H QCharset. other_rule H QLeadingHyphen.
    other_rule H QTooLong. other_rule H QTooShort.
    cbn [List.filter]. rewrite E, E0, E1, E2, E3. reflexivity.
  - this_rule H QTooLong. other_rule H QCharset. other_rule H QLeadingHyphen.
    other_rule H QTrailingHyphen. other_rule H QTooShort.
    cbn [List.filter]. rewrite E, E0, E1, E2, E3. reflexivity.
  - this_rule H QTooShort. other_rule H QCharset. other_rule H QLeadingHyphen.
    other_rule H QTrailingHyphen. other_rule H QTooLong.
    cbn [List.filter]. rewrite E, E0, E1, E2, E3. reflexivity.
Qed.

Lemma container_single_violation (value k : string) (r : ContainerRule) :
  (forall r', container_violates r' value = true <-> r' = r) ->
  snd (validateArmStorageContainerName value k) = [container_message r k value].
Proof.
  intros H. rewrite container_errors_are_violations.
  destruct r.
  - this_rule H CCharset. other_rule H CLength. other_rule H CLeadingHyphen.
    cbn [List.filter]. rewrite E, E0, E1. reflexivity.
  - this_rule H CLength. other_rule H CCharset. other_rule H CLeadingHyphen.
    cbn [List.filter]. rewrite E, E0, E1. reflexivity.
  - this_rule H CLeadingHyphen. other_rule H CCharset. other_rule H CLength.
    cbn [List.filter]. rewrite E, E0, E1. reflexivity.
Qed.

Lemma table_single_violation (value k : string) (r : TableRule) :
  (forall r', table_violates r' value = true <-> r' = r) ->
  snd (validateArmStorageTableName value k) = [table_message r k value].
Proof.
  intros H. rewrite table_errors_are_violations.
  destruct r.
  - this_rule H TReserved. other_rule H TPattern.
    cbn [List.filter]. rewrite E, E0. reflexivity.
  - this_rule H TPattern. other_rule H TReserved.
    cbn [List.filter]. rewrite E, E0. reflexivity.
Qed.

End ValidatorFacts.

(** C4, as amended.  A name that violates exactly one rule of a validator
    gets exactly that rule's message from it, for the queue, the container
    and the table validator alike; so the queue name [-abc] gets only the
    leading-hyphen message, [abc-] only the trailing-hyphen message and
    [ab] only the length message.  The name [Ab] violates two rules of the
    queue and container validators (the upper-case letter is outside the
    character set, and the name is too short) and gets both messages; the
    table validator has one rule for letters and length together, and
    [Ab] gets its one message. *)
Theorem single_violation_single_message (value k : string) :
  (forall r, (forall r', Validate.queue_violates r' value = true <-> r' = r) ->
     snd (Validate.validateArmStorageQueueName value k) = [Validate.queue_message r k])
  /\ (forall r, (forall r', Validate.container_violates r' value = true <-> r' = r) ->
     snd (Validate.validateArmStorageContainerName value k)
     = [Validate.container_message r k value])
  /\ (forall r, (forall r', Validate.table_violates r' value = true <-> r' = r) ->
     snd (Validate.validateArmStorageTableName value k) = [Validate.table_message r k value])
  /\ snd (Validate.validateArmStorageQueueName "-abc" k) = [Validate.queue_leading_msg k]
  /\ snd (Validate.validateArmStorageQueueName "abc-" k) = [Validate.queue_trailing_msg k]
  /\ snd (Validate.validateArmStorageQueueName "ab" k) = [Validate.queue_too_short_msg k]
  /\ snd (Validate.validateArmStorageContainerName "ab" k)
     = [Validate.container_length_msg k "ab"]
  /\ snd (Validate.validateArmStorageQueueName "Ab" k)
     = [Validate.queue_charset_msg k; Validate.queue_too_short_msg k]
  /\ snd (Validate.validateArmStorageContainerName "Ab" k)
     = [Validate.container_charset_msg k "Ab"; Validate.container_length_msg k "Ab"]
  /\ snd (Validate.validateArmStorageTableName "Ab" k) = [Validate.table_pattern_msg k "Ab"].
Proof.
  split; [intros r; apply queue_single_violation|].
  split; [intros r; apply container_single_violation|].
  split; [intros r; apply table_single_violation|].
  repeat split; reflexivity.
Qed.

Lemma single_violation_single_message_witness :
  (forall r', Validate.queue_violates r' "-abc" = true <-> r' = Validate.QLeadingHyphen)
  /\ snd (Validate.validateArmStorageQueueName "-abc" "name")
     = [Validate.queue_message Validate.QLeadingHyphen "name"].
Proof.
  assert (H : forall r', Validate.queue_violates r' "-abc" = true
                         <-> r' = Validate.QLeadingHyphen).
  { intros r'; destruct r'; vm_compute; split; intros E;
      first [reflexivity | discriminate E]. }
  split; [exact H|].
  exact (proj1 (single_violation_single_message "-abc" "name")
               Validate.QLeadingHyphen H).
Defined.

(** The name [Ab] does not get the length message alone: both the queue
    and the container validator also report the character set. *)
Lemma Ab_gets_a_charset_error :
  snd (Validate.validateArmStorageQueueName "Ab" "name")
    <> [Validate.queue_too_short_msg "name"]
  /\ In (Validate.queue_charset_msg "name")
        (snd (Validate.validateArmStorageQueueName "Ab" "name"))
  /\ snd (Validate.validateArmStorageContainerName "Ab" "name")
    <> [Validate.container_length_msg "name" "Ab"]
  /\ In (Validate.container_charset_msg "name" "Ab")
        (snd (Validate.validateArmStorageContainerName "Ab" "name")).
Proof.
  repeat split; vm_compute; first [discriminate | now left].
Qed.

(** C10.  The container validator accepts [$root] with no error although
    [$] is outside the character class; for every other name the
    character-set message is reported exactly when the name is not a
    non-empty run of lower-case letters, digits and hyphens. *)
Theorem container_root_is_the_only_exception (k : string) :
  snd (Validate.validateArmStorageContainerName "$root" k) = []
  /\ Validate.lower_alnum_hyphen "$"%char = false
  /\ forall value, value <> "$root" ->
       (In (Validate.container_charset_msg k value)
           (snd (Validate.validateArmStorageContainerName value k))
        <-> Validate.match_lower_alnum_hyphen_plus value = false).
Proof.
  split; [reflexivity|]. split; [reflexivity|].
  intros value Hne.
  apply String.eqb_neq in Hne.
  unfold Validate.validateArmStorageContainerName,
         Validate.match_root_or_lower_alnum_hyphen_plus, Validate.append_if.
  rewrite Hne; simpl.
  unfold Validate.container_charset_msg, Validate.container_length_msg,
         Validate.container_leading_msg.
  destruct (Validate.match_lower_alnum_hyphen_plus value),
           ((String.length value <? 3)%nat || (63 <? String.length value)%nat),
           (Validate.match_leading_hyphen value); simpl;
    split; intros H; try reflexivity; try discriminate H; try (now left);
    repeat (destruct H as [H|H]; try discriminate H); try contradiction.
Qed.

Lemma container_root_is_the_only_exception_witness :
  "ab_c" <> "$root"
  /\ (In (Validate.container_charset_msg "name" "ab_c")
         (snd (Validate.validateArmStorageContainerName "ab_c" "name"))
      <-> Validate.match_lower_alnum_hyphen_plus "ab_c" = false).
Proof.
  assert (H : "ab_c" <> "$root") by discriminate.
  split; [exact H|].
  exact (proj2 (proj2 (container_root_is_the_only_exception "name")) "ab_c" H).
Defined.

(** ** The adapters, for every vendor *)

(** *** The loop of the table's Read *)

Section LoopFacts.

Lemma drop_journal (j l : list (N * Call)) :
  drop (length j) (map snd (j ++ l)) = map snd l.
Proof. induction j as [|x j IH]; simpl; auto. Qed.

Lemma rangeTablesRead_pointer (name : string) (tables : list Table) (st : TableLoop) :
  table_is_t (rangeTablesRead name tables st)
  = table_is_t st || existsb (named name) tables.
Proof.
  revert st. induction tables as [|t ts IH]; intros st; simpl.
  - now rewrite orb_false_r.
  - rewrite IH. unfold named at 2.
    destruct (String.eqb (Table_Name t) name); simpl.
    + now rewrite orb_true_r.
    + reflexivity.
Qed.

Lemma last_of_cons {A : Type} (x : A) (l : list A) (d d' : A) :
  List.last (x :: l) d = List.last (x :: l) d'.
Proof.
  revert x. induction l as [|y l IH]; intros x; [reflexivity|].
  change (List.last (y :: l) d = List.last (y :: l) d'). apply IH.
Qed.

Lemma rangeTablesRead_cell (name : string) (tables : list Table) (st : TableLoop) :
  loop_t (rangeTablesRead name tables st) = List.last tables (loop_t st).
Proof.
  revert st. induction tables as [|t ts IH]; intros st; [reflexivity|].
  cbn [rangeTablesRead]. rewrite IH.
  destruct ts as [|t' ts].
  - cbn. destruct (String.eqb (Table_Name t) name); reflexivity.
  - change (List.last (t :: t' :: ts) (loop_t st)) with (List.last (t' :: ts) (loop_t st)).
    apply last_of_cons.
Qed.

Lemma deref_after_loop (name : string) (tables : list Table) :
  deref_table (rangeTablesRead name tables {| loop_t := zero_table; table_is_t := false |})
  = if existsb (named name) tables then Some (List.last tables zero_table) else None.
Proof.
  unfold deref_table.
  rewrite rangeTablesRead_pointer, rangeTablesRead_cell. reflexivity.
Qed.

Lemma last_is_listed (tables : list Table) (d : Table) :
  tables <> [] -> In (List.last tables d) tables.
Proof.
  induction tables as [|t ts IH]; intros H; [congruence|].
  destruct ts as [|t' ts]; [now left|].
  right. apply IH. discriminate.
Qed.

Lemma rangeTablesCreate_guard (name : string) (tables : list Table) :
  rangeTablesCreate name tables
  = if existsb (named name) tables
    then Some (ImportAsExistsError "azurerm_storage_table" name)
    else None.
Proof.
  induction tables as [|t ts IH]; simpl; [reflexivity|].
  unfold named at 1.
  destruct (String.eqb (Table_Name t) name) eqn:E; simpl.
  - apply String.eqb_eq in E. now rewrite E.
  - exact IH.
Qed.

Lemma SetAttr_twice (key : string) (v v' : Value) (d : ResourceData) :
  SetAttr key v (SetAttr key v' d) = SetAttr key v d.
Proof.
  unfold SetAttr; simpl. now rewrite insert_insert_eq.
Qed.

(** The loop of the container's Read leaves the world alone; it reports
    whether some listed container bears the name, and the properties it
    stores are those of such a container. *)
Lemma rangeContainersRead_result {W : Type} (name : string) (containers : list Container) :
  forall (found : bool) (s : State W),
  exists d',
    rangeContainersRead name containers found s
    = (Ok (found || existsb (same_name name) containers),
       {| data := d'; world := world s; clock := clock s; journal := journal s |})
    /\ Id d' = Id (data s)
    /\ (List.filter (same_name name) containers = [] -> d' = data s)
    /\ (List.filter (same_name name) containers <> [] ->
        exists c, In c (List.filter (same_name name) containers)
                  /\ d' = SetAttr "properties" (VMap (container_props c)) (data s)).
Proof.
  induction containers as [|c cs IH]; intros found s.
  - exists (data s). simpl. rewrite orb_false_r.
    destruct s; simpl. repeat split; auto. congruence.
  - simpl. change (String.eqb (Container_Name c) name) with (same_name name c).
    destruct (same_name name c) eqn:E.
    + unfold bind, update_data at 1. simpl.
      destruct (IH true {| data := SetAttr "properties" (VMap (container_props c)) (data s);
                           world := world s; clock := clock s; journal := journal s |})
        as (d' & Hrun & Hid & Hnone & Hsome).
      exists d'. simpl in *. rewrite Hrun, orb_true_r. repeat split; auto.
      * discriminate.
      * intros _. destruct (List.filter (same_name name) cs) eqn:F.
        -- exists c. split; [now left|]. now apply Hnone.
        -- destruct Hsome as (c' & Hin & ->); [discriminate|].
           exists c'. split; [now right|]. apply SetAttr_twice.
    + destruct (IH found s) as (d' & Hrun & Hid & Hnone & Hsome).
      exists d'. simpl. rewrite Hrun. repeat split; auto.
Qed.

End LoopFacts.

Arguments deref_table : simpl never.
Arguments rangeTablesRead : simpl never.
Arguments rangeTablesCreate : simpl never.
Arguments rangeContainersRead : simpl never.
Arguments zero_table : simpl never.
Arguments container_props : simpl never.
Arguments Retry : simpl never.
Arguments retry_loop : simpl never.
Arguments container_create_budget : simpl never.

Ltac unfold_monad :=
  unfold bind, call, get_data, update_data, ret, fail in *.

(** Case analysis on the next answer of the vendor that a hypothesis
    inspects. *)
Ltac vendor_case :=
  match goal with
  | H : context [match ?x with _ => _ end] |- _ =>
      lazymatch type of x with
      | (_ * _)%type => destruct x as [? ?] eqn:?
      | _ => destruct x eqn:?
      end
  end.

(** Case analysis on the next answer of the vendor that the goal inspects. *)
Ltac goal_case :=
  match goal with
  | |- context [match ?x with _ => _ end] =>
      lazymatch x with
      | context [match _ with _ => _ end] => fail
      | _ => destruct x eqn:?
      end
  end; cbn.

(** The calls issued, read off the journal. *)
Ltac read_journal :=
  unfold issued, calls; cbn;
  repeat (match goal with
          | E : ?x = (_, _) |- context [?x] => rewrite E
          end; cbn);
  rewrite <- ?List.app_assoc; try apply drop_journal.

(** Replay in the goal the answers found so far. *)
Ltac use_answers :=
  cbn;
  repeat (match goal with
          | E : ?x = (_, _) |- context [?x] => rewrite E
          end; cbn).

Section AdapterFacts.

Context {W : Type} (V : Vendor W).

Lemma GetString_SetAttr (key v : string) (d : ResourceData) :
  GetString key (SetAttr key (VString v) d) = v.
Proof.
  unfold GetString, GetStringOr, SetAttr; simpl.
  now rewrite lookup_insert_eq.
Qed.

Lemma table_read_when_listed (s : State W) (tables : list Table) :
  tables_response V (data s) (world s) = Some tables ->
  fst (resourceArmStorageTableRead V s) = Ok tt
  /\ data (snd (resourceArmStorageTableRead V s))
     = if existsb (named (GetString "name" (data s))) tables
       then SetAttr "name" (VString (Table_Name (List.last tables zero_table))) (data s)
       else SetId EmptyString (data s).
Proof.
  unfold tables_response, resourceArmStorageTableRead. unfold_monad. cbn.
  intros H. repeat vendor_case; try discriminate H.
  injection H as ->. use_answers.
  rewrite deref_after_loop.
  destruct (existsb _ tables); cbn; auto.
Qed.

Lemma queue_exists_when_reported (s : State W) (b : bool) :
  queue_reported V (data s) (world s) = Some b ->
  fst (resourceArmStorageQueueExists V s) = Ok b
  /\ data (snd (resourceArmStorageQueueExists V s))
     = if b then data s else SetId EmptyString (data s).
Proof.
  unfold queue_reported, resourceArmStorageQueueExists. unfold_monad. cbn.
  intros H. repeat vendor_case; try discriminate H;
    injection H as <-; use_answers; auto.
  destruct b0; cbn; auto.
Qed.

Lemma queue_read_when_reported (s : State W) (b : bool) :
  queue_reported V (data s) (world s) = Some b ->
  fst (resourceArmStorageQueueRead V s) = Ok tt
  /\ data (snd (resourceArmStorageQueueRead V s))
     = if b then data s else SetId EmptyString (data s).
Proof.
  intros H. destruct (queue_exists_when_reported s b H) as [Hok Hdata].
  unfold resourceArmStorageQueueRead, bind.
  destruct (resourceArmStorageQueueExists V s) as [[e|err] s'];
    cbn in Hok, Hdata; [|discriminate Hok].
  destruct e; cbn; auto.
Qed.

Lemma container_exists_when_reported (s : State W) (b : bool) :
  container_reported V (data s) (world s) = Some b ->
  fst (resourceArmStorageContainerExists V s) = Ok b
  /\ data (snd (resourceArmStorageContainerExists V s))
     = if b then data s else SetId EmptyString (data s).
Proof.
  unfold container_reported, resourceArmStorageContainerExists. unfold_monad. cbn.
  intros H. repeat vendor_case; try discriminate H;
    injection H as <-; use_answers; auto.
  destruct b0; cbn; auto.
Qed.

Lemma container_read_when_not_listed (s : State W) :
  container_listed V (data s) (world s) = Some [] ->
  fst (resourceArmStorageContainerRead V s) = Ok tt
  /\ data (snd (resourceArmStorageContainerRead V s)) = SetId EmptyString (data s).
Proof.
  unfold container_listed, resourceArmStorageContainerRead. unfold_monad. cbn.
  intros H. repeat vendor_case; try discriminate H; use_answers; auto.
  injection H as H.
  match goal with
  | |- context [rangeContainersRead ?n ?cs ?f ?st] =>
      destruct (rangeContainersRead_result n cs f st) as (d' & Hrun & _ & Hnone & _)
  end.
  rewrite Hrun. cbn.
  assert (Hex : existsb (same_name (GetString "name" (data s))) l = false).
  { destruct (existsb _ l) eqn:E; [|reflexivity].
    apply existsb_exists in E. destruct E as (c & Hin & Hc).
    assert (Hf : In c (List.filter (same_name (GetString "name" (data s))) l))
      by (apply filter_In; auto).
    rewrite H in Hf. destruct Hf. }
  rewrite Hex. cbn. rewrite (Hnone H). auto.
Qed.

Lemma container_read_when_listed (s : State W) (listed : list Container) :
  container_listed V (data s) (world s) = Some listed -> listed <> [] ->
  fst (resourceArmStorageContainerRead V s) = Ok tt
  /\ Id (data (snd (resourceArmStorageContainerRead V s))) = Id (data s)
  /\ exists c, In c listed
       /\ data (snd (resourceArmStorageContainerRead V s))
          = SetAttr "properties" (VMap (container_props c)) (data s).
Proof.
  unfold container_listed, resourceArmStorageContainerRead. unfold_monad. cbn.
  intros H Hne. repeat vendor_case; try discriminate H; use_answers.
  - injection H as <-. congruence.
  - injection H as H.
    match goal with
    | |- context [rangeContainersRead ?n ?cs ?f ?st] =>
        destruct (rangeContainersRead_result n cs f st) as (d' & Hrun & Hid & _ & Hsome)
    end.
    rewrite Hrun. cbn.
    rewrite H in Hsome. destruct (Hsome Hne) as (c & Hin & Hd').
    assert (Hex : existsb (same_name (GetString "name" (data s))) l = true).
    { apply existsb_exists. exists c. rewrite <- H in Hin.
      apply filter_In in Hin. exact Hin. }
    rewrite Hex. cbn. split; [reflexivity|]. split; [exact Hid|].
    exists c. split; [exact Hin | exact Hd'].
Qed.

Lemma file_read_when_reported (s : State W) (b : bool) :
  file_reported V (data s) (world s) = Some b ->
  fst (resourceArmDataLakeStoreFileRead V s) = Ok tt
  /\ data (snd (resourceArmDataLakeStoreFileRead V s))
     = if b then data s else SetId EmptyString (data s).
Proof.
  unfold file_reported, resourceArmDataLakeStoreFileRead. unfold_monad. cbn.
  intros H. repeat vendor_case; try discriminate H;
    injection H as <-; use_answers; auto.
  all: repeat match goal with
              | E : ResponseWasNotFound _ = _ |- _ => rewrite E
              end; cbn; auto.
Qed.

(** Delete of the table and of the queue has no case for a missing
    object: whatever failure the vendor's delete reports comes back as an
    error. *)
Lemma table_delete_hands_on_failure (s : State W) (tableClient : TableServiceClient V)
      (w1 w2 : W) (err : string) :
  getTableServiceClientForStorageAccount V
    (GetString "resource_group_name" (data s)) (GetString "storage_account_name" (data s))
    (world s) = (AccountFound tableClient, w1) ->
  Table_Delete V tableClient (GetString "name" (data s)) w1 = (Some err, w2) ->
  fst (resourceArmStorageTableDelete V s)
  = Err (Errorf "Error deleting storage table %q from storage account %q: %s"
                [GetString "name" (data s); GetString "storage_account_name" (data s)]
                (Some (VendorError err))).
Proof.
  intros H1 H2. unfold resourceArmStorageTableDelete. unfold_monad. cbn.
  rewrite H1. cbn. rewrite H2. reflexivity.
Qed.

Lemma queue_delete_hands_on_failure (s : State W) (queueClient : QueueServiceClient V)
      (w1 w2 : W) (err : string) :
  getQueueServiceClientForStorageAccount V
    (GetString "resource_group_name" (data s)) (GetString "storage_account_name" (data s))
    (world s) = (AccountFound queueClient, w1) ->
  Queue_Delete V queueClient (GetString "name" (data s)) w1 = (Some err, w2) ->
  fst (resourceArmStorageQueueDelete V s)
  = Err (Errorf "Error deleting storage queue %q: %s"
                [GetString "name" (data s)] (Some (VendorError err))).
Proof.
  intros H1 H2. unfold resourceArmStorageQueueDelete. unfold_monad. cbn.
  rewrite H1. cbn. rewrite H2. reflexivity.
Qed.

(** Delete of the file does have that case: a failure whose response is
    a 404 is no error. *)
Lemma file_delete_absorbs_not_found (s : State W) (resp : Response) (err : option string)
      (w1 : W) :
  Files_Delete V (GetString "account_name" (data s)) (Id (data s)) (world s)
  = ((resp, err), w1) ->
  ResponseWasNotFound resp = true ->
  fst (resourceArmDataLakeStoreFileDelete V s) = Ok tt.
Proof.
  intros H1 H2. unfold resourceArmDataLakeStoreFileDelete. unfold_monad. cbn.
  rewrite H1. cbn. destruct err; [rewrite H2|]; reflexivity.
Qed.

(** And Delete of the container asks for [DeleteIfExists], whose answer,
    deleted or not, is success. *)
Lemma container_delete_absorbs_absence (s : State W) (blobClient : BlobStorageClient V)
      (w1 w2 : W) (deleted : bool) :
  getBlobStorageClientForStorageAccount V
    (GetString "resource_group_name" (data s)) (GetString "storage_account_name" (data s))
    (world s) = (AccountFound blobClient, w1) ->
  Container_DeleteIfExists V blobClient (GetString "name" (data s)) w1 = (inr deleted, w2) ->
  fst (resourceArmStorageContainerDelete V s) = Ok tt.
Proof.
  intros H1 H2. unfold resourceArmStorageContainerDelete. unfold_monad. cbn.
  rewrite H1. cbn. rewrite H2. reflexivity.
Qed.

End AdapterFacts.

Section ForEveryVendor.

Context {W : Type} (V : Vendor W).

(** C9.  When some table of the response bears the declared name, the
    table's Read stores in [name] the name of the last table of the
    response, whichever table matched; the stored name is the declared
    one exactly when that last table is a match. *)
Theorem table_read_stores_last_name (s : State W) (tables : list Table) :
  tables_response V (data s) (world s) = Some tables ->
  existsb (named (GetString "name" (data s))) tables = true ->
  fst (resourceArmStorageTableRead V s) = Ok tt
  /\ data (snd (resourceArmStorageTableRead V s))
     = SetAttr "name" (VString (Table_Name (List.last tables zero_table))) (data s)
  /\ GetString "name" (data (snd (resourceArmStorageTableRead V s)))
     = Table_Name (List.last tables zero_table)
  /\ (GetString "name" (data (snd (resourceArmStorageTableRead V s)))
      = GetString "name" (data s)
      <-> named (GetString "name" (data s)) (List.last tables zero_table) = true).
Proof.
  intros Hresp Hmatch.
  destruct (table_read_when_listed V s tables Hresp) as [Hok Hdata].
  rewrite Hmatch in Hdata.
  split; [exact Hok|]. split; [exact Hdata|].
  rewrite Hdata, GetString_SetAttr.
  split; [reflexivity|].
  unfold named. rewrite String.eqb_eq. tauto.
Qed.

(** C1, as amended.  For the table, the queue and the container, Create
    on a name the vendor reports as present returns the import signal,
    leaves the local record as it was and issues no call beyond the
    resolver and the existence query.  The file adapter has no such check:
    its Create never returns the import signal, and whenever the local
    file can be read it issues the create request, with the overwrite
    argument false; and it issues no create request but for the declared
    account and remote path, with overwrite false. *)
Theorem create_refuses_existing_object (s : State W) :
  (table_reported V (data s) (world s) = Some true ->
     fst (resourceArmStorageTableCreate V s)
     = Err (ImportAsExistsError "azurerm_storage_table" (GetString "name" (data s)))
     /\ data (snd (resourceArmStorageTableCreate V s)) = data s
     /\ issued (resourceArmStorageTableCreate V) s
        = [CallGetTableClient (GetString "resource_group_name" (data s))
                              (GetString "storage_account_name" (data s));
           CallQueryTables])
  /\ (queue_reported V (data s) (world s) = Some true ->
     fst (resourceArmStorageQueueCreate V s)
     = Err (ImportAsExistsError "azurerm_storage_queue" (GetString "name" (data s)))
     /\ data (snd (resourceArmStorageQueueCreate V s)) = data s
     /\ issued (resourceArmStorageQueueCreate V) s
        = [CallGetQueueClient (GetString "resource_group_name" (data s))
                              (GetString "storage_account_name" (data s));
           CallQueueExists (GetString "name" (data s))])
  /\ (container_reported V (data s) (world s) = Some true ->
     fst (resourceArmStorageContainerCreate V s)
     = Err (ImportAsExistsError "azurerm_storage_container" (GetString "name" (data s)))
     /\ data (snd (resourceArmStorageContainerCreate V s)) = data s
     /\ issued (resourceArmStorageContainerCreate V) s
        = [CallGetBlobClient (GetString "resource_group_name" (data s))
                             (GetString "storage_account_name" (data s));
           CallContainerExists (GetString "name" (data s))])
  /\ (forall resourceName id,
        fst (resourceArmDataLakeStoreFileCreate V s)
        <> Err (ImportAsExistsError resourceName id))
  /\ (forall file w1 contents w2,
        os_Open V (GetString "local_file_path" (data s)) (world s) = (inr file, w1) ->
        ioutil_ReadAll V file w1 = (inr contents, w2) ->
        In (CallFileCreate (GetString "account_name" (data s))
                           (GetString "remote_file_path" (data s)) false)
           (issued (resourceArmDataLakeStoreFileCreate V) s))
  /\ (forall account path overwrite,
        In (CallFileCreate account path overwrite)
           (issued (resourceArmDataLakeStoreFileCreate V) s) ->
        account = GetString "account_name" (data s)
        /\ path = GetString "remote_file_path" (data s)
        /\ overwrite = false).
Proof.
  split; [|split; [|split; [|split; [|split]]]].
  - unfold table_reported, resourceArmStorageTableCreate. unfold_monad. cbn.
    intros H. repeat vendor_case; try discriminate H.
    injection H as H. use_answers. rewrite rangeTablesCreate_guard, H. cbn.
    repeat split. read_journal. rewrite rangeTablesCreate_guard, H. cbn.
    rewrite <- ?List.app_assoc. apply drop_journal.
  - unfold queue_reported, resourceArmStorageQueueCreate. unfold_monad. cbn.
    intros H. repeat vendor_case; try discriminate H.
    injection H as ->. use_answers. repeat split. read_journal.
  - unfold container_reported, resourceArmStorageContainerCreate. unfold_monad. cbn.
    intros H. repeat vendor_case; try discriminate H.
    injection H as ->. use_answers. repeat split. read_journal.
  - intros resourceName id.
    unfold resourceArmDataLakeStoreFileCreate, resourceArmDataLakeStoreFileRead.
    unfold_monad. cbn. repeat goal_case; discriminate.
  - intros file w1 contents w2 Hopen Hread.
    unfold issued, calls, resourceArmDataLakeStoreFileCreate,
           resourceArmDataLakeStoreFileRead.
    unfold_monad. cbn. rewrite Hopen. cbn. rewrite Hread. cbn.
    repeat goal_case; rewrite <- ?List.app_assoc; rewrite drop_journal; cbn; tauto.
  - intros account path overwrite.
    unfold issued, calls, resourceArmDataLakeStoreFileCreate,
           resourceArmDataLakeStoreFileRead.
    unfold_monad. cbn.
    repeat goal_case; rewrite <- ?List.app_assoc; rewrite drop_journal; cbn;
      intuition (try discriminate; congruence).
Qed.

(** C3, as amended.  When the resolver reports the account as not found,
    Read and Exists clear the identifier and succeed, and Delete succeeds
    leaving the record as it is; Create does not succeed: it fails with
    [Storage Account %q Not Found], leaves the record as it is and issues
    no further call.  This holds for the table, the queue and the
    container (the table has no Exists). *)
Theorem account_missing_outcomes (s : State W) :
  (table_account_missing V (data s) (world s) = true ->
     (fst (resourceArmStorageTableRead V s) = Ok tt
      /\ data (snd (resourceArmStorageTableRead V s)) = SetId EmptyString (data s))
     /\ (fst (resourceArmStorageTableDelete V s) = Ok tt
         /\ data (snd (resourceArmStorageTableDelete V s)) = data s)
     /\ (fst (resourceArmStorageTableCreate V s)
         = Err (Errorf "Storage Account %q Not Found"
                       [GetString "storage_account_name" (data s)] None)
         /\ data (snd (resourceArmStorageTableCreate V s)) = data s
         /\ issued (resourceArmStorageTableCreate V) s
            = [CallGetTableClient (GetString "resource_group_name" (data s))
                                  (GetString "storage_account_name" (data s))]))
  /\ (queue_account_missing V (data s) (world s) = true ->
     (fst (resourceArmStorageQueueRead V s) = Ok tt
      /\ data (snd (resourceArmStorageQueueRead V s)) = SetId EmptyString (data s))
     /\ (fst (resourceArmStorageQueueExists V s) = Ok false
         /\ data (snd (resourceArmStorageQueueExists V s)) = SetId EmptyString (data s))
     /\ (fst (resourceArmStorageQueueDelete V s) = Ok tt
         /\ data (snd (resourceArmStorageQueueDelete V s)) = data s)
     /\ (fst (resourceArmStorageQueueCreate V s)
         = Err (Errorf "Storage Account %q Not Found"
                       [GetString "storage_account_name" (data s)] None)
         /\ data (snd (resourceArmStorageQueueCreate V s)) = data s
         /\ issued (resourceArmStorageQueueCreate V) s
            = [CallGetQueueClient (GetString "resource_group_name" (data s))
                                  (GetString "storage_account_name" (data s))]))
  /\ (blob_account_missing V (data s) (world s) = true ->
     (fst (resourceArmStorageContainerRead V s) = Ok tt
      /\ data (snd (resourceArmStorageContainerRead V s)) = SetId EmptyString (data s))
     /\ (fst (resourceArmStorageContainerExists V s) = Ok false
         /\ data (snd (resourceArmStorageContainerExists V s)) = SetId EmptyString (data s))
     /\ (fst (resourceArmStorageContainerDelete V s) = Ok tt
         /\ data (snd (resourceArmStorageContainerDelete V s)) = data s)
     /\ (fst (resourceArmStorageContainerCreate V s)
         = Err (Errorf "Storage Account %q Not Found"
                       [GetString "storage_account_name" (data s)] None)
         /\ data (snd (resourceArmStorageContainerCreate V s)) = data s
         /\ issued (resourceArmStorageContainerCreate V) s
            = [CallGetBlobClient (GetString "resource_group_name" (data s))
                                 (GetString "storage_account_name" (data s))])).
Proof.
  split; [|split].
  - unfold table_account_missing, resourceArmStorageTableRead,
           resourceArmStorageTableDelete, resourceArmStorageTableCreate.
    unfold_monad. cbn.
    intros H. repeat vendor_case; try discriminate H.
    use_answers. repeat split. read_journal.
  - unfold queue_account_missing, resourceArmStorageQueueRead,
           resourceArmStorageQueueExists, resourceArmStorageQueueDelete,
           resourceArmStorageQueueCreate.
    unfold_monad. cbn.
    intros H. repeat vendor_case; try discriminate H.
    use_answers. repeat split. read_journal.
  - unfold blob_account_missing, resourceArmStorageContainerRead,
           resourceArmStorageContainerExists, resourceArmStorageContainerDelete,
           resourceArmStorageContainerCreate.
    unfold_monad. cbn.
    intros H. repeat vendor_case; try discriminate H.
    use_answers. repeat split. read_journal.
Qed.

(** C7.  For the queue and the container, Exists returns the presence the
    vendor reports; when the object is missing it also clears the
    identifier, and when it is present it leaves the record as it is. *)
Theorem exists_reports_presence (s : State W) (b : bool) :
  (queue_reported V (data s) (world s) = Some b ->
     fst (resourceArmStorageQueueExists V s) = Ok b
     /\ data (snd (resourceArmStorageQueueExists V s))
        = if b then data s else SetId EmptyString (data s))
  /\ (container_reported V (data s) (world s) = Some b ->
     fst (resourceArmStorageContainerExists V s) = Ok b
     /\ data (snd (resourceArmStorageContainerExists V s))
        = if b then data s else SetId EmptyString (data s)).
Proof.
  split.
  - apply queue_exists_when_reported.
  - apply container_exists_when_reported.
Qed.

(** X19.  What Read does with the answer to its own query, for each of
    the four kinds and every vendor.  When the query reports nothing under the name the record
    holds (for the file: under its identifier), Read clears the identifier
    and returns no error.  When it reports the object, Read returns no
    error and keeps the identifier; the table then stores as [name] the
    name of the last table of the response, the container stores under
    [properties] the [last_modified], [lease_status], [lease_state] and
    [lease_duration] of a listed container and leaves every other
    attribute alone, the queue and the file leave the record as it is. *)
Theorem read_follows_its_query (s : State W) :
  (* table *)
  (table_reported V (data s) (world s) = Some false ->
     fst (resourceArmStorageTableRead V s) = Ok tt
     /\ data (snd (resourceArmStorageTableRead V s)) = SetId EmptyString (data s))
  /\ (forall tables,
       tables_response V (data s) (world s) = Some tables ->
       existsb (named (GetString "name" (data s))) tables = true ->
       fst (resourceArmStorageTableRead V s) = Ok tt
       /\ Id (data (snd (resourceArmStorageTableRead V s))) = Id (data s)
       /\ data (snd (resourceArmStorageTableRead V s))
          = SetAttr "name" (VString (Table_Name (List.last tables zero_table))) (data s))
  (* queue *)
  /\ (forall b, queue_reported V (data s) (world s) = Some b ->
       fst (resourceArmStorageQueueRead V s) = Ok tt
       /\ data (snd (resourceArmStorageQueueRead V s))
          = if b then data s else SetId EmptyString (data s))
  (* container *)
  /\ (container_listed V (data s) (world s) = Some [] ->
       fst (resourceArmStorageContainerRead V s) = Ok tt
       /\ data (snd (resourceArmStorageContainerRead V s)) = SetId EmptyString (data s))
  /\ (forall listed,
       container_listed V (data s) (world s) = Some listed -> listed <> [] ->
       fst (resourceArmStorageContainerRead V s) = Ok tt
       /\ Id (data (snd (resourceArmStorageContainerRead V s))) = Id (data s)
       /\ exists c m,
            In c listed
            /\ rd_attrs (data (snd (resourceArmStorageContainerRead V s))) !! "properties"
               = Some (VMap m)
            /\ m !! "last_modified" = Some (LastModified (Properties c))
            /\ m !! "lease_status" = Some (LeaseStatus (Properties c))
            /\ m !! "lease_state" = Some (LeaseState (Properties c))
            /\ m !! "lease_duration" = Some (LeaseDuration (Properties c))
            /\ forall key, key <> "properties" ->
                 rd_attrs (data (snd (resourceArmStorageContainerRead V s))) !! key
                 = rd_attrs (data s) !! key)
  (* file *)
  /\ (forall b, file_reported V (data s) (world s) = Some b ->
       fst (resourceArmDataLakeStoreFileRead V s) = Ok tt
       /\ data (snd (resourceArmDataLakeStoreFileRead V s))
          = if b then data s else SetId EmptyString (data s)).
Proof.
  split; [|split; [|split; [|split; [|split]]]].
  - unfold table_reported, resourceArmStorageTableRead. unfold_monad. cbn.
    intros H. repeat vendor_case; try discriminate H; use_answers; auto.
    injection H as H. rewrite deref_after_loop, H. cbn. auto.
  - intros tables Hresp Hmatch.
    destruct (table_read_when_listed V s tables Hresp) as [Hok Hdata].
    rewrite Hmatch in Hdata. rewrite Hdata. auto.
  - intros b. apply queue_read_when_reported.
  - apply container_read_when_not_listed.
  - intros listed Hl Hne.
    destruct (container_read_when_listed V s listed Hl Hne) as (Hok & Hid & c & Hin & Hd).
    split; [exact Hok|]. split; [exact Hid|].
    exists c, (container_props c). rewrite Hd.
    split; [exact Hin|]. split; [apply lookup_insert_eq|].
    unfold container_props.
    split; [now rewrite !lookup_insert_ne, lookup_insert_eq by discriminate|].
    split; [now rewrite !lookup_insert_ne, lookup_insert_eq by discriminate|].
    split; [now rewrite !lookup_insert_ne, lookup_insert_eq by discriminate|].
    split; [now rewrite lookup_insert_eq|].
    intros key Hkey. apply lookup_insert_ne. congruence.
  - intros b. apply file_read_when_reported.
Qed.

End ForEveryVendor.

(** ** The bounded retry *)

Section RetryFacts.

Context {W : Type} (V : Vendor W) (reference : ContainerReference V).

Local Abbreviation f := (checkContainerIsCreated V reference).
Local Abbreviation the_call := (CallContainerCreateIfNotExists (snd reference)).

Local Open Scope N_scope.

Lemma attempt_run (s : State W) :
  f s = (Ok (attempt_answer
               (fst (Container_CreateIfNotExists V (fst reference) (snd reference) (world s)))),
         {| data := data s;
            world := snd (Container_CreateIfNotExists V (fst reference) (snd reference)
                                                      (world s));
            clock := clock s + latency V the_call (world s);
            journal := (journal s ++ [(clock s, the_call)])%list |}).
Proof.
  unfold checkContainerIsCreated, bind, call, ret.
  destruct (Container_CreateIfNotExists V reference.1 reference.2 (world s))
    as [[err|b] w']; reflexivity.
Qed.

Lemma retry_loop_step (fuel : nat) (deadline : N) (g : M W (option RetryError))
      (last : option error) (s : State W) :
  retry_loop (S fuel) deadline g last s
  = if deadline <=? clock s then (Err (TimeoutError last), s)
    else match g s with
         | (Err e, s1) => (Err e, s1)
         | (Ok None, s1) =>
             if clock s1 <=? deadline then (Ok tt, s1)
             else (Err (TimeoutError last), s1)
         | (Ok (Some rerr), s1) =>
             if Retryable rerr
             then retry_loop fuel deadline g (Some (RetryError_Err rerr))
                             (snd (sleep poll_interval s1))
             else (Err (RetryError_Err rerr), s1)
         end.
Proof. reflexivity. Qed.

Lemma retry_loop_spent (deadline : N) (g : M W (option RetryError)) (last : option error)
      (s : State W) :
  retry_loop 0 deadline g last s = (Err (TimeoutError last), s).
Proof. reflexivity. Qed.

Lemma after_failures_shift (g : M W (option RetryError)) (n : nat) (s : State W) :
  after_failures g (S n) s = after_failures g n (snd (sleep poll_interval (snd (g s)))).
Proof.
  induction n as [|n IH]; [reflexivity|].
  change (after_failures g (S (S n)) s)
    with (snd (sleep poll_interval (snd (g (after_failures g (S n) s))))).
  rewrite IH. reflexivity.
Qed.

(** Every failed round costs at least the pause. *)
Lemma clock_after_failures (n : nat) (s : State W) :
  clock s + N.of_nat n * poll_interval <= clock (after_failures f n s).
Proof.
  induction n as [|n IH]; [simpl; lia|].
  change (after_failures f (S n) s)
    with (snd (sleep poll_interval (snd (f (after_failures f n s))))).
  rewrite attempt_run. cbn [sleep snd clock]. unfold poll_interval in *. lia.
Qed.

Lemma retry_loop_succeeds (deadline : N) :
  forall (n fuel : nat) (last : option error) (s : State W),
    (n < fuel)%nat ->
    (forall i, (i < n)%nat -> fst (f (after_failures f i s)) <> Ok None) ->
    fst (f (after_failures f n s)) = Ok None ->
    clock (after_failures f n s) < deadline ->
    clock (snd (f (after_failures f n s))) <= deadline ->
    retry_loop fuel deadline f last s = (Ok tt, snd (f (after_failures f n s))).
Proof.
  induction n as [|n IH]; intros fuel last s Hfuel Hfail Hok Hstart Hend.
  - destruct fuel as [|fuel]; [lia|].
    rewrite retry_loop_step. cbn [after_failures] in *.
    destruct (N.leb_spec deadline (clock s)); [lia|].
    destruct (f s) as [[[re|]|e] s1]; cbn in *; try discriminate Hok.
    destruct (N.leb_spec (clock s1) deadline); [reflexivity|lia].
  - destruct fuel as [|fuel]; [lia|].
    rewrite retry_loop_step.
    pose proof (clock_after_failures (S n) s) as Hmono.
    destruct (N.leb_spec deadline (clock s)); [unfold poll_interval in *; lia|].
    pose proof (Hfail 0%nat ltac:(lia)) as H0. cbn [after_failures] in H0.
    rewrite after_failures_shift in Hok, Hstart, Hend |- *.
    assert (Hrest : forall i, (i < n)%nat ->
              fst (f (after_failures f i (snd (sleep poll_interval (snd (f s))))))
              <> Ok None).
    { intros i Hi. specialize (Hfail (S i) ltac:(lia)).
      now rewrite after_failures_shift in Hfail. }
    clear Hfail.
    rewrite (attempt_run s) in *. cbn [fst] in H0.
    destruct (Container_CreateIfNotExists V reference.1 reference.2 (world s))
      as [[err|b] w']; cbn [attempt_answer fst snd] in *; [|congruence].
    cbn [Retryable RetryableError RetryError_Err].
    apply IH; [lia | exact Hrest | exact Hok | exact Hstart | exact Hend].
Qed.

(** Whatever the vendor answers, the loop ends in success after an
    attempt that succeeded within the budget, or in the time-out error
    with the budget spent; it touches nothing but the world, the clock
    and the journal, and every attempt it made started within the
    budget. *)
Lemma retry_loop_outcome (deadline : N) :
  forall (fuel : nat) (last : option error) (s : State W),
    deadline < clock s + N.of_nat fuel * poll_interval ->
    exists l,
      journal (snd (retry_loop fuel deadline f last s)) = (journal s ++ l)%list
      /\ Forall (fun tc => fst tc < deadline /\ snd tc = the_call) l
      /\ data (snd (retry_loop fuel deadline f last s)) = data s
      /\ ((fst (retry_loop fuel deadline f last s) = Ok tt
           /\ clock (snd (retry_loop fuel deadline f last s)) <= deadline
           /\ exists s0, fst (f s0) = Ok None
                         /\ snd (retry_loop fuel deadline f last s) = snd (f s0))
          \/ (exists last',
                fst (retry_loop fuel deadline f last s) = Err (TimeoutError last')
                /\ deadline <= clock (snd (retry_loop fuel deadline f last s)))).
Proof.
  induction fuel as [|fuel IH]; intros last s Hinv.
  - rewrite retry_loop_spent.
    exists []. cbn. rewrite app_nil_r. repeat split; auto.
    right. exists last. split; [reflexivity|]. lia.
  - rewrite retry_loop_step.
    destruct (N.leb_spec deadline (clock s)) as [Hpast|Hin].
    { exists []. cbn. rewrite app_nil_r. repeat split; auto.
      right. exists last. auto. }
    pose proof (attempt_run s) as Hrun.
    destruct (Container_CreateIfNotExists V reference.1 reference.2 (world s))
      as [[err|b] w'] eqn:Hcall; cbn [attempt_answer fst snd] in Hrun; rewrite Hrun.
    + cbn [Retryable RetryableError RetryError_Err sleep snd].
      match goal with
      | |- context [retry_loop fuel deadline f ?la ?st] =>
          destruct (IH la st) as (l & Hj & Hl & Hd & Hres)
      end.
      { cbn [clock]. unfold poll_interval in *. lia. }
      exists ((clock s, the_call) :: l).
      rewrite Hj, Hd. cbn [journal data]. rewrite <- List.app_assoc.
      repeat split; auto.
    + destruct (N.leb_spec (clock s + latency V the_call (world s)) deadline)
        as [Hback|Hlate];
        cbn [clock];
        destruct (N.leb_spec (clock s + latency V the_call (world s)) deadline);
        try lia.
      * exists [(clock s, the_call)]. cbn. repeat split; auto.
        left. repeat split; auto. exists s. rewrite Hrun. auto.
      * exists [(clock s, the_call)]. cbn. repeat split; auto.
        right. exists last. split; auto. lia.
Qed.

Lemma budget_fuel (timeout : N) :
  timeout < N.of_nat (N.to_nat (timeout / poll_interval) + 1) * poll_interval.
Proof.
  unfold poll_interval.
  pose proof (N.div_mod timeout 500 ltac:(lia)).
  pose proof (N.mod_upper_bound timeout 500 ltac:(lia)). lia.
Qed.

(** The same, for the helper run with its budget from [s]. *)
Lemma Retry_outcome (timeout : N) (s : State W) :
  exists l,
    journal (snd (Retry timeout f s)) = (journal s ++ l)%list
    /\ Forall (fun tc => fst tc < clock s + timeout /\ snd tc = the_call) l
    /\ data (snd (Retry timeout f s)) = data s
    /\ ((fst (Retry timeout f s) = Ok tt
         /\ clock (snd (Retry timeout f s)) <= clock s + timeout
         /\ exists s0, fst (f s0) = Ok None /\ snd (Retry timeout f s) = snd (f s0))
        \/ (exists last, fst (Retry timeout f s) = Err (TimeoutError last)
                         /\ clock s + timeout <= clock (snd (Retry timeout f s)))).
Proof.
  unfold Retry. apply retry_loop_outcome.
  pose proof (budget_fuel timeout). lia.
Qed.

(** C5.  Around container creation, every failure of [CreateIfNotExists]
    is handed to the retry helper as retryable.  Run with its budget of
    120 seconds from [s]: when [n] attempts fail and the next one starts
    and comes back within the budget, the helper returns success, in the
    state that attempt left; in every run it returns success or the
    time-out error, the latter only once the budget has elapsed; it never
    returns success when no attempt succeeds; and every attempt it made
    started before the budget elapsed, so none follows the expiry. *)
Theorem container_creation_is_retried_within_budget (s : State W) :
  let attempt := checkContainerIsCreated V reference in
  let deadline := clock s + container_create_budget in
  let outcome := Retry container_create_budget attempt s in
  (forall s0,
     match fst (Container_CreateIfNotExists V (fst reference) (snd reference) (world s0)) with
     | inl err =>
         fst (attempt s0)
         = Ok (Some {| RetryError_Err := VendorError err; Retryable := true |})
     | inr _ => fst (attempt s0) = Ok None
     end)
  /\ (forall n,
        (forall i, (i < n)%nat -> fst (attempt (after_failures attempt i s)) <> Ok None) ->
        fst (attempt (after_failures attempt n s)) = Ok None ->
        clock (after_failures attempt n s) < deadline ->
        clock (snd (attempt (after_failures attempt n s))) <= deadline ->
        outcome = (Ok tt, snd (attempt (after_failures attempt n s))))
  /\ (fst outcome = Ok tt
      \/ exists last, fst outcome = Err (TimeoutError last)
                      /\ deadline <= clock (snd outcome))
  /\ ((forall s0, fst (attempt s0) <> Ok None) -> fst outcome <> Ok tt)
  /\ Forall (fun tc => fst tc < deadline
                       /\ snd tc = CallContainerCreateIfNotExists (snd reference))
            (drop (length (journal s)) (journal (snd outcome))).
Proof.
  intros attempt deadline outcome. subst attempt.
  destruct (Retry_outcome container_create_budget s) as (l & Hj & Hl & _ & Hres).
  fold deadline in Hl, Hres. fold outcome in Hj, Hres.
  split; [|split; [|split; [|split]]].
  - intros s0. rewrite (attempt_run s0).
    destruct (Container_CreateIfNotExists V reference.1 reference.2 (world s0))
      as [[err|b] w']; reflexivity.
  - intros n Hfail Hok Hstart Hend.
    apply retry_loop_succeeds; auto.
    pose proof (clock_after_failures n s) as Hmono.
    assert (N.of_nat n <= container_create_budget / poll_interval); [|lia].
    apply N.div_le_lower_bound; unfold poll_interval in *; unfold deadline in *; lia.
  - destruct Hres as [(Hok & _)|Hbad]; [left; exact Hok | right; exact Hbad].
  - intros Hall Hok.
    destruct Hres as [(_ & _ & s0 & Hs0 & _)|(last & Hbad & _)].
    + exact (Hall s0 Hs0).
    + rewrite Hok in Hbad. discriminate Hbad.
  - rewrite Hj. rewrite drop_app_length. exact Hl.
Qed.

End RetryFacts.

(** ** The reference vendor *)

Arguments resourceArmStorageTableRead : simpl never.
Arguments resourceArmStorageQueueRead : simpl never.
Arguments resourceArmStorageContainerRead : simpl never.
Arguments resourceArmDataLakeStoreFileRead : simpl never.
Arguments GetString : simpl never.
Arguments GetStringOr : simpl never.
Arguments SetId : simpl never.
Arguments SetAttr : simpl never.
Arguments Sim.set_account : simpl never.
Arguments Sim.set_lake : simpl never.

Section SimFacts.

Lemma GetString_SetAttr_other (key key' : string) (v : Value) (d : ResourceData) :
  key <> key' -> GetString key' (SetAttr key v d) = GetString key' d.
Proof.
  intros H. unfold GetString, GetStringOr, SetAttr; simpl.
  now rewrite lookup_insert_ne.
Qed.

Lemma presence_of_id (d : ResourceData) :
  Id d <> EmptyString -> presence d = PRESENT.
Proof.
  unfold presence. destruct (Id d); [congruence | reflexivity].
Qed.


Lemma sim_tables_response (d : ResourceData) (w : Sim.World) (a : Sim.Account) :
  Sim.accounts w !! Sim.key_of d = Some a ->
  tables_response Sim.vendor d w = Some (map Build_Table (elements (Sim.tables a))).
Proof.
  intros H. unfold tables_response. cbn. unfold Sim.resolve, Sim.query_tables.
  unfold Sim.key_of in H. rewrite H. cbn. now rewrite H.
Qed.

Lemma sim_named_listed (name : string) (X : gset string) :
  existsb (named name) (map Build_Table (elements X)) = true <-> name ∈ X.
Proof.
  rewrite existsb_exists. split.
  - intros (t & Hin & Hn). apply in_map_iff in Hin. destruct Hin as (n & <- & Hin).
    unfold named in Hn. cbn in Hn. apply String.eqb_eq in Hn. subst n.
    apply elem_of_elements. now apply list_elem_of_In.
  - intros H. exists {| Table_Name := name |}. split.
    + apply in_map. apply list_elem_of_In. now apply elem_of_elements.
    + unfold named. cbn. apply String.eqb_refl.
Qed.

Lemma sim_table_read_world (s : State Sim.World) :
  world (snd (resourceArmStorageTableRead Sim.vendor s)) = world s.
Proof.
  unfold resourceArmStorageTableRead. unfold_monad. cbn.
  unfold Sim.resolve, Sim.query_tables.
  destruct (Sim.accounts (world s) !! _) eqn:E; cbn; [|reflexivity].
  rewrite E. cbn. destruct (deref_table _); reflexivity.
Qed.

Lemma sim_table_create_inv (s s1 : State Sim.World) :
  resourceArmStorageTableCreate Sim.vendor s = (Ok tt, s1) ->
  exists a sX,
    Sim.accounts (world s) !! Sim.key_of (data s) = Some a
    /\ data sX = SetId (GetString "name" (data s)) (data s)
    /\ world sX = Sim.set_account (Sim.key_of (data s))
                    {| Sim.tables := {[GetString "name" (data s)]} ∪ Sim.tables a;
                       Sim.queues := Sim.queues a;
                       Sim.containers := Sim.containers a;
                       Sim.warmup := Sim.warmup a |} (world s)
    /\ resourceArmStorageTableRead Sim.vendor sX = (Ok tt, s1).
Proof.
  unfold resourceArmStorageTableCreate. unfold_monad. cbn.
  unfold Sim.resolve, Sim.query_tables, Sim.table_create, Sim.key_of.
  destruct (Sim.accounts (world s) !! _) as [a|] eqn:E; cbn; [|discriminate].
  rewrite ?E. cbn. destruct (rangeTablesCreate _ _); [discriminate|]. cbn.
  rewrite ?E. cbn. destruct (bool_decide _); cbn; [discriminate|].
  intros H. exists a. eexists. split; [reflexivity|]. 
  split; [|split; [|exact H]]; reflexivity.
Qed.


Lemma named_last_listed (tables : list Table) (name : string) :
  existsb (named name) tables = true ->
  existsb (named (Table_Name (List.last tables zero_table))) tables = true.
Proof.
  intros H. apply existsb_exists. exists (List.last tables zero_table). split.
  - apply last_is_listed. intros ->. discriminate H.
  - unfold named. apply String.eqb_refl.
Qed.

Lemma key_of_SetId (v : string) (d : ResourceData) : Sim.key_of (SetId v d) = Sim.key_of d.
Proof. reflexivity. Qed.

Lemma key_of_SetAttr_name (v : Value) (d : ResourceData) :
  Sim.key_of (SetAttr "name" v d) = Sim.key_of d.
Proof.
  unfold Sim.key_of. rewrite !GetString_SetAttr_other by discriminate. reflexivity.
Qed.

Lemma sim_create_then_read_table (s s1 : State Sim.World) :
  resourceArmStorageTableCreate Sim.vendor s = (Ok tt, s1) ->
  GetString "name" (data s) <> EmptyString ->
  Id (data s1) = GetString "name" (data s)
  /\ fst (resourceArmStorageTableRead Sim.vendor s1) = Ok tt
  /\ Id (data (snd (resourceArmStorageTableRead Sim.vendor s1))) = GetString "name" (data s)
  /\ presence (data (snd (resourceArmStorageTableRead Sim.vendor s1))) = PRESENT.
Proof.
  intros Hcreate Hname.
  destruct (sim_table_create_inv s s1 Hcreate) as (a & sX & Hacc & HdX & HwX & Hread).
  set (name := GetString "name" (data s)) in *.
  set (a' := {| Sim.tables := {[name]} ∪ Sim.tables a; Sim.queues := Sim.queues a;
                Sim.containers := Sim.containers a; Sim.warmup := Sim.warmup a |}) in *.
  set (T := map Build_Table (elements (Sim.tables a'))).
  assert (HrespX : tables_response Sim.vendor (data sX) (world sX) = Some T).
  { apply sim_tables_response.
    rewrite HdX, HwX, key_of_SetId. unfold Sim.set_account; cbn.
    apply lookup_insert_eq. }
  assert (HnameX : GetString "name" (data sX) = name) by (now rewrite HdX).
  assert (HinT : existsb (named name) T = true).
  { apply sim_named_listed. cbn. set_solver. }
  destruct (table_read_when_listed Sim.vendor sX T HrespX) as [_ Hdata1].
  rewrite HnameX, HinT, Hread in Hdata1. cbn [snd] in Hdata1.
  pose proof (sim_table_read_world sX) as Hw1. rewrite Hread in Hw1. cbn [snd] in Hw1.
  assert (Hid1 : Id (data s1) = name) by (now rewrite Hdata1, HdX).
  assert (Hresp1 : tables_response Sim.vendor (data s1) (world s1) = Some T).
  { apply sim_tables_response.
    rewrite Hdata1, Hw1, HwX, key_of_SetAttr_name, HdX, key_of_SetId.
    unfold Sim.set_account; cbn. apply lookup_insert_eq. }
  destruct (table_read_when_listed Sim.vendor s1 T Hresp1) as [Hok2 Hdata2].
  assert (Hname1 : GetString "name" (data s1) = Table_Name (List.last T zero_table))
    by (rewrite Hdata1; apply GetString_SetAttr).
  rewrite Hname1, (named_last_listed T name HinT) in Hdata2.
  assert (Hid2 : Id (data (snd (resourceArmStorageTableRead Sim.vendor s1))) = name)
    by (rewrite Hdata2; exact Hid1).
  split; [exact Hid1|]. split; [exact Hok2|]. split; [exact Hid2|].
  apply presence_of_id. now rewrite Hid2.
Qed.

(** *** Queue *)

Lemma sim_queue_reported (d : ResourceData) (w : Sim.World) (a : Sim.Account) :
  Sim.accounts w !! Sim.key_of d = Some a ->
  queue_reported Sim.vendor d w = Some (bool_decide (GetString "name" d ∈ Sim.queues a)).
Proof.
  intros H. unfold queue_reported. cbn. unfold Sim.resolve, Sim.queue_exists.
  unfold Sim.key_of in H. rewrite H. cbn. now rewrite H.
Qed.

Lemma sim_queue_read_world (s : State Sim.World) :
  world (snd (resourceArmStorageQueueRead Sim.vendor s)) = world s.
Proof.
  unfold resourceArmStorageQueueRead, resourceArmStorageQueueExists. unfold_monad. cbn.
  unfold Sim.resolve, Sim.queue_exists.
  destruct (Sim.accounts (world s) !! _) eqn:E; cbn; [|reflexivity].
  rewrite ?E. cbn. destruct (bool_decide _); reflexivity.
Qed.

Lemma sim_queue_create_inv (s s1 : State Sim.World) :
  resourceArmStorageQueueCreate Sim.vendor s = (Ok tt, s1) ->
  exists a sX,
    Sim.accounts (world s) !! Sim.key_of (data s) = Some a
    /\ data sX = SetId (GetString "name" (data s)) (data s)
    /\ world sX = Sim.set_account (Sim.key_of (data s))
                    {| Sim.tables := Sim.tables a;
                       Sim.queues := {[GetString "name" (data s)]} ∪ Sim.queues a;
                       Sim.containers := Sim.containers a;
                       Sim.warmup := Sim.warmup a |} (world s)
    /\ resourceArmStorageQueueRead Sim.vendor sX = (Ok tt, s1).
Proof.
  unfold resourceArmStorageQueueCreate. unfold_monad. cbn.
  unfold Sim.resolve, Sim.queue_exists, Sim.queue_create, Sim.key_of.
  destruct (Sim.accounts (world s) !! _) as [a|] eqn:E; cbn; [|discriminate].
  rewrite ?E. cbn. destruct (bool_decide _); [discriminate|]. cbn.
  rewrite ?E. cbn.
  intros H. exists a. eexists. split; [reflexivity|].
  split; [|split; [|exact H]]; reflexivity.
Qed.

Lemma sim_create_then_read_queue (s s1 : State Sim.World) :
  resourceArmStorageQueueCreate Sim.vendor s = (Ok tt, s1) ->
  GetString "name" (data s) <> EmptyString ->
  Id (data s1) = GetString "name" (data s)
  /\ fst (resourceArmStorageQueueRead Sim.vendor s1) = Ok tt
  /\ Id (data (snd (resourceArmStorageQueueRead Sim.vendor s1))) = GetString "name" (data s)
  /\ presence (data (snd (resourceArmStorageQueueRead Sim.vendor s1))) = PRESENT.
Proof.
  intros Hcreate Hname.
  destruct (sim_queue_create_inv s s1 Hcreate) as (a & sX & Hacc & HdX & HwX & Hread).
  set (name := GetString "name" (data s)) in *.
  set (a' := {| Sim.tables := Sim.tables a; Sim.queues := {[name]} ∪ Sim.queues a;
                Sim.containers := Sim.containers a; Sim.warmup := Sim.warmup a |}) in *.
  assert (HaX : Sim.accounts (world sX) !! Sim.key_of (data sX) = Some a').
  { rewrite HdX, HwX, key_of_SetId. unfold Sim.set_account; cbn. apply lookup_insert_eq. }
  assert (Hin : bool_decide (name ∈ Sim.queues a') = true).
  { apply bool_decide_eq_true. cbn. set_solver. }
  pose proof (sim_queue_reported (data sX) (world sX) a' HaX) as HrepX.
  assert (HnameX : GetString "name" (data sX) = name) by (now rewrite HdX).
  rewrite HnameX, Hin in HrepX.
  destruct (queue_read_when_reported Sim.vendor sX true HrepX) as [_ Hdata1].
  rewrite Hread in Hdata1. cbn [snd] in Hdata1.
  pose proof (sim_queue_read_world sX) as Hw1. rewrite Hread in Hw1. cbn [snd] in Hw1.
  assert (Hrep1 : queue_reported Sim.vendor (data s1) (world s1) = Some true)
    by (rewrite Hdata1, Hw1; exact HrepX).
  destruct (queue_read_when_reported Sim.vendor s1 true Hrep1) as [Hok2 Hdata2].
  assert (Hid1 : Id (data s1) = name) by (now rewrite Hdata1, HdX).
  assert (Hid2 : Id (data (snd (resourceArmStorageQueueRead Sim.vendor s1))) = name)
    by (rewrite Hdata2; exact Hid1).
  split; [exact Hid1|]. split; [exact Hok2|]. split; [exact Hid2|].
  apply presence_of_id. now rewrite Hid2.
Qed.

(** *** File *)

Lemma sim_file_reported (d : ResourceData) (w : Sim.World)
      (files : gmap string (list ascii)) (contents : list ascii) :
  Sim.lake w !! GetString "account_name" d = Some files ->
  files !! Id d = Some contents ->
  file_reported Sim.vendor d w = Some true.
Proof.
  intros H1 H2. unfold file_reported. cbn. unfold Sim.files_get_file_status.
  now rewrite H1, H2.
Qed.

Lemma sim_file_read_world (s : State Sim.World) :
  world (snd (resourceArmDataLakeStoreFileRead Sim.vendor s)) = world s.
Proof.
  unfold resourceArmDataLakeStoreFileRead. unfold_monad. cbn.
  unfold Sim.files_get_file_status.
  destruct (Sim.lake (world s) !! _) as [files|]; cbn; [|reflexivity].
  destruct (files !! _); reflexivity.
Qed.

Lemma sim_file_create_inv (s s1 : State Sim.World) :
  resourceArmDataLakeStoreFileCreate Sim.vendor s = (Ok tt, s1) ->
  exists files contents sX,
    data sX = SetId (GetString "remote_file_path" (data s)) (data s)
    /\ Sim.lake (world sX) !! GetString "account_name" (data s)
       = Some (<[GetString "remote_file_path" (data s) := contents]> files)
    /\ resourceArmDataLakeStoreFileRead Sim.vendor sX = (Ok tt, s1).
Proof.
  unfold resourceArmDataLakeStoreFileCreate. unfold_monad. cbn.
  unfold Sim.open, Sim.read_all, Sim.files_create.
  destruct (Sim.disk (world s) !! _) as [contents|]; cbn; [|discriminate].
  destruct (Sim.lake (world s) !! _) as [files|] eqn:E; cbn; [|discriminate].
  destruct (files !! _); cbn; [discriminate|].
  intros H. exists files, contents. eexists.
  split; [|split; [|exact H]]; [reflexivity|].
  cbn. unfold Sim.set_lake; cbn. apply lookup_insert_eq.
Qed.

Lemma sim_create_then_read_file (s s1 : State Sim.World) :
  resourceArmDataLakeStoreFileCreate Sim.vendor s = (Ok tt, s1) ->
  GetString "remote_file_path" (data s) <> EmptyString ->
  Id (data s1) = GetString "remote_file_path" (data s)
  /\ fst (resourceArmDataLakeStoreFileRead Sim.vendor s1) = Ok tt
  /\ Id (data (snd (resourceArmDataLakeStoreFileRead Sim.vendor s1)))
     = GetString "remote_file_path" (data s)
  /\ presence (data (snd (resourceArmDataLakeStoreFileRead Sim.vendor s1))) = PRESENT.
Proof.
  intros Hcreate Hpath.
  destruct (sim_file_create_inv s s1 Hcreate) as (files & contents & sX & HdX & Hlake & Hread).
  set (path := GetString "remote_file_path" (data s)) in *.
  assert (HrepX : file_reported Sim.vendor (data sX) (world sX) = Some true).
  { apply (sim_file_reported _ _ (<[path := contents]> files) contents).
    - rewrite HdX. exact Hlake.
    - rewrite HdX. cbn. apply lookup_insert_eq. }
  destruct (file_read_when_reported Sim.vendor sX true HrepX) as [_ Hdata1].
  rewrite Hread in Hdata1. cbn [snd] in Hdata1.
  pose proof (sim_file_read_world sX) as Hw1. rewrite Hread in Hw1. cbn [snd] in Hw1.
  assert (Hrep1 : file_reported Sim.vendor (data s1) (world s1) = Some true)
    by (rewrite Hdata1, Hw1; exact HrepX).
  destruct (file_read_when_reported Sim.vendor s1 true Hrep1) as [Hok2 Hdata2].
  assert (Hid1 : Id (data s1) = path) by (now rewrite Hdata1, HdX).
  assert (Hid2 : Id (data (snd (resourceArmDataLakeStoreFileRead Sim.vendor s1))) = path)
    by (rewrite Hdata2; exact Hid1).
  split; [exact Hid1|]. split; [exact Hok2|]. split; [exact Hid2|].
  apply presence_of_id. now rewrite Hid2.
Qed.

(** *** Container *)

Lemma prefix_refl (s : string) : String.prefix s s = true.
Proof.
  induction s as [|c s IH]; [reflexivity|].
  cbn. destruct (ascii_dec c c); [exact IH | congruence].
Qed.

Lemma sim_container_listed (d : ResourceData) (w : Sim.World) (a : Sim.Account)
      (p : ContainerProperties) :
  Sim.accounts w !! Sim.key_of d = Some a ->
  Sim.containers a !! GetString "name" d = Some p ->
  exists listed, container_listed Sim.vendor d w = Some listed /\ listed <> [].
Proof.
  intros H Hp. unfold container_listed. cbn. unfold Sim.resolve, Sim.list_containers.
  unfold Sim.key_of in H. rewrite H. cbn. rewrite H. cbn.
  eexists. split; [reflexivity|].
  intros Hnil.
  assert (Hin : In {| Container_Name := GetString "name" d; Properties := p |}
                   (List.filter (same_name (GetString "name" d))
                      (List.filter (fun c => String.prefix (GetString "name" d) (Container_Name c))
                         (map (fun np => {| Container_Name := fst np; Properties := snd np |})
                              (map_to_list (Sim.containers a)))))).
  { apply filter_In. split; [|apply String.eqb_refl].
    apply filter_In. split; [|apply prefix_refl].
    apply in_map_iff. exists (GetString "name" d, p). split; [reflexivity|].
    apply list_elem_of_In. now apply elem_of_map_to_list. }
  rewrite Hnil in Hin. destruct Hin.
Qed.

Lemma sim_container_read_world (s : State Sim.World) :
  world (snd (resourceArmStorageContainerRead Sim.vendor s)) = world s.
Proof.
  unfold resourceArmStorageContainerRead. unfold_monad. cbn.
  unfold Sim.resolve, Sim.list_containers.
  destruct (Sim.accounts (world s) !! _) eqn:E; cbn; [|reflexivity].
  rewrite ?E. cbn.
  match goal with
  | |- context [rangeContainersRead ?n ?cs ?f ?st] =>
      destruct (rangeContainersRead_result n cs f st) as (d' & Hrun & _)
  end.
  rewrite Hrun. cbn. destruct (existsb _ _); reflexivity.
Qed.

Lemma sim_create_if_not_exists_ok (key : string * string) (name : string) (w : Sim.World)
      (b : bool) :
  fst (Sim.container_create_if_not_exists key name w) = inr b ->
  exists a' p,
    Sim.accounts (snd (Sim.container_create_if_not_exists key name w)) !! key = Some a'
    /\ Sim.containers a' !! name = Some p.
Proof.
  unfold Sim.container_create_if_not_exists.
  destruct (Sim.accounts w !! key) as [a|] eqn:E; [|discriminate].
  destruct (Sim.warmup a); [|discriminate].
  destruct (Sim.containers a !! name) as [p|] eqn:Ep; cbn; intros _.
  - exists a, p. auto.
  - eexists. exists Sim.fresh_properties. unfold Sim.set_account; cbn.
    split; [apply lookup_insert_eq|]. cbn. apply lookup_insert_eq.
Qed.

Lemma sim_retry_success (key : string * string) (name : string) (s sR : State Sim.World) :
  Retry container_create_budget (checkContainerIsCreated Sim.vendor (key, name)) s
  = (Ok tt, sR) ->
  data sR = data s
  /\ exists a' p, Sim.accounts (world sR) !! key = Some a' /\ Sim.containers a' !! name = Some p.
Proof.
  intros HR.
  destruct (Retry_outcome Sim.vendor (key, name) container_create_budget s)
    as (l & _ & _ & Hd & Hres).
  rewrite HR in Hd, Hres. cbn [fst snd] in Hd, Hres.
  split; [exact Hd|].
  destruct Hres as [(_ & _ & s0 & Hs0 & ->)|(last & Hbad & _)]; [|discriminate Hbad].
  rewrite (attempt_run Sim.vendor (key, name) s0) in Hs0 |- *.
  cbn [fst snd world] in Hs0 |- *.
  change (Container_CreateIfNotExists Sim.vendor key name (world s0))
    with (Sim.container_create_if_not_exists key name (world s0)) in *.
  destruct (fst (Sim.container_create_if_not_exists key name (world s0))) as [err|b] eqn:E;
    [discriminate Hs0|].
  exact (sim_create_if_not_exists_ok key name (world s0) b E).
Qed.


Lemma sim_container_create_inv (s s1 : State Sim.World) :
  resourceArmStorageContainerCreate Sim.vendor s = (Ok tt, s1) ->
  exists a' p sX,
    Sim.accounts (world sX) !! Sim.key_of (data s) = Some a'
    /\ Sim.containers a' !! GetString "name" (data s) = Some p
    /\ data sX = SetId (GetString "name" (data s)) (data s)
    /\ resourceArmStorageContainerRead Sim.vendor sX = (Ok tt, s1).
Proof.
  unfold resourceArmStorageContainerCreate. unfold_monad. cbn.
  unfold Sim.resolve, Sim.container_exists, Sim.key_of, GetContainerReference.
  destruct (Sim.accounts (world s) !! _) as [a|] eqn:E; cbn; [|discriminate].
  rewrite ?E. cbn. destruct (bool_decide _); [discriminate|]. cbn.
  match goal with
  | |- context [Retry ?t ?f ?st] => destruct (Retry t f st) as [[[]|e] sR] eqn:HR
  end; [|discriminate].
  destruct (sim_retry_success _ _ _ _ HR) as (Hd & a' & p & Ha' & Hp).
  cbn in Hd. unfold Sim.container_set_permissions. rewrite Ha', Hp. cbn.
  intros H. exists a', p. eexists.
  split; [|split; [|split; [|exact H]]]; cbn; [exact Ha' | exact Hp |].
  now rewrite Hd.
Qed.

Lemma key_of_SetAttr_properties (v : Value) (d : ResourceData) :
  Sim.key_of (SetAttr "properties" v d) = Sim.key_of d.
Proof.
  unfold Sim.key_of. rewrite !GetString_SetAttr_other by discriminate. reflexivity.
Qed.

Lemma sim_create_then_read_container (s s1 : State Sim.World) :
  resourceArmStorageContainerCreate Sim.vendor s = (Ok tt, s1) ->
  GetString "name" (data s) <> EmptyString ->
  Id (data s1) = GetString "name" (data s)
  /\ fst (resourceArmStorageContainerRead Sim.vendor s1) = Ok tt
  /\ Id (data (snd (resourceArmStorageContainerRead Sim.vendor s1)))
     = GetString "name" (data s)
  /\ presence (data (snd (resourceArmStorageContainerRead Sim.vendor s1))) = PRESENT.
Proof.
  intros Hcreate Hname.
  destruct (sim_container_create_inv s s1 Hcreate) as (a' & p & sX & Ha' & Hp & HdX & Hread).
  set (name := GetString "name" (data s)) in *.
  assert (HaX : Sim.accounts (world sX) !! Sim.key_of (data sX) = Some a')
    by (now rewrite HdX, key_of_SetId).
  assert (HpX : Sim.containers a' !! GetString "name" (data sX) = Some p)
    by (now rewrite HdX).
  destruct (sim_container_listed (data sX) (world sX) a' p HaX HpX) as (lX & HlX & HneX).
  destruct (container_read_when_listed Sim.vendor sX lX HlX HneX) as (_ & Hid1 & c & _ & Hdata1).
  rewrite Hread in Hid1, Hdata1. cbn [snd] in Hid1, Hdata1.
  pose proof (sim_container_read_world sX) as Hw1. rewrite Hread in Hw1. cbn [snd] in Hw1.
  assert (Ha1 : Sim.accounts (world s1) !! Sim.key_of (data s1) = Some a')
    by (now rewrite Hw1, Hdata1, key_of_SetAttr_properties).
  assert (Hp1 : Sim.containers a' !! GetString "name" (data s1) = Some p).
  { rewrite Hdata1, GetString_SetAttr_other by discriminate. exact HpX. }
  destruct (sim_container_listed (data s1) (world s1) a' p Ha1 Hp1) as (l1 & Hl1 & Hne1).
  destruct (container_read_when_listed Sim.vendor s1 l1 Hl1 Hne1) as (Hok2 & Hid2 & _).
  assert (HidX : Id (data sX) = name) by (now rewrite HdX).
  rewrite HidX in Hid1. rewrite Hid1 in Hid2.
  split; [exact Hid1|]. split; [exact Hok2|]. split; [exact Hid2|].
  apply presence_of_id. now rewrite Hid2.
Qed.

(** X20.  The reference vendor reports an object as soon as it is
    created.  Against it, for each of the four kinds: when Create succeeds on a
    declaration whose name (for the file, whose remote path) is not
    empty, the identifier is that name, and a Read right after it
    succeeds and leaves the record PRESENT with the identifier still
    equal to the declared name. *)
Theorem reference_create_then_read_is_present (s s1 : State Sim.World) :
  (resourceArmStorageTableCreate Sim.vendor s = (Ok tt, s1) ->
   GetString "name" (data s) <> EmptyString ->
   Id (data s1) = GetString "name" (data s)
   /\ fst (resourceArmStorageTableRead Sim.vendor s1) = Ok tt
   /\ Id (data (snd (resourceArmStorageTableRead Sim.vendor s1))) = GetString "name" (data s)
   /\ presence (data (snd (resourceArmStorageTableRead Sim.vendor s1))) = PRESENT)
  /\ (resourceArmStorageQueueCreate Sim.vendor s = (Ok tt, s1) ->
   GetString "name" (data s) <> EmptyString ->
   Id (data s1) = GetString "name" (data s)
   /\ fst (resourceArmStorageQueueRead Sim.vendor s1) = Ok tt
   /\ Id (data (snd (resourceArmStorageQueueRead Sim.vendor s1))) = GetString "name" (data s)
   /\ presence (data (snd (resourceArmStorageQueueRead Sim.vendor s1))) = PRESENT)
  /\ (resourceArmStorageContainerCreate Sim.vendor s = (Ok tt, s1) ->
   GetString "name" (data s) <> EmptyString ->
   Id (data s1) = GetString "name" (data s)
   /\ fst (resourceArmStorageContainerRead Sim.vendor s1) = Ok tt
   /\ Id (data (snd (resourceArmStorageContainerRead Sim.vendor s1)))
      = GetString "name" (data s)
   /\ presence (data (snd (resourceArmStorageContainerRead Sim.vendor s1))) = PRESENT)
  /\ (resourceArmDataLakeStoreFileCreate Sim.vendor s = (Ok tt, s1) ->
   GetString "remote_file_path" (data s) <> EmptyString ->
   Id (data s1) = GetString "remote_file_path" (data s)
   /\ fst (resourceArmDataLakeStoreFileRead Sim.vendor s1) = Ok tt
   /\ Id (data (snd (resourceArmDataLakeStoreFileRead Sim.vendor s1)))
      = GetString "remote_file_path" (data s)
   /\ presence (data (snd (resourceArmDataLakeStoreFileRead Sim.vendor s1))) = PRESENT).
Proof.
  split; [apply sim_create_then_read_table|].
  split; [apply sim_create_then_read_queue|].
  split; [apply sim_create_then_read_container | apply sim_create_then_read_file].
Qed.

End SimFacts.

(** ** Runs against the reference vendor *)

Lemma table_read_stores_last_name_witness :
  let s := Sim.start (Sim.storage_decl "alpha") Sim.busy_world in
  let tables := [{| Table_Name := "alpha" |}; {| Table_Name := "zeta" |}] in
  tables_response Sim.vendor (data s) (world s) = Some tables
  /\ existsb (named (GetString "name" (data s))) tables = true
  /\ fst (resourceArmStorageTableRead Sim.vendor s) = Ok tt
  /\ GetString "name" (data (snd (resourceArmStorageTableRead Sim.vendor s))) = "zeta".
Proof.
  intros s tables.
  assert (H1 : tables_response Sim.vendor (data s) (world s) = Some tables)
    by (vm_compute; reflexivity).
  assert (H2 : existsb (named (GetString "name" (data s))) tables = true)
    by (vm_compute; reflexivity).
  destruct (table_read_stores_last_name Sim.vendor s tables H1 H2) as (Hok & _ & Hname & _).
  exact (conj H1 (conj H2 (conj Hok Hname))).
Defined.

Lemma create_refuses_existing_object_witness :
  let s := Sim.start (Sim.storage_decl "alpha") Sim.busy_world in
  table_reported Sim.vendor (data s) (world s) = Some true
  /\ fst (resourceArmStorageTableCreate Sim.vendor s)
     = Err (ImportAsExistsError "azurerm_storage_table" "alpha")
  /\ data (snd (resourceArmStorageTableCreate Sim.vendor s)) = data s
  /\ issued (resourceArmStorageTableCreate Sim.vendor) s
     = [CallGetTableClient "rg" "acct"; CallQueryTables].
Proof.
  intros s.
  assert (H : table_reported Sim.vendor (data s) (world s) = Some true)
    by (vm_compute; reflexivity).
  split; [exact H|].
  exact (proj1 (create_refuses_existing_object Sim.vendor s) H).
Defined.

(** The remote file is already there, and Create of the file adapter
    still sends the create request; what comes back is the service's
    refusal, not the import signal. *)
Lemma file_create_has_no_import_guard :
  let s := Sim.start Sim.file_decl Sim.busy_world in
  fst (Sim.files_get_file_status "lake1" "/data/report.csv" (world s)) = (Some 200%Z, None)
  /\ fst (resourceArmDataLakeStoreFileCreate Sim.vendor s)
     = Err (Errorf "Error issuing create request for Data Lake Store File %q : %+v"
                   ["/data/report.csv"]
                   (Some (VendorError "403 FileAlreadyExistsException")))
  /\ issued (resourceArmDataLakeStoreFileCreate Sim.vendor) s
     = [CallOpen "/tmp/report.csv"; CallReadAll;
        CallFileCreate "lake1" "/data/report.csv" false].
Proof.
  intros s. repeat split; vm_compute; reflexivity.
Qed.

Lemma account_missing_outcomes_witness :
  let s := Sim.start (Sim.storage_decl "alpha") Sim.bare_world in
  blob_account_missing Sim.vendor (data s) (world s) = true
  /\ fst (resourceArmStorageContainerRead Sim.vendor s) = Ok tt
  /\ fst (resourceArmStorageContainerExists Sim.vendor s) = Ok false
  /\ fst (resourceArmStorageContainerDelete Sim.vendor s) = Ok tt
  /\ fst (resourceArmStorageContainerCreate Sim.vendor s)
     = Err (Errorf "Storage Account %q Not Found" ["acct"] None).
Proof.
  intros s.
  assert (H : blob_account_missing Sim.vendor (data s) (world s) = true)
    by (vm_compute; reflexivity).
  destruct (proj2 (proj2 (account_missing_outcomes Sim.vendor s)) H)
    as ((Hread & _) & (Hexists & _) & (Hdelete & _) & (Hcreate & _)).
  exact (conj H (conj Hread (conj Hexists (conj Hdelete Hcreate)))).
Defined.

(** With no such account, Create of the table, the queue and the
    container fails instead of succeeding. *)
Lemma create_fails_without_account :
  let s := Sim.start (Sim.storage_decl "alpha") Sim.bare_world in
  table_account_missing Sim.vendor (data s) (world s) = true
  /\ fst (resourceArmStorageTableCreate Sim.vendor s) <> Ok tt
  /\ fst (resourceArmStorageTableCreate Sim.vendor s)
     = Err (Errorf "Storage Account %q Not Found" ["acct"] None)
  /\ fst (resourceArmStorageQueueCreate Sim.vendor s)
     = Err (Errorf "Storage Account %q Not Found" ["acct"] None)
  /\ fst (resourceArmStorageContainerCreate Sim.vendor s)
     = Err (Errorf "Storage Account %q Not Found" ["acct"] None).
Proof.
  intros s. repeat split; vm_compute; first [reflexivity | discriminate].
Qed.

Lemma exists_reports_presence_witness :
  let s := Sim.start (Sim.storage_decl "jobs") Sim.busy_world in
  queue_reported Sim.vendor (data s) (world s) = Some true
  /\ fst (resourceArmStorageQueueExists Sim.vendor s) = Ok true
  /\ data (snd (resourceArmStorageQueueExists Sim.vendor s)) = data s.
Proof.
  intros s.
  assert (H : queue_reported Sim.vendor (data s) (world s) = Some true)
    by (vm_compute; reflexivity).
  split; [exact H|].
  exact (proj1 (exists_reports_presence Sim.vendor s true) H).
Defined.

(** A record for [logs] in the account in use: there is no table of that
    name, and there is such a container. *)
Lemma read_follows_its_query_witness :
  let s := Sim.start (SetId "logs" (Sim.storage_decl "logs")) Sim.busy_world in
  let listed := [{| Container_Name := "logs"; Properties := Sim.fresh_properties |}] in
  table_reported Sim.vendor (data s) (world s) = Some false
  /\ container_listed Sim.vendor (data s) (world s) = Some listed
  /\ listed <> []
  /\ (fst (resourceArmStorageTableRead Sim.vendor s) = Ok tt
      /\ data (snd (resourceArmStorageTableRead Sim.vendor s)) = SetId EmptyString (data s))
  /\ (fst (resourceArmStorageContainerRead Sim.vendor s) = Ok tt
      /\ Id (data (snd (resourceArmStorageContainerRead Sim.vendor s))) = Id (data s)
      /\ exists c m,
           In c listed
           /\ rd_attrs (data (snd (resourceArmStorageContainerRead Sim.vendor s)))
                !! "properties" = Some (VMap m)
           /\ m !! "last_modified" = Some (LastModified (Properties c))
           /\ m !! "lease_status" = Some (LeaseStatus (Properties c))
           /\ m !! "lease_state" = Some (LeaseState (Properties c))
           /\ m !! "lease_duration" = Some (LeaseDuration (Properties c))
           /\ forall key, key <> "properties" ->
                rd_attrs (data (snd (resourceArmStorageContainerRead Sim.vendor s))) !! key
                = rd_attrs (data s) !! key).
Proof.
  intros s listed.
  assert (H1 : table_reported Sim.vendor (data s) (world s) = Some false)
    by (vm_compute; reflexivity).
  assert (H2 : container_listed Sim.vendor (data s) (world s) = Some listed)
    by (vm_compute; reflexivity).
  assert (H3 : listed <> []) by discriminate.
  pose proof (read_follows_its_query Sim.vendor s) as (Ht & _ & _ & _ & Hc & _).
  exact (conj H1 (conj H2 (conj H3 (conj (Ht H1) (Hc listed H2 H3))))).
Defined.

(** C6.  Read of the table does not clear the identifier of a table that
    is gone.  Create of [mid] in an account that holds [alpha] and [zeta]
    leaves the record with the identifier [mid] and, by its closing Read,
    the name [zeta], the table listed last.  When [mid] is then deleted
    behind the provider's back, the listing holds [alpha] and [zeta]
    only; Read looks for the name, finds [zeta], returns no error and
    keeps the identifier [mid]: the record stays PRESENT for a table that
    is missing. *)
Theorem table_read_keeps_identifier_of_missing_table :
  let s0 := Sim.start (Sim.storage_decl "mid") Sim.busy_world in
  let s1 := snd (resourceArmStorageTableCreate Sim.vendor s0) in
  let w2 := snd (Sim.table_delete ("rg", "acct") "mid" (world s1)) in
  let s2 := {| data := data s1; world := w2; clock := clock s1; journal := journal s1 |} in
  fst (resourceArmStorageTableCreate Sim.vendor s0) = Ok tt
  /\ Id (data s1) = "mid"
  /\ GetString "name" (data s1) = "zeta"
  /\ fst (Sim.table_delete ("rg", "acct") "mid" (world s1)) = None
  /\ fst (Sim.query_tables ("rg", "acct") w2)
     = inr [{| Table_Name := "alpha" |}; {| Table_Name := "zeta" |}]
  /\ fst (resourceArmStorageTableRead Sim.vendor s2) = Ok tt
  /\ Id (data (snd (resourceArmStorageTableRead Sim.vendor s2))) = "mid"
  /\ presence (data (snd (resourceArmStorageTableRead Sim.vendor s2))) = PRESENT.
Proof.
  intros s0 s1 w2 s2. repeat split; vm_compute; reflexivity.
Qed.

(** Three rejected creations on a fresh account, then one accepted. *)
Lemma container_creation_is_retried_within_budget_witness :
  let s := Sim.start (Sim.storage_decl "cont") (Sim.fresh_world 3) in
  let f := checkContainerIsCreated Sim.vendor (("rg", "acct"), "cont") in
  (forall i, i < 3 -> fst (f (after_failures f i s)) <> Ok None)
  /\ fst (f (after_failures f 3 s)) = Ok None
  /\ (clock (after_failures f 3 s) < clock s + container_create_budget)%N
  /\ (clock (snd (f (after_failures f 3 s))) <= clock s + container_create_budget)%N
  /\ Retry container_create_budget f s = (Ok tt, snd (f (after_failures f 3 s)))
  /\ map snd (journal (snd (Retry container_create_budget f s)))
     = [CallContainerCreateIfNotExists "cont"; CallContainerCreateIfNotExists "cont";
        CallContainerCreateIfNotExists "cont"; CallContainerCreateIfNotExists "cont"].
Proof.
  intros s f.
  assert (H1 : forall i, i < 3 -> fst (f (after_failures f i s)) <> Ok None).
  { intros i Hi. destruct i as [|[|[|i]]]; [vm_compute; discriminate ..| lia]. }
  assert (H2 : fst (f (after_failures f 3 s)) = Ok None) by (vm_compute; reflexivity).
  assert (H3 : (clock (after_failures f 3 s) < clock s + container_create_budget)%N)
    by (vm_compute; reflexivity).
  assert (H4 : (clock (snd (f (after_failures f 3 s)))
                <= clock s + container_create_budget)%N)
    by (vm_compute; discriminate).
  pose proof (proj1 (proj2 (container_creation_is_retried_within_budget
                              Sim.vendor (("rg", "acct"), "cont") s)) 3 H1 H2 H3 H4) as Hrun.
  refine (conj H1 (conj H2 (conj H3 (conj H4 (conj Hrun _))))).
  vm_compute. reflexivity.
Defined.

(** An account that never becomes routable: the attempts span the budget,
    Create fails with the time-out, sets no identifier and issues nothing
    after the last attempt. *)
Example container_create_times_out :
  let s := Sim.start (Sim.storage_decl "cont") (Sim.slow_world 1000 2000) in
  fst (resourceArmStorageContainerCreate Sim.vendor s)
  = Err (Errorf "Error creating container %q in storage account %q: %s"
                ["cont"; "acct"]
                (Some (TimeoutError (Some (VendorError "503 ServerBusy")))))
  /\ Id (data (snd (resourceArmStorageContainerCreate Sim.vendor s))) = EmptyString
  /\ List.last (calls (snd (resourceArmStorageContainerCreate Sim.vendor s))) CallReadAll
     = CallContainerCreateIfNotExists "cont"
  /\ clock (snd (resourceArmStorageContainerCreate Sim.vendor s)) = 124000%N.
Proof.
  intros s. repeat split; vm_compute; reflexivity.
Qed.

(** C2.  Delete of a table or of a queue that is already absent, in an
    account that exists, returns an error: the adapters hand the
    service's 404 on; the container and the file adapters, run on the
    same absent object, return no error. *)
Theorem delete_of_absent_table_or_queue_fails :
  let s := Sim.start (SetId "gone" (Sim.storage_decl "gone")) Sim.busy_world in
  let sf := Sim.start (SetId "/data/gone.csv" Sim.file_decl) Sim.busy_world in
  (table_reported Sim.vendor (data s) (world s) = Some false
   /\ fst (resourceArmStorageTableDelete Sim.vendor s)
      = Err (Errorf "Error deleting storage table %q from storage account %q: %s"
                    ["gone"; "acct"] (Some (VendorError "404 ResourceNotFound"))))
  /\ (queue_reported Sim.vendor (data s) (world s) = Some false
      /\ fst (resourceArmStorageQueueDelete Sim.vendor s)
         = Err (Errorf "Error deleting storage queue %q: %s"
                       ["gone"] (Some (VendorError "404 ResourceNotFound"))))
  /\ (container_reported Sim.vendor (data s) (world s) = Some false
      /\ fst (resourceArmStorageContainerDelete Sim.vendor s) = Ok tt)
  /\ (file_reported Sim.vendor (data sf) (world sf) = Some false
      /\ fst (resourceArmDataLakeStoreFileDelete Sim.vendor sf) = Ok tt).
Proof.
  intros s sf. repeat split; vm_compute; reflexivity.
Qed.


(** * Further properties *)

(** ** More on the name validators *)

Section ValidatorMore.

Import Validate.

Lemma all_chars_get (p : ascii -> bool) (s : string) :
  all_chars p s = true <-> (forall i c, String.get i s = Some c -> p c = true).
Proof.
  induction s as [|a s IH]; simpl.
  - split; [intros _ i c H; discriminate H | reflexivity].
  - rewrite andb_true_iff, IH. split.
    + intros [Ha Hs] [|i] c H; [injection H as <-; exact Ha | exact (Hs i c H)].
    + intros H. split; [exact (H 0 a eq_refl) | intros i c Hi; exact (H (S i) c Hi)].
Qed.

Lemma last_char_get (s : string) :
  last_char s = String.get (String.length s - 1) s.
Proof.
  induction s as [|a s IH]; [reflexivity|].
  destruct s as [|b s]; [reflexivity|].
  change (last_char (String a (String b s))) with (last_char (String b s)).
  rewrite IH. simpl. now rewrite Nat.sub_0_r.
Qed.

Lemma is_hyphen_spec (c : ascii) : is_hyphen c = true <-> c = "-"%char.
Proof.
  unfold is_hyphen. rewrite Nat.eqb_eq. split.
  - intros H. rewrite <- (ascii_nat_embedding c), H. reflexivity.
  - intros ->. reflexivity.
Qed.

Lemma leading_hyphen_get (s : string) :
  match_leading_hyphen s = false <-> String.get 0 s <> Some "-"%char.
Proof.
  destruct s as [|c s]; simpl.
  - split; [discriminate | reflexivity].
  - destruct (is_hyphen c) eqn:E.
    + apply is_hyphen_spec in E. subst c. split; [discriminate | congruence].
    + split; [|reflexivity]. intros _ H. injection H as ->. discriminate E.
Qed.

Lemma trailing_hyphen_get (s : string) :
  match_trailing_hyphen s = false
  <-> String.get (String.length s - 1) s <> Some "-"%char.
Proof.
  unfold match_trailing_hyphen. rewrite last_char_get.
  destruct (String.get _ s) as [c|].
  - destruct (is_hyphen c) eqn:E.
    + apply is_hyphen_spec in E. subst c. split; [discriminate | congruence].
    + split; [|reflexivity]. intros _ H. injection H as ->. discriminate E.
  - split; [discriminate | reflexivity].
Qed.

Lemma is_empty_length (s : string) : is_empty s = true <-> String.length s = 0.
Proof. destruct s; simpl; split; congruence. Qed.

(** No error from the queue validator: the five conditions, as booleans. *)
Lemma queue_accepts (value k : string) :
  snd (validateArmStorageQueueName value k) = [] <->
  match_lower_alnum_hyphen_plus value = true
  /\ match_leading_hyphen value = false
  /\ match_trailing_hyphen value = false
  /\ (63 <? String.length value)%nat = false
  /\ (String.length value <? 3)%nat = false.
Proof.
  unfold validateArmStorageQueueName, append_if; simpl.
  destruct (match_lower_alnum_hyphen_plus value), (match_leading_hyphen value),
           (match_trailing_hyphen value), (63 <? String.length value)%nat,
           (String.length value <? 3)%nat; simpl;
    split; try discriminate; try tauto; intros (? & ? & ? & ? & ?); discriminate.
Qed.

Lemma container_accepts (value k : string) :
  snd (validateArmStorageContainerName value k) = [] <->
  match_root_or_lower_alnum_hyphen_plus value = true
  /\ (String.length value <? 3)%nat = false
  /\ (63 <? String.length value)%nat = false
  /\ match_leading_hyphen value = false.
Proof.
  unfold validateArmStorageContainerName, append_if; simpl.
  destruct (match_root_or_lower_alnum_hyphen_plus value), (String.length value <? 3)%nat,
           (63 <? String.length value)%nat, (match_leading_hyphen value); simpl;
    split; try discriminate; try tauto; intros (? & ? & ? & ?); discriminate.
Qed.

End ValidatorMore.

(** X1.  The queue validator returns no error exactly for the names of 3
    to 63 bytes, all of them lower-case letters, digits or hyphens, whose
    first and last bytes are not hyphens. *)
Theorem queue_name_accepted_iff (value k : string) :
  snd (Validate.validateArmStorageQueueName value k) = [] <->
  (3 <= String.length value <= 63)%nat
  /\ (forall i c, String.get i value = Some c -> Validate.lower_alnum_hyphen c = true)
  /\ String.get 0 value <> Some "-"%char
  /\ String.get (String.length value - 1) value <> Some "-"%char.
Proof.
  rewrite queue_accepts, <- leading_hyphen_get, <- trailing_hyphen_get, <- all_chars_get.
  unfold Validate.match_lower_alnum_hyphen_plus.
  rewrite andb_true_iff, negb_true_iff, !Nat.ltb_ge.
  split.
  - intros ((_ & Hc) & Hl & Ht & H63 & H3). repeat split; auto.
  - intros ((H3 & H63) & Hc & Hl & Ht). repeat split; auto.
    destruct value; [simpl in H3; lia | reflexivity].
Qed.

(** X2.  The container validator returns no error exactly for [$root]
    and for the names of 3 to 63 bytes, all of them lower-case letters,
    digits or hyphens, that do not begin with a hyphen; a hyphen at the
    end is let through. *)
Theorem container_name_accepted_iff (value k : string) :
  snd (Validate.validateArmStorageContainerName value k) = [] <->
  value = "$root"
  \/ ((3 <= String.length value <= 63)%nat
      /\ (forall i c, String.get i value = Some c -> Validate.lower_alnum_hyphen c = true)
      /\ String.get 0 value <> Some "-"%char).
Proof.
  rewrite container_accepts, <- leading_hyphen_get, <- all_chars_get.
  unfold Validate.match_root_or_lower_alnum_hyphen_plus,
         Validate.match_lower_alnum_hyphen_plus.
  rewrite orb_true_iff, andb_true_iff, negb_true_iff, !Nat.ltb_ge, String.eqb_eq.
  split.
  - intros ([->|(_ & Hc)] & H3 & H63 & Hl); [now left | right; repeat split; auto].
  - intros [->|((H3 & H63) & Hc & Hl)].
    + repeat split; simpl; auto; lia.
    + repeat split; auto. right. split; [|exact Hc].
      destruct value; [simpl in H3; lia | reflexivity].
Qed.

(** X3.  Every name the queue validator accepts is accepted by the
    container validator; and a name the container validator accepts is
    accepted by the queue validator unless it is [$root] or ends with a
    hyphen. *)
Theorem queue_names_are_container_names (value k k' : string) :
  (snd (Validate.validateArmStorageQueueName value k) = [] ->
   snd (Validate.validateArmStorageContainerName value k') = [])
  /\ (snd (Validate.validateArmStorageContainerName value k') = [] ->
      value <> "$root" ->
      String.get (String.length value - 1) value <> Some "-"%char ->
      snd (Validate.validateArmStorageQueueName value k) = []).
Proof.
  rewrite queue_accepts, container_accepts.
  unfold Validate.match_root_or_lower_alnum_hyphen_plus.
  split.
  - intros (Hc & Hl & _ & H63 & H3). rewrite Hc, orb_true_r. auto.
  - intros (Hc & H3 & H63 & Hl) Hroot Ht.
    apply String.eqb_neq in Hroot. rewrite Hroot in Hc. simpl in Hc.
    apply trailing_hyphen_get in Ht. auto.
Qed.

Lemma queue_names_are_container_names_witness :
  snd (Validate.validateArmStorageQueueName "my-queue-1" "name") = []
  /\ snd (Validate.validateArmStorageContainerName "my-queue-1" "name") = [].
Proof.
  assert (H : snd (Validate.validateArmStorageQueueName "my-queue-1" "name") = [])
    by reflexivity.
  exact (conj H (proj1 (queue_names_are_container_names "my-queue-1" "name" "name") H)).
Defined.

Section TableValidatorMore.

Import Validate.

Lemma table_accepts (value k : string) :
  snd (validateArmStorageTableName value k) = [] <->
  String.eqb value "table" = false /\ match_table_name value = true.
Proof.
  unfold validateArmStorageTableName, append_if; simpl.
  destruct (String.eqb value "table"), (match_table_name value); simpl;
    split; try discriminate; try tauto; intros (? & ?); discriminate.
Qed.

End TableValidatorMore.

(** X4.  The table validator returns no error exactly for the names of 3
    to 63 bytes, all of them letters or digits, that begin with a letter
    and are not the word [table]. *)
Theorem table_name_accepted_iff (value k : string) :
  snd (Validate.validateArmStorageTableName value k) = [] <->
  value <> "table"
  /\ (3 <= String.length value <= 63)%nat
  /\ (forall c, String.get 0 value = Some c -> Validate.letter c = true)
  /\ (forall i c, String.get i value = Some c -> Validate.alnum c = true).
Proof.
  rewrite table_accepts, String.eqb_neq, <- all_chars_get.
  unfold Validate.match_table_name.
  destruct value as [|a rest]; cbn [String.get String.length Validate.all_chars].
  - split; [intros (_ & H); discriminate H | intros (_ & (H & _) & _); lia].
  - rewrite !andb_true_iff, !Nat.leb_le. split.
    + intros (Hne & ((Ha & Hrest) & H2) & H62).
      split; [exact Hne|]. split; [lia|].
      split; [intros c [= <-]; exact Ha|].
      split; [unfold Validate.alnum; rewrite Ha; reflexivity | exact Hrest].
    + intros (Hne & (H3 & H63) & Hfirst & (_ & Hrest)).
      split; [exact Hne|].
      split; [split; [split; [apply Hfirst; reflexivity | exact Hrest] | lia] | lia].
Qed.

(** X5.  The table validator never returns more than one error: the word
    [table], the only name its first rule refuses, satisfies the pattern
    of its second rule. *)
Theorem table_validator_one_error_at_most (value k : string) :
  (length (snd (Validate.validateArmStorageTableName value k)) <= 1)%nat
  /\ (In (Validate.table_reserved_msg k value)
         (snd (Validate.validateArmStorageTableName value k))
      <-> value = "table").
Proof.
  unfold Validate.validateArmStorageTableName, Validate.append_if; simpl.
  destruct (String.eqb value "table") eqn:E.
  - apply String.eqb_eq in E. subst value. simpl. split; [lia|]. split; auto.
  - apply String.eqb_neq in E.
    destruct (Validate.match_table_name value); simpl; split; try lia;
      split; try tauto; intros [H|[]]; discriminate H.
Qed.

(** ** More on the adapters, for every vendor *)

Section AdapterMore.

Context {W : Type} (V : Vendor W).

Lemma issued_of_growth {A : Type} (c : M W A) (s : State W) (l : list (N * Call)) :
  journal (snd (c s)) = journal s ++ l -> issued c s = map snd l.
Proof. intros H. unfold issued, calls. rewrite H. apply drop_journal. Qed.

Lemma table_read_when_not_reported (s : State W) :
  table_reported V (data s) (world s) = Some false ->
  fst (resourceArmStorageTableRead V s) = Ok tt
  /\ data (snd (resourceArmStorageTableRead V s)) = SetId EmptyString (data s).
Proof.
  unfold table_reported, resourceArmStorageTableRead. unfold_monad. cbn.
  intros H. repeat vendor_case; try discriminate H; use_answers; auto.
  injection H as H. rewrite deref_after_loop, H. cbn. auto.
Qed.

Lemma table_create_when_reported (s : State W) :
  table_reported V (data s) (world s) = Some true ->
  fst (resourceArmStorageTableCreate V s)
  = Err (ImportAsExistsError "azurerm_storage_table" (GetString "name" (data s))).
Proof.
  unfold table_reported, resourceArmStorageTableCreate. unfold_monad. cbn.
  intros H. repeat vendor_case; try discriminate H.
  injection H as H. use_answers. rewrite rangeTablesCreate_guard, H. reflexivity.
Qed.

Lemma queue_create_when_reported (s : State W) :
  queue_reported V (data s) (world s) = Some true ->
  fst (resourceArmStorageQueueCreate V s)
  = Err (ImportAsExistsError "azurerm_storage_queue" (GetString "name" (data s))).
Proof.
  unfold queue_reported, resourceArmStorageQueueCreate. unfold_monad. cbn.
  intros H. repeat vendor_case; try discriminate H.
  injection H as ->. use_answers. reflexivity.
Qed.

Lemma container_create_when_reported (s : State W) :
  container_reported V (data s) (world s) = Some true ->
  fst (resourceArmStorageContainerCreate V s)
  = Err (ImportAsExistsError "azurerm_storage_container" (GetString "name" (data s))).
Proof.
  unfold container_reported, resourceArmStorageContainerCreate. unfold_monad. cbn.
  intros H. repeat vendor_case; try discriminate H.
  injection H as ->. use_answers. reflexivity.
Qed.

Lemma Id_SetId (v : string) (d : ResourceData) : Id (SetId v d) = v.
Proof. reflexivity. Qed.

Lemma table_read_only_asks (s : State W) : only_asks (resourceArmStorageTableRead V) s.
Proof.
  unfold only_asks, resourceArmStorageTableRead. unfold_monad. cbn.
  destruct (getTableServiceClientForStorageAccount V _ _ (world s)) as [[e| |c] w1]; cbn.
  - eexists [_]. cbn. auto.
  - eexists [_]. cbn. auto.
  - destruct (QueryTables V c w1) as [[e|tables] w2]; cbn.
    + eexists [_; _]. cbn. rewrite <- List.app_assoc. auto.
    + destruct (deref_table _); cbn; eexists [_; _]; cbn; rewrite <- List.app_assoc; auto.
Qed.

Lemma queue_exists_only_asks (s : State W) : only_asks (resourceArmStorageQueueExists V) s.
Proof.
  unfold only_asks, resourceArmStorageQueueExists. unfold_monad. cbn.
  destruct (getQueueServiceClientForStorageAccount V _ _ (world s)) as [[e| |c] w1]; cbn.
  - eexists [_]. cbn. auto.
  - eexists [_]. cbn. auto.
  - destruct (Queue_Exists V c _ w1) as [[e|[|]] w2]; cbn;
      eexists [_; _]; cbn; rewrite <- List.app_assoc; auto.
Qed.

Lemma queue_read_only_asks (s : State W) : only_asks (resourceArmStorageQueueRead V) s.
Proof.
  destruct (queue_exists_only_asks s) as (l & Hj & Hq & Hid).
  unfold only_asks, resourceArmStorageQueueRead, bind.
  destruct (resourceArmStorageQueueExists V s) as [[[|]|e] s1]; cbn in *;
    exists l; auto.
Qed.

Lemma container_exists_only_asks (s : State W) :
  only_asks (resourceArmStorageContainerExists V) s.
Proof.
  unfold only_asks, resourceArmStorageContainerExists. unfold_monad. cbn.
  destruct (getBlobStorageClientForStorageAccount V _ _ (world s)) as [[e| |c] w1]; cbn.
  - eexists [_]. cbn. auto.
  - eexists [_]. cbn. auto.
  - destruct (Container_Exists V c _ w1) as [[e|[|]] w2]; cbn;
      eexists [_; _]; cbn; rewrite <- List.app_assoc; auto.
Qed.

Lemma container_read_only_asks (s : State W) :
  only_asks (resourceArmStorageContainerRead V) s.
Proof.
  unfold only_asks, resourceArmStorageContainerRead. unfold_monad. cbn.
  destruct (getBlobStorageClientForStorageAccount V _ _ (world s)) as [[e| |c] w1]; cbn.
  - eexists [_]. cbn. auto.
  - eexists [_]. cbn. auto.
  - destruct (ListContainers V c _ w1) as [[e|containers] w2]; cbn.
    + eexists [_; _]. cbn. rewrite <- List.app_assoc. auto.
    + match goal with
      | |- context [rangeContainersRead ?n ?cs ?f ?st] =>
          destruct (rangeContainersRead_result n cs f st) as (d' & Hrun & Hid & _)
      end.
      rewrite Hrun. cbn. cbn in Hid.
      destruct (existsb _ containers); cbn;
        eexists [_; _]; cbn; rewrite <- List.app_assoc; auto.
Qed.

Lemma file_read_only_asks (s : State W) :
  only_asks (resourceArmDataLakeStoreFileRead V) s.
Proof.
  unfold only_asks, resourceArmDataLakeStoreFileRead. unfold_monad. cbn.
  destruct (Files_GetFileStatus V _ _ (world s)) as [[resp [e|]] w1]; cbn;
    [destruct (ResponseWasNotFound resp); cbn|]; eexists [_]; cbn; auto.
Qed.

(** X6.  Read and Exists never issue anything but queries: of the table,
    the queue, the container and the file, whatever the vendor answers,
    they call the client resolver and the existence or listing query and
    nothing that creates, deletes or alters a remote object. *)
Theorem reads_issue_only_queries (s : State W) :
  forallb is_query (issued (resourceArmStorageTableRead V) s) = true
  /\ forallb is_query (issued (resourceArmStorageQueueRead V) s) = true
  /\ forallb is_query (issued (resourceArmStorageQueueExists V) s) = true
  /\ forallb is_query (issued (resourceArmStorageContainerRead V) s) = true
  /\ forallb is_query (issued (resourceArmStorageContainerExists V) s) = true
  /\ forallb is_query (issued (resourceArmDataLakeStoreFileRead V) s) = true.
Proof.
  destruct (table_read_only_asks s) as (l1 & H1 & Q1 & _).
  destruct (queue_read_only_asks s) as (l2 & H2 & Q2 & _).
  destruct (queue_exists_only_asks s) as (l3 & H3 & Q3 & _).
  destruct (container_read_only_asks s) as (l4 & H4 & Q4 & _).
  destruct (container_exists_only_asks s) as (l5 & H5 & Q5 & _).
  destruct (file_read_only_asks s) as (l6 & H6 & Q6 & _).
  rewrite (issued_of_growth _ s l1 H1), (issued_of_growth _ s l2 H2),
          (issued_of_growth _ s l3 H3), (issued_of_growth _ s l4 H4),
          (issued_of_growth _ s l5 H5), (issued_of_growth _ s l6 H6).
  auto 10.
Qed.

(** X7.  Read and Exists never give a record another identifier: after
    any of them the identifier is what it was, or it is empty. *)
Theorem reads_only_clear_identifier (s : State W) :
  (Id (data (snd (resourceArmStorageTableRead V s))) = Id (data s)
   \/ Id (data (snd (resourceArmStorageTableRead V s))) = EmptyString)
  /\ (Id (data (snd (resourceArmStorageQueueRead V s))) = Id (data s)
      \/ Id (data (snd (resourceArmStorageQueueRead V s))) = EmptyString)
  /\ (Id (data (snd (resourceArmStorageQueueExists V s))) = Id (data s)
      \/ Id (data (snd (resourceArmStorageQueueExists V s))) = EmptyString)
  /\ (Id (data (snd (resourceArmStorageContainerRead V s))) = Id (data s)
      \/ Id (data (snd (resourceArmStorageContainerRead V s))) = EmptyString)
  /\ (Id (data (snd (resourceArmStorageContainerExists V s))) = Id (data s)
      \/ Id (data (snd (resourceArmStorageContainerExists V s))) = EmptyString)
  /\ (Id (data (snd (resourceArmDataLakeStoreFileRead V s))) = Id (data s)
      \/ Id (data (snd (resourceArmDataLakeStoreFileRead V s))) = EmptyString).
Proof.
  destruct (table_read_only_asks s) as (? & _ & _ & I1).
  destruct (queue_read_only_asks s) as (? & _ & _ & I2).
  destruct (queue_exists_only_asks s) as (? & _ & _ & I3).
  destruct (container_read_only_asks s) as (? & _ & _ & I4).
  destruct (container_exists_only_asks s) as (? & _ & _ & I5).
  destruct (file_read_only_asks s) as (? & _ & _ & I6).
  auto 10.
Qed.

(** X8.  Delete never touches the local record: whatever the vendor
    answers, the record after Delete of the table, the queue, the
    container or the file is the record before it. *)
Theorem delete_leaves_the_record (s : State W) :
  data (snd (resourceArmStorageTableDelete V s)) = data s
  /\ data (snd (resourceArmStorageQueueDelete V s)) = data s
  /\ data (snd (resourceArmStorageContainerDelete V s)) = data s
  /\ data (snd (resourceArmDataLakeStoreFileDelete V s)) = data s.
Proof.
  unfold resourceArmStorageTableDelete, resourceArmStorageQueueDelete,
         resourceArmStorageContainerDelete, resourceArmDataLakeStoreFileDelete.
  unfold_monad. cbn.
  split; [|split; [|split]]; repeat goal_case; reflexivity.
Qed.

(** X9.  An error of the client resolver is handed on as it is: each of
    the eleven callbacks of the table, the queue and the container then
    returns that very error, leaves the record as it was and issues no
    call after the resolver's. *)
Theorem resolver_error_is_handed_on (s : State W) (err : string) :
  let rg := GetString "resource_group_name" (data s) in
  let acct := GetString "storage_account_name" (data s) in
  (fst (getTableServiceClientForStorageAccount V rg acct (world s)) = ResolveError err ->
   stops_with (resourceArmStorageTableCreate V) s (VendorError err) [CallGetTableClient rg acct]
   /\ stops_with (resourceArmStorageTableRead V) s (VendorError err) [CallGetTableClient rg acct]
   /\ stops_with (resourceArmStorageTableDelete V) s (VendorError err)
                 [CallGetTableClient rg acct])
  /\ (fst (getQueueServiceClientForStorageAccount V rg acct (world s)) = ResolveError err ->
      stops_with (resourceArmStorageQueueCreate V) s (VendorError err)
                 [CallGetQueueClient rg acct]
      /\ stops_with (resourceArmStorageQueueRead V) s (VendorError err)
                    [CallGetQueueClient rg acct]
      /\ stops_with (resourceArmStorageQueueExists V) s (VendorError err)
                    [CallGetQueueClient rg acct]
      /\ stops_with (resourceArmStorageQueueDelete V) s (VendorError err)
                    [CallGetQueueClient rg acct])
  /\ (fst (getBlobStorageClientForStorageAccount V rg acct (world s)) = ResolveError err ->
      stops_with (resourceArmStorageContainerCreate V) s (VendorError err)
                 [CallGetBlobClient rg acct]
      /\ stops_with (resourceArmStorageContainerRead V) s (VendorError err)
                    [CallGetBlobClient rg acct]
      /\ stops_with (resourceArmStorageContainerExists V) s (VendorError err)
                    [CallGetBlobClient rg acct]
      /\ stops_with (resourceArmStorageContainerDelete V) s (VendorError err)
                    [CallGetBlobClient rg acct]).
Proof.
  intros rg acct. subst rg acct. unfold stops_with, issued, calls.
  split; [|split].
  - unfold resourceArmStorageTableCreate, resourceArmStorageTableRead,
           resourceArmStorageTableDelete. unfold_monad. cbn.
    destruct (getTableServiceClientForStorageAccount V _ _ (world s)) as [r w1].
    cbn. intros ->. cbn. repeat split; apply drop_journal.
  - unfold resourceArmStorageQueueCreate, resourceArmStorageQueueRead,
           resourceArmStorageQueueExists, resourceArmStorageQueueDelete.
    unfold_monad. cbn.
    destruct (getQueueServiceClientForStorageAccount V _ _ (world s)) as [r w1].
    cbn. intros ->. cbn. repeat split; apply drop_journal.
  - unfold resourceArmStorageContainerCreate, resourceArmStorageContainerRead,
           resourceArmStorageContainerExists, resourceArmStorageContainerDelete.
    unfold_monad. cbn.
    destruct (getBlobStorageClientForStorageAccount V _ _ (world s)) as [r w1].
    cbn. intros ->. cbn. repeat split; apply drop_journal.
Qed.

(** X10.  Create of the file gives up before any remote call when the
    local file cannot be read: a failure to open it comes back as
    [error opening file], a failure to read it comes back as it is; in
    both cases the record is as it was and no create request was sent. *)
Theorem file_create_needs_the_local_file (s : State W) :
  let local := GetString "local_file_path" (data s) in
  (forall err w1,
     os_Open V local (world s) = (inl err, w1) ->
     stops_with (resourceArmDataLakeStoreFileCreate V) s
                (Errorf "error opening file %q: %+v" [local] (Some (VendorError err)))
                [CallOpen local])
  /\ (forall file w1 err w2,
       os_Open V local (world s) = (inr file, w1) ->
       ioutil_ReadAll V file w1 = (inl err, w2) ->
       stops_with (resourceArmDataLakeStoreFileCreate V) s (VendorError err)
                  [CallOpen local; CallReadAll]).
Proof.
  intros local. subst local. unfold stops_with, issued, calls.
  unfold resourceArmDataLakeStoreFileCreate. unfold_monad. cbn.
  split.
  - intros err w1 H. rewrite H. cbn. repeat split. apply drop_journal.
  - intros file w1 err w2 H1 H2. rewrite H1. cbn. rewrite H2. cbn. repeat split.
    rewrite <- List.app_assoc. apply drop_journal.
Qed.

(** The helper, run with a budget that is not zero, makes a first attempt
    at once; and it touches neither the record nor the earlier journal. *)
Lemma retry_loop_grows (reference : ContainerReference V) (deadline : N) :
  forall (fuel : nat) (last : option error) (s : State W),
  exists l,
    journal (snd (retry_loop fuel deadline (checkContainerIsCreated V reference) last s))
    = journal s ++ l
    /\ data (snd (retry_loop fuel deadline (checkContainerIsCreated V reference) last s))
       = data s.
Proof.
  induction fuel as [|fuel IH]; intros last s.
  - exists []. rewrite retry_loop_spent. cbn. now rewrite app_nil_r.
  - rewrite retry_loop_step.
    destruct (deadline <=? clock s)%N; [exists []; cbn; now rewrite app_nil_r|].
    rewrite (attempt_run V reference s).
    destruct (Container_CreateIfNotExists V reference.1 reference.2 (world s))
      as [[err|b] w']; cbn [attempt_answer fst snd].
    + cbn [Retryable RetryableError RetryError_Err sleep snd].
      match goal with
      | |- context [retry_loop fuel deadline _ ?la ?st] =>
          destruct (IH la st) as (l & Hj & Hd)
      end.
      rewrite Hj, Hd. cbn [journal data]. rewrite <- List.app_assoc.
      eexists. split; reflexivity.
    + cbn [clock]. destruct (_ <=? deadline)%N; cbn; eexists; split; reflexivity.
Qed.

Lemma Retry_first_attempt (reference : ContainerReference V) (timeout : N) (s : State W) :
  (0 < timeout)%N ->
  exists l,
    journal (snd (Retry timeout (checkContainerIsCreated V reference) s))
    = journal s ++ (clock s, CallContainerCreateIfNotExists (snd reference)) :: l
    /\ data (snd (Retry timeout (checkContainerIsCreated V reference) s)) = data s.
Proof.
  intros Hpos. unfold Retry. rewrite Nat.add_1_r, retry_loop_step.
  destruct (N.leb_spec (clock s + timeout) (clock s)); [lia|].
  rewrite (attempt_run V reference s).
  destruct (Container_CreateIfNotExists V reference.1 reference.2 (world s))
    as [[err|b] w']; cbn [attempt_answer fst snd].
  - cbn [Retryable RetryableError RetryError_Err sleep snd].
    match goal with
    | |- context [retry_loop ?fu ?dl _ ?la ?st] =>
        destruct (retry_loop_grows reference dl fu la st) as (l & Hj & Hd)
    end.
    rewrite Hj, Hd. cbn [journal data]. rewrite <- List.app_assoc.
    eexists. split; reflexivity.
  - cbn [clock]. destruct (_ <=? _)%N; cbn; eexists; split; reflexivity.
Qed.

(** The last step of a Create: the identifier is set and Read runs, from
    a state [sX] whose journal already holds the create call. *)
Lemma ends_after_read {A : Type} (create : M W unit) (read : M W A)
      (s sX : State W) (c : Call) (name : string) (l3 : list (N * Call)) :
  only_asks read sX ->
  journal sX = journal s ++ l3 ->
  In c (map snd l3) ->
  Id (data sX) = name ->
  snd (create s) = snd (read sX) ->
  exists l,
    journal (snd (create s)) = journal s ++ l
    /\ ((data (snd (create s)) = data s /\ exists e, fst (create s) = Err e)
        \/ (In c (map snd l)
            /\ (Id (data (snd (create s))) = name
                \/ Id (data (snd (create s))) = EmptyString))).
Proof.
  intros (l & Hj & _ & Hid) HjX Hin HiX Hsnd.
  rewrite Hsnd, Hj, HjX, HiX in *. exists (l3 ++ l).
  split; [now rewrite List.app_assoc|].
  right. split; [|exact Hid]. rewrite map_app. apply in_or_app. now left.
Qed.

Lemma create_ends_of_growth (create : M W unit) (s : State W) (c : Call) (name : string) :
  (exists l,
    journal (snd (create s)) = journal s ++ l
    /\ ((data (snd (create s)) = data s /\ exists e, fst (create s) = Err e)
        \/ (In c (map snd l)
            /\ (Id (data (snd (create s))) = name
                \/ Id (data (snd (create s))) = EmptyString)))) ->
  create_ends create s c name.
Proof.
  intros (l & Hj & H). unfold create_ends.
  rewrite (issued_of_growth _ s l Hj). exact H.
Qed.

Lemma table_create_ends (s : State W) :
  create_ends (resourceArmStorageTableCreate V) s
              (CallTableCreate (GetString "name" (data s))) (GetString "name" (data s)).
Proof.
  apply create_ends_of_growth.
  destruct (getTableServiceClientForStorageAccount V
              (GetString "resource_group_name" (data s))
              (GetString "storage_account_name" (data s)) (world s))
    as [[e| |c] w1] eqn:R.
  1,2: unfold resourceArmStorageTableCreate; unfold_monad; cbn; rewrite R; cbn;
       eexists; split; [reflexivity | left; eauto].
  destruct (QueryTables V c w1) as [[e|tables] w2] eqn:Q.
  { unfold resourceArmStorageTableCreate; unfold_monad; cbn; rewrite R; cbn; rewrite Q; cbn.
    eexists; split; [rewrite <- List.app_assoc; reflexivity | left; eauto]. }
  destruct (rangeTablesCreate (GetString "name" (data s)) tables) eqn:G.
  { unfold resourceArmStorageTableCreate; unfold_monad; cbn; rewrite R; cbn; rewrite Q; cbn.
    rewrite G. cbn.
    eexists; split; [rewrite <- List.app_assoc; reflexivity | left; eauto]. }
  destruct (Table_Create V c (GetString "name" (data s)) w2) as [[e|] w3] eqn:C.
  { unfold resourceArmStorageTableCreate; unfold_monad; cbn; rewrite R; cbn; rewrite Q; cbn.
    rewrite G. cbn. rewrite C. cbn.
    eexists; split; [rewrite <- !List.app_assoc; reflexivity | left; eauto]. }
  eapply (ends_after_read _ (resourceArmStorageTableRead V) s _ _ _ _
                          (table_read_only_asks _)).
  4: { unfold resourceArmStorageTableCreate; unfold_monad; cbn; rewrite R; cbn; rewrite Q; cbn.
       rewrite G. cbn. rewrite C. cbn. reflexivity. }
  - cbn. rewrite <- !List.app_assoc. reflexivity.
  - cbn. auto.
  - reflexivity.
Qed.

Lemma queue_create_ends (s : State W) :
  create_ends (resourceArmStorageQueueCreate V) s
              (CallQueueCreate (GetString "name" (data s))) (GetString "name" (data s)).
Proof.
  apply create_ends_of_growth.
  destruct (getQueueServiceClientForStorageAccount V
              (GetString "resource_group_name" (data s))
              (GetString "storage_account_name" (data s)) (world s))
    as [[e| |c] w1] eqn:R.
  1,2: unfold resourceArmStorageQueueCreate; unfold_monad; cbn; rewrite R; cbn;
       eexists; split; [reflexivity | left; eauto].
  destruct (Queue_Exists V c (GetString "name" (data s)) w1) as [[e|[|]] w2] eqn:Q.
  1,2: unfold resourceArmStorageQueueCreate; unfold_monad; cbn; rewrite R; cbn;
       rewrite Q; cbn;
       eexists; split; [rewrite <- List.app_assoc; reflexivity | left; eauto].
  destruct (Queue_Create V c (GetString "name" (data s)) w2) as [[e|] w3] eqn:C.
  { unfold resourceArmStorageQueueCreate; unfold_monad; cbn; rewrite R; cbn; rewrite Q; cbn.
    rewrite C. cbn.
    eexists; split; [rewrite <- !List.app_assoc; reflexivity | left; eauto]. }
  eapply (ends_after_read _ (resourceArmStorageQueueRead V) s _ _ _ _
                          (queue_read_only_asks _)).
  4: { unfold resourceArmStorageQueueCreate; unfold_monad; cbn; rewrite R; cbn; rewrite Q; cbn.
       rewrite C. cbn. reflexivity. }
  - cbn. rewrite <- !List.app_assoc. reflexivity.
  - cbn. auto.
  - reflexivity.
Qed.

Lemma file_create_ends (s : State W) :
  create_ends (resourceArmDataLakeStoreFileCreate V) s
              (CallFileCreate (GetString "account_name" (data s))
                              (GetString "remote_file_path" (data s)) false)
              (GetString "remote_file_path" (data s)).
Proof.
  apply create_ends_of_growth.
  destruct (os_Open V (GetString "local_file_path" (data s)) (world s))
    as [[e|file] w1] eqn:O.
  { unfold resourceArmDataLakeStoreFileCreate; unfold_monad; cbn; rewrite O; cbn.
    eexists; split; [reflexivity | left; eauto]. }
  destruct (ioutil_ReadAll V file w1) as [[e|contents] w2] eqn:RA.
  { unfold resourceArmDataLakeStoreFileCreate; unfold_monad; cbn; rewrite O; cbn.
    rewrite RA; cbn.
    eexists; split; [rewrite <- List.app_assoc; reflexivity | left; eauto]. }
  destruct (Files_Create V (GetString "account_name" (data s))
              (GetString "remote_file_path" (data s)) contents false w2) as [[e|] w3] eqn:C.
  { unfold resourceArmDataLakeStoreFileCreate; unfold_monad; cbn; rewrite O; cbn.
    rewrite RA; cbn. rewrite C. cbn.
    eexists; split; [rewrite <- !List.app_assoc; reflexivity | left; eauto]. }
  eapply (ends_after_read _ (resourceArmDataLakeStoreFileRead V) s _ _ _ _
                          (file_read_only_asks _)).
  4: { unfold resourceArmDataLakeStoreFileCreate; unfold_monad; cbn; rewrite O; cbn.
       rewrite RA; cbn. rewrite C. cbn. reflexivity. }
  - cbn. rewrite <- !List.app_assoc. reflexivity.
  - cbn. auto.
  - reflexivity.
Qed.

Lemma budget_is_positive : (0 < container_create_budget)%N.
Proof. reflexivity. Qed.

Lemma container_create_ends (s : State W) :
  create_ends (resourceArmStorageContainerCreate V) s
              (CallContainerCreateIfNotExists (GetString "name" (data s)))
              (GetString "name" (data s)).
Proof.
  apply create_ends_of_growth.
  destruct (getBlobStorageClientForStorageAccount V
              (GetString "resource_group_name" (data s))
              (GetString "storage_account_name" (data s)) (world s))
    as [[e| |c] w1] eqn:R.
  1,2: unfold resourceArmStorageContainerCreate; unfold_monad; cbn; rewrite R; cbn;
       eexists; split; [reflexivity | left; eauto].
  destruct (Container_Exists V c (GetString "name" (data s)) w1) as [[e|[|]] w2] eqn:Q.
  1,2: unfold resourceArmStorageContainerCreate; unfold_monad; cbn; rewrite R; cbn;
       rewrite Q; cbn;
       eexists; split; [rewrite <- List.app_assoc; reflexivity | left; eauto].
  unfold resourceArmStorageContainerCreate; unfold_monad; cbn; rewrite R; cbn; rewrite Q; cbn.
  unfold GetContainerReference.
  match goal with
  | |- context [Retry ?t (checkContainerIsCreated V ?ref) ?st] =>
      destruct (Retry_first_attempt ref t st budget_is_positive) as (l & Hj & Hd);
      destruct (Retry t (checkContainerIsCreated V ref) st) as [[[]|e] sR] eqn:HR
  end; cbn [snd fst journal data] in Hj, Hd |- *.
  2: { rewrite Hj, Hd. rewrite <- !List.app_assoc.
       eexists; split; [reflexivity | left; eauto]. }
  destruct (Container_SetPermissions V c (GetString "name" (data s)) _ (world sR))
    as [[e|] w3] eqn:P; cbn.
  { rewrite Hj, Hd. rewrite <- !List.app_assoc.
    eexists; split; [reflexivity | left; eauto]. }
  match goal with
  | |- context [resourceArmStorageContainerRead V ?st] => remember st as sX eqn:HsX
  end.
  assert (HjX : exists x, journal sX = journal sR ++ [x])
    by (subst sX; eexists; reflexivity).
  assert (HiX : Id (data sX) = GetString "name" (data s)) by (subst sX; reflexivity).
  clear HsX.
  destruct (container_read_only_asks sX) as (l' & Hj' & _ & Hid).
  destruct HjX as (x & HjX).
  rewrite Hj', HjX, Hj. rewrite HiX in Hid. rewrite <- !List.app_assoc.
  eexists. split; [reflexivity|]. right. split; [|exact Hid].
  cbn. auto.
Qed.

(** X11.  Every Create ends in one of two ways: it returns an error and
    the record is as it was; or it has issued its create call, and the
    identifier is the declared name (for the file, the declared remote
    path) or, cleared by the Read that closes Create, empty.  So Create
    never returns success without having issued the create call, and
    never leaves any other identifier behind. *)
Theorem create_ends_in_two_ways (s : State W) :
  let name := GetString "name" (data s) in
  let path := GetString "remote_file_path" (data s) in
  (create_ends (resourceArmStorageTableCreate V) s (CallTableCreate name) name
   /\ create_ends (resourceArmStorageQueueCreate V) s (CallQueueCreate name) name
   /\ create_ends (resourceArmStorageContainerCreate V) s
                  (CallContainerCreateIfNotExists name) name
   /\ create_ends (resourceArmDataLakeStoreFileCreate V) s
                  (CallFileCreate (GetString "account_name" (data s)) path false) path)
  /\ (fst (resourceArmStorageTableCreate V s) = Ok tt ->
      In (CallTableCreate name) (issued (resourceArmStorageTableCreate V) s))
  /\ (fst (resourceArmStorageQueueCreate V s) = Ok tt ->
      In (CallQueueCreate name) (issued (resourceArmStorageQueueCreate V) s))
  /\ (fst (resourceArmStorageContainerCreate V s) = Ok tt ->
      In (CallContainerCreateIfNotExists name)
         (issued (resourceArmStorageContainerCreate V) s))
  /\ (fst (resourceArmDataLakeStoreFileCreate V s) = Ok tt ->
      In (CallFileCreate (GetString "account_name" (data s)) path false)
         (issued (resourceArmDataLakeStoreFileCreate V) s)).
Proof.
  intros name path.
  pose proof (table_create_ends s) as Ht. pose proof (queue_create_ends s) as Hq.
  pose proof (container_create_ends s) as Hc. pose proof (file_create_ends s) as Hf.
  split; [exact (conj Ht (conj Hq (conj Hc Hf)))|].
  split; [|split; [|split]]; intros Hok.
  - destruct Ht as [(_ & e & He)|(Hin & _)]; [congruence | exact Hin].
  - destruct Hq as [(_ & e & He)|(Hin & _)]; [congruence | exact Hin].
  - destruct Hc as [(_ & e & He)|(Hin & _)]; [congruence | exact Hin].
  - destruct Hf as [(_ & e & He)|(Hin & _)]; [congruence | exact Hin].
Qed.

(** The calls of the container's Create: queries, attempts to create the
    container, and one setting of its permissions. *)
Lemma container_create_calls (s : State W) :
  let name := GetString "name" (data s) in
  let declared := GetStringOr "private" "container_access_type" (data s) in
  let sent := if String.eqb declared "private" then EmptyString else declared in
  exists L,
    journal (snd (resourceArmStorageContainerCreate V s)) = journal s ++ L
    /\ forall c, In c (map snd L) ->
         is_query c = true
         \/ c = CallContainerCreateIfNotExists name
         \/ c = CallContainerSetPermissions name sent.
Proof.
  intros name declared sent. subst name declared sent.
  destruct (getBlobStorageClientForStorageAccount V
              (GetString "resource_group_name" (data s))
              (GetString "storage_account_name" (data s)) (world s))
    as [[e| |c] w1] eqn:R.
  1,2: unfold resourceArmStorageContainerCreate; unfold_monad; cbn; rewrite R; cbn;
       eexists; split; [reflexivity|]; cbn; intros ? [<-|[]]; auto.
  destruct (Container_Exists V c (GetString "name" (data s)) w1) as [[e|[|]] w2] eqn:Q.
  1,2: unfold resourceArmStorageContainerCreate; unfold_monad; cbn; rewrite R; cbn;
       rewrite Q; cbn;
       eexists; split; [rewrite <- List.app_assoc; reflexivity|];
       cbn; intros ? [<-|[<-|[]]]; auto.
  unfold resourceArmStorageContainerCreate; unfold_monad; cbn; rewrite R; cbn; rewrite Q; cbn.
  unfold GetContainerReference.
  match goal with
  | |- context [Retry ?t (checkContainerIsCreated V ?ref) ?st] =>
      destruct (Retry_outcome V ref t st) as (l & Hj & Hl & _);
      destruct (Retry t (checkContainerIsCreated V ref) st) as [[[]|e] sR] eqn:HR
  end; cbn [snd fst journal data] in Hj, Hl |- *.
  2: { rewrite Hj. rewrite <- !List.app_assoc.
       eexists; split; [reflexivity|].
       intros x Hin. rewrite map_app in Hin. apply in_app_or in Hin.
       destruct Hin as [[<-|[]]|Hin]; [cbn; auto|].
       rewrite map_app in Hin. apply in_app_or in Hin.
       destruct Hin as [[<-|[]]|Hin]; [cbn; auto|].
       apply in_map_iff in Hin. destruct Hin as (tc & <- & Hin).
       rewrite List.Forall_forall in Hl. destruct (Hl tc Hin) as [_ ->]. auto. }
  destruct (Container_SetPermissions V c (GetString "name" (data s)) _ (world sR))
    as [[e|] w3] eqn:P; cbn.
  { rewrite Hj. rewrite <- !List.app_assoc.
    eexists; split; [reflexivity|].
    intros x Hin. rewrite map_app in Hin. apply in_app_or in Hin.
    destruct Hin as [[<-|[]]|Hin]; [cbn; auto|].
    rewrite map_app in Hin. apply in_app_or in Hin.
    destruct Hin as [[<-|[]]|Hin]; [cbn; auto|].
    rewrite map_app in Hin. apply in_app_or in Hin.
    destruct Hin as [Hin|[<-|[]]]; [|cbn; auto].
    apply in_map_iff in Hin. destruct Hin as (tc & <- & Hin).
    rewrite List.Forall_forall in Hl. destruct (Hl tc Hin) as [_ ->]. auto. }
  match goal with
  | |- context [resourceArmStorageContainerRead V ?st] => remember st as sX eqn:HsX
  end.
  assert (HjX : journal sX
                = journal sR
                  ++ [(clock sR,
                       CallContainerSetPermissions (GetString "name" (data s))
                         (if String.eqb (GetStringOr "private" "container_access_type" (data s))
                                        "private"
                          then EmptyString
                          else GetStringOr "private" "container_access_type" (data s)))])
    by (subst sX; reflexivity).
  clear HsX.
  destruct (container_read_only_asks sX) as (l' & Hj' & Hq' & _).
  rewrite Hj', HjX, Hj. rewrite <- !List.app_assoc.
  eexists. split; [reflexivity|].
  intros x Hin. rewrite map_app in Hin. apply in_app_or in Hin.
  destruct Hin as [[<-|[]]|Hin]; [cbn; auto|].
  rewrite map_app in Hin. apply in_app_or in Hin.
  destruct Hin as [[<-|[]]|Hin]; [cbn; auto|].
  rewrite map_app in Hin. apply in_app_or in Hin.
  destruct Hin as [Hin|Hin].
  { apply in_map_iff in Hin. destruct Hin as (tc & <- & Hin).
    rewrite List.Forall_forall in Hl. destruct (Hl tc Hin) as [_ ->]. auto. }
  rewrite map_app in Hin. apply in_app_or in Hin.
  destruct Hin as [[<-|[]]|Hin]; [cbn; auto|].
  left. rewrite forallb_forall in Hq'. exact (Hq' x Hin).
Qed.

(** X12.  The only permissions the container's Create ever sets are those
    of the declared container, and the access type it sends is empty when
    the declared [container_access_type] is [private] (or is not set) and
    the declared value itself, letter for letter, in every other case. *)
Theorem container_create_sets_declared_access (s : State W) (n a : string) :
  In (CallContainerSetPermissions n a) (issued (resourceArmStorageContainerCreate V) s) ->
  n = GetString "name" (data s)
  /\ a = if String.eqb (GetStringOr "private" "container_access_type" (data s)) "private"
         then EmptyString
         else GetStringOr "private" "container_access_type" (data s).
Proof.
  destruct (container_create_calls s) as (L & Hj & HL).
  rewrite (issued_of_growth _ s L Hj). intros Hin.
  destruct (HL _ Hin) as [Hq|[Hc|Hp]]; [discriminate Hq | discriminate Hc |].
  injection Hp as -> ->. auto.
Qed.

(** X13.  Delete of the table after a Read that found it asks the vendor
    to delete the table named last in the response of that Read: Read
    stored that name in the record, and Delete takes the name from
    there. *)
Theorem table_delete_after_read_targets_last (s : State W) (tables : list Table)
        (tableClient : TableServiceClient V) (w1 : W) :
  let rg := GetString "resource_group_name" (data s) in
  let acct := GetString "storage_account_name" (data s) in
  let s1 := snd (resourceArmStorageTableRead V s) in
  tables_response V (data s) (world s) = Some tables ->
  existsb (named (GetString "name" (data s))) tables = true ->
  getTableServiceClientForStorageAccount V rg acct (world s1) = (AccountFound tableClient, w1) ->
  issued (resourceArmStorageTableDelete V) s1
  = [CallGetTableClient rg acct;
     CallTableDelete (Table_Name (List.last tables zero_table))].
Proof.
  intros rg acct s1 Hresp Hmatch Hres. subst rg acct.
  destruct (table_read_when_listed V s tables Hresp) as [_ Hdata].
  rewrite Hmatch in Hdata. fold s1 in Hdata.
  assert (Hrg : GetString "resource_group_name" (data s1)
                = GetString "resource_group_name" (data s))
    by (rewrite Hdata; apply GetString_SetAttr_other; discriminate).
  assert (Hacct : GetString "storage_account_name" (data s1)
                  = GetString "storage_account_name" (data s))
    by (rewrite Hdata; apply GetString_SetAttr_other; discriminate).
  assert (Hname : GetString "name" (data s1) = Table_Name (List.last tables zero_table))
    by (rewrite Hdata; apply GetString_SetAttr).
  clearbody s1.
  unfold issued, calls, resourceArmStorageTableDelete. unfold_monad. cbn.
  rewrite Hrg, Hacct, Hname, Hres. cbn.
  destruct (Table_Delete V tableClient _ w1) as [[e|] w2]; cbn;
    rewrite <- List.app_assoc; apply drop_journal.
Qed.

End AdapterMore.

(** ** More on the reference vendor *)

Section SimMore.

(** What the reference vendor reports, as a function of its world. *)

Lemma sim_table_reported (d : ResourceData) (w : Sim.World) :
  table_reported Sim.vendor d w
  = Some match Sim.accounts w !! Sim.key_of d with
         | Some a => bool_decide (GetString "name" d ∈ Sim.tables a)
         | None => false
         end.
Proof.
  unfold table_reported. cbn. unfold Sim.resolve, Sim.query_tables, Sim.key_of.
  destruct (Sim.accounts w !! _) as [a|] eqn:E; cbn; [|reflexivity].
  rewrite E. cbn. f_equal.
  destruct (bool_decide _) eqn:B.
  - apply sim_named_listed. now apply bool_decide_eq_true in B.
  - apply bool_decide_eq_false in B.
    destruct (existsb _ _) eqn:X; [|reflexivity].
    apply sim_named_listed in X. contradiction.
Qed.

Lemma sim_queue_reported_total (d : ResourceData) (w : Sim.World) :
  queue_reported Sim.vendor d w
  = Some match Sim.accounts w !! Sim.key_of d with
         | Some a => bool_decide (GetString "name" d ∈ Sim.queues a)
         | None => false
         end.
Proof.
  unfold queue_reported. cbn. unfold Sim.resolve, Sim.queue_exists, Sim.key_of.
  destruct (Sim.accounts w !! _) as [a|] eqn:E; cbn; [|reflexivity].
  now rewrite E.
Qed.

Lemma sim_container_reported (d : ResourceData) (w : Sim.World) :
  container_reported Sim.vendor d w
  = Some match Sim.accounts w !! Sim.key_of d with
         | Some a => bool_decide (is_Some (Sim.containers a !! GetString "name" d))
         | None => false
         end.
Proof.
  unfold container_reported. cbn. unfold Sim.resolve, Sim.container_exists, Sim.key_of.
  destruct (Sim.accounts w !! _) as [a|] eqn:E; cbn; [|reflexivity].
  now rewrite E.
Qed.

Lemma sim_file_reported_total (d : ResourceData) (w : Sim.World)
      (files : gmap string (list ascii)) :
  Sim.lake w !! GetString "account_name" d = Some files ->
  file_reported Sim.vendor d w = Some (bool_decide (is_Some (files !! Id d))).
Proof.
  intros H. unfold file_reported. cbn. unfold Sim.files_get_file_status.
  rewrite H. destruct (files !! Id d) eqn:E; reflexivity.
Qed.

(** The listing the container's Read gets for a name no container bears. *)
Lemma sim_container_not_listed (d : ResourceData) (w : Sim.World) :
  match Sim.accounts w !! Sim.key_of d with
  | Some a => Sim.containers a !! GetString "name" d = None
  | None => True
  end ->
  container_listed Sim.vendor d w = Some [].
Proof.
  unfold container_listed. cbn. unfold Sim.resolve, Sim.list_containers, Sim.key_of.
  destruct (Sim.accounts w !! _) as [a|] eqn:E; cbn; [|reflexivity].
  rewrite E. cbn. intros Hnone. f_equal.
  destruct (List.filter _ _) as [|c l] eqn:F; [reflexivity|exfalso].
  assert (Hin : In c (c :: l)) by now left.
  rewrite <- F in Hin.
  apply filter_In in Hin. destruct Hin as [Hin Hname].
  apply filter_In in Hin. destruct Hin as [Hin _].
  apply in_map_iff in Hin. destruct Hin as ([n p] & <- & Hin).
  apply list_elem_of_In, elem_of_map_to_list in Hin.
  unfold same_name in Hname. cbn in Hname. apply String.eqb_eq in Hname. subst n.
  rewrite Hin in Hnone. discriminate Hnone.
Qed.

(** Every container of the listing for a name is the one container of
    that name. *)
Lemma sim_container_listed_unique (d : ResourceData) (w : Sim.World) (a : Sim.Account)
      (p : ContainerProperties) (listed : list Container) :
  Sim.accounts w !! Sim.key_of d = Some a ->
  Sim.containers a !! GetString "name" d = Some p ->
  container_listed Sim.vendor d w = Some listed ->
  forall c, In c listed -> c = {| Container_Name := GetString "name" d; Properties := p |}.
Proof.
  unfold container_listed. cbn. unfold Sim.resolve, Sim.list_containers, Sim.key_of.
  intros E Hp. rewrite E. cbn. rewrite E. cbn. intros [= <-] c Hin.
  apply filter_In in Hin. destruct Hin as [Hin Hname].
  apply filter_In in Hin. destruct Hin as [Hin _].
  apply in_map_iff in Hin. destruct Hin as ([n q] & <- & Hin).
  apply list_elem_of_In, elem_of_map_to_list in Hin.
  unfold same_name in Hname. cbn in Hname. apply String.eqb_eq in Hname. subst n.
  cbn. rewrite Hin in Hp. now injection Hp as ->.
Qed.

(** X14.  Against the reference vendor, Read and Exists of the container
    agree, although Read lists the containers and Exists asks for the one:
    neither fails, and after either the identifier is kept exactly when
    Exists answers that the container is there. *)
Theorem container_read_agrees_with_exists (s : State Sim.World) :
  exists b,
    fst (resourceArmStorageContainerExists Sim.vendor s) = Ok b
    /\ fst (resourceArmStorageContainerRead Sim.vendor s) = Ok tt
    /\ Id (data (snd (resourceArmStorageContainerExists Sim.vendor s)))
       = (if b then Id (data s) else EmptyString)
    /\ Id (data (snd (resourceArmStorageContainerRead Sim.vendor s)))
       = (if b then Id (data s) else EmptyString).
Proof.
  pose proof (sim_container_reported (data s) (world s)) as Hrep.
  destruct (Sim.accounts (world s) !! Sim.key_of (data s)) as [a|] eqn:E.
  - destruct (Sim.containers a !! GetString "name" (data s)) as [p|] eqn:Ep.
    + exists true. cbn in Hrep.
      destruct (container_exists_when_reported Sim.vendor s true Hrep) as [He Hd].
      destruct (sim_container_listed (data s) (world s) a p E Ep) as (l & Hl & Hne).
      destruct (container_read_when_listed Sim.vendor s l Hl Hne) as (Hr & Hid & _).
      rewrite Hd. auto.
    + exists false. cbn in Hrep.
      destruct (container_exists_when_reported Sim.vendor s false Hrep) as [He Hd].
      assert (Hl : container_listed Sim.vendor (data s) (world s) = Some [])
        by (apply sim_container_not_listed; rewrite E; exact Ep).
      destruct (container_read_when_not_listed Sim.vendor s Hl) as (Hr & Hd').
      rewrite Hd, Hd'. auto.
  - exists false.
    destruct (container_exists_when_reported Sim.vendor s false Hrep) as [He Hd].
    assert (Hl : container_listed Sim.vendor (data s) (world s) = Some [])
      by (apply sim_container_not_listed; now rewrite E).
    destruct (container_read_when_not_listed Sim.vendor s Hl) as (Hr & Hd').
    rewrite Hd, Hd'. auto.
Qed.

(** What a Delete that succeeded leaves in the world. *)

Lemma sim_table_delete_inv (s s1 : State Sim.World) :
  resourceArmStorageTableDelete Sim.vendor s = (Ok tt, s1) ->
  data s1 = data s
  /\ match Sim.accounts (world s1) !! Sim.key_of (data s) with
     | Some a => GetString "name" (data s) ∉ Sim.tables a
     | None => True
     end.
Proof.
  unfold resourceArmStorageTableDelete. unfold_monad. cbn.
  unfold Sim.resolve, Sim.table_delete, Sim.key_of.
  destruct (Sim.accounts (world s) !! _) as [a|] eqn:E; cbn.
  - rewrite E. destruct (bool_decide _); cbn; [|discriminate].
    intros [= <-]. cbn. split; [reflexivity|].
    unfold Sim.set_account; cbn. rewrite lookup_insert_eq. cbn.
    intros [_ H]%elem_of_difference. apply H. now apply elem_of_singleton.
  - intros [= <-]. cbn. now rewrite E.
Qed.

Lemma sim_queue_delete_inv (s s1 : State Sim.World) :
  resourceArmStorageQueueDelete Sim.vendor s = (Ok tt, s1) ->
  data s1 = data s
  /\ match Sim.accounts (world s1) !! Sim.key_of (data s) with
     | Some a => GetString "name" (data s) ∉ Sim.queues a
     | None => True
     end.
Proof.
  unfold resourceArmStorageQueueDelete. unfold_monad. cbn.
  unfold Sim.resolve, Sim.queue_delete, Sim.key_of.
  destruct (Sim.accounts (world s) !! _) as [a|] eqn:E; cbn.
  - rewrite E. destruct (bool_decide _); cbn; [|discriminate].
    intros [= <-]. cbn. split; [reflexivity|].
    unfold Sim.set_account; cbn. rewrite lookup_insert_eq. cbn.
    intros [_ H]%elem_of_difference. apply H. now apply elem_of_singleton.
  - intros [= <-]. cbn. now rewrite E.
Qed.

Lemma sim_container_delete_inv (s s1 : State Sim.World) :
  resourceArmStorageContainerDelete Sim.vendor s = (Ok tt, s1) ->
  data s1 = data s
  /\ match Sim.accounts (world s1) !! Sim.key_of (data s) with
     | Some a => Sim.containers a !! GetString "name" (data s) = None
     | None => True
     end.
Proof.
  unfold resourceArmStorageContainerDelete. unfold_monad. cbn.
  unfold Sim.resolve, Sim.container_delete_if_exists, Sim.key_of.
  destruct (Sim.accounts (world s) !! _) as [a|] eqn:E; cbn.
  - rewrite E. destruct (Sim.containers a !! _) eqn:Ec; cbn; intros [= <-]; cbn.
    + split; [reflexivity|].
      unfold Sim.set_account; cbn. rewrite lookup_insert_eq. cbn. apply lookup_delete_eq.
    + split; [reflexivity|]. now rewrite E.
  - intros [= <-]. cbn. now rewrite E.
Qed.

Lemma sim_file_delete_inv (s s1 : State Sim.World) :
  resourceArmDataLakeStoreFileDelete Sim.vendor s = (Ok tt, s1) ->
  data s1 = data s
  /\ exists files, Sim.lake (world s1) !! GetString "account_name" (data s) = Some files
                   /\ files !! Id (data s) = None.
Proof.
  unfold resourceArmDataLakeStoreFileDelete. unfold_monad. cbn.
  unfold Sim.files_delete.
  destruct (Sim.lake (world s) !! _) as [files|] eqn:E; cbn; [|discriminate].
  destruct (files !! _) eqn:Ef; cbn; intros [= <-]; cbn.
  - split; [reflexivity|]. eexists. unfold Sim.set_lake; cbn.
    split; [apply lookup_insert_eq | apply lookup_delete_eq].
  - split; [reflexivity|]. eauto.
Qed.

(** X15.  Against the reference vendor, a Read right after a Delete that
    succeeded finds nothing: for the table, the queue, the container and
    the file it returns no error and leaves the record ABSENT, the
    identifier empty. *)
Theorem delete_then_read_is_absent (s s1 : State Sim.World) :
  (resourceArmStorageTableDelete Sim.vendor s = (Ok tt, s1) ->
   fst (resourceArmStorageTableRead Sim.vendor s1) = Ok tt
   /\ presence (data (snd (resourceArmStorageTableRead Sim.vendor s1))) = ABSENT)
  /\ (resourceArmStorageQueueDelete Sim.vendor s = (Ok tt, s1) ->
      fst (resourceArmStorageQueueRead Sim.vendor s1) = Ok tt
      /\ presence (data (snd (resourceArmStorageQueueRead Sim.vendor s1))) = ABSENT)
  /\ (resourceArmStorageContainerDelete Sim.vendor s = (Ok tt, s1) ->
      fst (resourceArmStorageContainerRead Sim.vendor s1) = Ok tt
      /\ presence (data (snd (resourceArmStorageContainerRead Sim.vendor s1))) = ABSENT)
  /\ (resourceArmDataLakeStoreFileDelete Sim.vendor s = (Ok tt, s1) ->
      fst (resourceArmDataLakeStoreFileRead Sim.vendor s1) = Ok tt
      /\ presence (data (snd (resourceArmDataLakeStoreFileRead Sim.vendor s1))) = ABSENT).
Proof.
  split; [|split; [|split]]; intros Hdel.
  - destruct (sim_table_delete_inv s s1 Hdel) as [Hd Hw].
    assert (Hrep : table_reported Sim.vendor (data s1) (world s1) = Some false).
    { rewrite sim_table_reported, Hd.
      destruct (Sim.accounts (world s1) !! _); [|reflexivity].
      f_equal. now apply bool_decide_eq_false. }
    destruct (table_read_when_not_reported Sim.vendor s1 Hrep) as [Hok Hdata].
    rewrite Hdata. auto.
  - destruct (sim_queue_delete_inv s s1 Hdel) as [Hd Hw].
    assert (Hrep : queue_reported Sim.vendor (data s1) (world s1) = Some false).
    { rewrite sim_queue_reported_total, Hd.
      destruct (Sim.accounts (world s1) !! _); [|reflexivity].
      f_equal. now apply bool_decide_eq_false. }
    destruct (queue_read_when_reported Sim.vendor s1 false Hrep) as [Hok Hdata].
    rewrite Hdata. auto.
  - destruct (sim_container_delete_inv s s1 Hdel) as [Hd Hw].
    assert (Hl : container_listed Sim.vendor (data s1) (world s1) = Some [])
      by (apply sim_container_not_listed; rewrite Hd; exact Hw).
    destruct (container_read_when_not_listed Sim.vendor s1 Hl) as [Hok Hdata].
    rewrite Hdata. auto.
  - destruct (sim_file_delete_inv s s1 Hdel) as (Hd & files & Hlake & Hnone).
    assert (Hrep : file_reported Sim.vendor (data s1) (world s1) = Some false).
    { rewrite (sim_file_reported_total _ _ files) by (now rewrite Hd).
      rewrite Hd, Hnone. reflexivity. }
    destruct (file_read_when_reported Sim.vendor s1 false Hrep) as [Hok Hdata].
    rewrite Hdata. auto.
Qed.

(** X16.  Against the reference vendor, what Create made stands in the
    way of a second Create: once Create of a table, a queue or a
    container has succeeded, Create of the same declaration on the world
    it left returns the import signal for the declared name. *)
Theorem second_create_is_refused (s s1 s2 : State Sim.World) :
  data s2 = data s -> world s2 = world s1 ->
  (resourceArmStorageTableCreate Sim.vendor s = (Ok tt, s1) ->
   fst (resourceArmStorageTableCreate Sim.vendor s2)
   = Err (ImportAsExistsError "azurerm_storage_table" (GetString "name" (data s))))
  /\ (resourceArmStorageQueueCreate Sim.vendor s = (Ok tt, s1) ->
      fst (resourceArmStorageQueueCreate Sim.vendor s2)
      = Err (ImportAsExistsError "azurerm_storage_queue" (GetString "name" (data s))))
  /\ (resourceArmStorageContainerCreate Sim.vendor s = (Ok tt, s1) ->
      fst (resourceArmStorageContainerCreate Sim.vendor s2)
      = Err (ImportAsExistsError "azurerm_storage_container" (GetString "name" (data s)))).
Proof.
  intros Hd2 Hw2. split; [|split]; intros Hcreate.
  - destruct (sim_table_create_inv s s1 Hcreate) as (a & sX & _ & _ & HwX & Hread).
    pose proof (sim_table_read_world sX) as Hw1. rewrite Hread in Hw1. cbn [snd] in Hw1.
    rewrite <- Hd2. apply table_create_when_reported.
    rewrite sim_table_reported, Hd2, Hw2, Hw1, HwX.
    unfold Sim.set_account; cbn. rewrite lookup_insert_eq. cbn.
    f_equal. apply bool_decide_eq_true. apply elem_of_union_l. now apply elem_of_singleton.
  - destruct (sim_queue_create_inv s s1 Hcreate) as (a & sX & _ & _ & HwX & Hread).
    pose proof (sim_queue_read_world sX) as Hw1. rewrite Hread in Hw1. cbn [snd] in Hw1.
    rewrite <- Hd2. apply queue_create_when_reported.
    rewrite sim_queue_reported_total, Hd2, Hw2, Hw1, HwX.
    unfold Sim.set_account; cbn. rewrite lookup_insert_eq. cbn.
    f_equal. apply bool_decide_eq_true. apply elem_of_union_l. now apply elem_of_singleton.
  - destruct (sim_container_create_inv s s1 Hcreate) as (a' & p & sX & Ha' & Hp & _ & Hread).
    pose proof (sim_container_read_world sX) as Hw1. rewrite Hread in Hw1. cbn [snd] in Hw1.
    rewrite <- Hd2. apply container_create_when_reported.
    rewrite sim_container_reported, Hd2, Hw2, Hw1, Ha', Hp. reflexivity.
Qed.

End SimMore.

(** ** Reading twice, and what an upload stores *)

Section SimAgain.

Lemma SetId_twice (v v' : string) (d : ResourceData) : SetId v (SetId v' d) = SetId v d.
Proof. reflexivity. Qed.

Lemma GetString_SetId (key v : string) (d : ResourceData) :
  GetString key (SetId v d) = GetString key d.
Proof. reflexivity. Qed.

Lemma sim_table_read_again (s : State Sim.World) :
  data (snd (resourceArmStorageTableRead Sim.vendor
               (snd (resourceArmStorageTableRead Sim.vendor s))))
  = data (snd (resourceArmStorageTableRead Sim.vendor s)).
Proof.
  pose proof (sim_table_read_world s) as Hw.
  set (s1 := snd (resourceArmStorageTableRead Sim.vendor s)) in *.
  destruct (Sim.accounts (world s) !! Sim.key_of (data s)) as [a|] eqn:E.
  - pose proof (sim_tables_response (data s) (world s) a E) as Hresp.
    destruct (table_read_when_listed Sim.vendor s _ Hresp) as [_ Hd]. fold s1 in Hd.
    set (l := map Build_Table (elements (Sim.tables a))) in *.
    assert (Hresp1 : tables_response Sim.vendor (data s1) (world s1) = Some l).
    { apply sim_tables_response. rewrite Hw, Hd.
      destruct (existsb _ l); [rewrite key_of_SetAttr_name | rewrite key_of_SetId]; exact E. }
    destruct (table_read_when_listed Sim.vendor s1 _ Hresp1) as [_ Hd2].
    rewrite Hd2. destruct (existsb (named (GetString "name" (data s))) l) eqn:X.
    + rewrite Hd, GetString_SetAttr, (named_last_listed l _ X). apply SetAttr_twice.
    + rewrite Hd, GetString_SetId, X. apply SetId_twice.
  - assert (Hrep : table_reported Sim.vendor (data s) (world s) = Some false)
      by (rewrite sim_table_reported, E; reflexivity).
    destruct (table_read_when_not_reported Sim.vendor s Hrep) as [_ Hd]. fold s1 in Hd.
    assert (Hrep1 : table_reported Sim.vendor (data s1) (world s1) = Some false)
      by (rewrite sim_table_reported, Hw, Hd, key_of_SetId, E; reflexivity).
    destruct (table_read_when_not_reported Sim.vendor s1 Hrep1) as [_ Hd2].
    rewrite Hd2, Hd. apply SetId_twice.
Qed.

Lemma sim_queue_read_again (s : State Sim.World) :
  data (snd (resourceArmStorageQueueRead Sim.vendor
               (snd (resourceArmStorageQueueRead Sim.vendor s))))
  = data (snd (resourceArmStorageQueueRead Sim.vendor s)).
Proof.
  pose proof (sim_queue_read_world s) as Hw.
  pose proof (sim_queue_reported_total (data s) (world s)) as Hrep.
  destruct (queue_read_when_reported Sim.vendor s _ Hrep) as [_ Hd].
  set (s1 := snd (resourceArmStorageQueueRead Sim.vendor s)) in *.
  pose proof (sim_queue_reported_total (data s1) (world s1)) as Hrep1.
  destruct (queue_read_when_reported Sim.vendor s1 _ Hrep1) as [_ Hd2].
  rewrite Hd2, Hw. clear Hd2 Hrep1 Hrep.
  destruct (match Sim.accounts (world s) !! Sim.key_of (data s) with
            | Some a => bool_decide (GetString "name" (data s) ∈ Sim.queues a)
            | None => false
            end) eqn:B; rewrite Hd.
  - rewrite B. reflexivity.
  - rewrite key_of_SetId, GetString_SetId, B. apply SetId_twice.
Qed.

Lemma sim_container_read_again (s : State Sim.World) :
  data (snd (resourceArmStorageContainerRead Sim.vendor
               (snd (resourceArmStorageContainerRead Sim.vendor s))))
  = data (snd (resourceArmStorageContainerRead Sim.vendor s)).
Proof.
  pose proof (sim_container_read_world s) as Hw.
  set (s1 := snd (resourceArmStorageContainerRead Sim.vendor s)) in *.
  assert (Hmiss : match Sim.accounts (world s) !! Sim.key_of (data s) with
                  | Some a => Sim.containers a !! GetString "name" (data s) = None
                  | None => True
                  end ->
                  data (snd (resourceArmStorageContainerRead Sim.vendor s1)) = data s1).
  { intros Hnone.
    destruct (container_read_when_not_listed Sim.vendor s
                (sim_container_not_listed _ _ Hnone)) as [_ Hd]. fold s1 in Hd.
    assert (Hl1 : container_listed Sim.vendor (data s1) (world s1) = Some []).
    { apply sim_container_not_listed.
      rewrite Hw, Hd, key_of_SetId, GetString_SetId. exact Hnone. }
    destruct (container_read_when_not_listed Sim.vendor s1 Hl1) as [_ Hd2].
    rewrite Hd2, Hd. apply SetId_twice. }
  destruct (Sim.accounts (world s) !! Sim.key_of (data s)) as [a|] eqn:E; [|now apply Hmiss].
  destruct (Sim.containers a !! GetString "name" (data s)) as [p|] eqn:Ep; [|now apply Hmiss].
  clear Hmiss.
  destruct (sim_container_listed (data s) (world s) a p E Ep) as (l & Hl & Hne).
  destruct (container_read_when_listed Sim.vendor s l Hl Hne) as (_ & _ & c & Hin & Hd).
  fold s1 in Hd.
  pose proof (sim_container_listed_unique (data s) (world s) a p l E Ep Hl c Hin) as Hc.
  assert (Hname : GetString "name" (data s1) = GetString "name" (data s))
    by (rewrite Hd; apply GetString_SetAttr_other; discriminate).
  assert (E1 : Sim.accounts (world s1) !! Sim.key_of (data s1) = Some a)
    by (rewrite Hw, Hd, key_of_SetAttr_properties; exact E).
  assert (Ep1 : Sim.containers a !! GetString "name" (data s1) = Some p)
    by (rewrite Hname; exact Ep).
  destruct (sim_container_listed (data s1) (world s1) a p E1 Ep1) as (l1 & Hl1 & Hne1).
  destruct (container_read_when_listed Sim.vendor s1 l1 Hl1 Hne1) as (_ & _ & c1 & Hin1 & Hd2).
  pose proof (sim_container_listed_unique (data s1) (world s1) a p l1 E1 Ep1 Hl1 c1 Hin1)
    as Hc1.
  rewrite Hd2, Hc1, Hname, <- Hc, Hd. apply SetAttr_twice.
Qed.

Lemma sim_file_read_unreachable (s : State Sim.World) :
  Sim.lake (world s) !! GetString "account_name" (data s) = None ->
  data (snd (resourceArmDataLakeStoreFileRead Sim.vendor s)) = data s.
Proof.
  intros H. unfold resourceArmDataLakeStoreFileRead. unfold_monad. cbn.
  unfold Sim.files_get_file_status. rewrite H. reflexivity.
Qed.

Lemma sim_file_read_again (s : State Sim.World) :
  data (snd (resourceArmDataLakeStoreFileRead Sim.vendor
               (snd (resourceArmDataLakeStoreFileRead Sim.vendor s))))
  = data (snd (resourceArmDataLakeStoreFileRead Sim.vendor s)).
Proof.
  pose proof (sim_file_read_world s) as Hw.
  destruct (Sim.lake (world s) !! GetString "account_name" (data s)) as [files|] eqn:E.
  - pose proof (sim_file_reported_total (data s) (world s) files E) as Hrep.
    destruct (file_read_when_reported Sim.vendor s _ Hrep) as [_ Hd].
    set (s1 := snd (resourceArmDataLakeStoreFileRead Sim.vendor s)) in *.
    assert (E1 : Sim.lake (world s1) !! GetString "account_name" (data s1) = Some files).
    { rewrite Hw, Hd. destruct (bool_decide _); [|rewrite GetString_SetId]; exact E. }
    pose proof (sim_file_reported_total (data s1) (world s1) files E1) as Hrep1.
    destruct (file_read_when_reported Sim.vendor s1 _ Hrep1) as [_ Hd2].
    rewrite Hd2. destruct (bool_decide (is_Some (files !! Id (data s1)))) eqn:B1;
      [reflexivity|].
    destruct (bool_decide (is_Some (files !! Id (data s)))) eqn:B.
    + rewrite Hd, B in B1. discriminate B1.
    + rewrite Hd. apply SetId_twice.
  - pose proof (sim_file_read_unreachable s E) as Hd.
    set (s1 := snd (resourceArmDataLakeStoreFileRead Sim.vendor s)) in *.
    apply sim_file_read_unreachable. rewrite Hw, Hd. exact E.
Qed.

(** What the file's Create passes on, from the disk to the lake. *)
Lemma sim_file_create_upload (s s1 : State Sim.World) :
  resourceArmDataLakeStoreFileCreate Sim.vendor s = (Ok tt, s1) ->
  exists files contents,
    Sim.disk (world s) !! GetString "local_file_path" (data s) = Some contents
    /\ Sim.lake (world s1) !! GetString "account_name" (data s) = Some files
    /\ files !! GetString "remote_file_path" (data s) = Some contents
    /\ Sim.disk (world s1) = Sim.disk (world s).
Proof.
  intros Hcreate.
  pose proof Hcreate as Hrun. revert Hrun.
  unfold resourceArmDataLakeStoreFileCreate. unfold_monad. cbn.
  unfold Sim.open, Sim.read_all, Sim.files_create.
  destruct (Sim.disk (world s) !! _) as [contents|] eqn:D; cbn; [|discriminate].
  destruct (Sim.lake (world s) !! _) as [files|] eqn:E; cbn; [|discriminate].
  destruct (files !! _); cbn; [discriminate|].
  match goal with
  | |- resourceArmDataLakeStoreFileRead _ ?sX = _ -> _ =>
      intros Hread; pose proof (sim_file_read_world sX) as Hw
  end.
  rewrite Hread in Hw. cbn [snd] in Hw.
  exists (<[GetString "remote_file_path" (data s) := contents]> files), contents.
  rewrite Hw. cbn. unfold Sim.set_lake. cbn.
  split; [reflexivity|]. split; [apply lookup_insert_eq|].
  split; [apply lookup_insert_eq | reflexivity].
Qed.

End SimAgain.

(** X17.  Against the reference vendor, Read is idempotent on the
    record: a second Read of the table, the queue, the container or the
    file leaves the record exactly as the first Read left it. *)
Theorem read_twice_is_read_once (s : State Sim.World) :
  data (snd (resourceArmStorageTableRead Sim.vendor
               (snd (resourceArmStorageTableRead Sim.vendor s))))
  = data (snd (resourceArmStorageTableRead Sim.vendor s))
  /\ data (snd (resourceArmStorageQueueRead Sim.vendor
                  (snd (resourceArmStorageQueueRead Sim.vendor s))))
     = data (snd (resourceArmStorageQueueRead Sim.vendor s))
  /\ data (snd (resourceArmStorageContainerRead Sim.vendor
                  (snd (resourceArmStorageContainerRead Sim.vendor s))))
     = data (snd (resourceArmStorageContainerRead Sim.vendor s))
  /\ data (snd (resourceArmDataLakeStoreFileRead Sim.vendor
                  (snd (resourceArmDataLakeStoreFileRead Sim.vendor s))))
     = data (snd (resourceArmDataLakeStoreFileRead Sim.vendor s)).
Proof.
  exact (conj (sim_table_read_again s) (conj (sim_queue_read_again s)
          (conj (sim_container_read_again s) (sim_file_read_again s)))).
Qed.

(** X18.  Against the reference vendor, a Create of the file that
    succeeded has stored the bytes of the declared local file, as they
    were on the disk, under the declared remote path of the declared
    account; the local file is left as it was. *)
Theorem file_create_uploads_the_local_bytes (s s1 : State Sim.World) :
  resourceArmDataLakeStoreFileCreate Sim.vendor s = (Ok tt, s1) ->
  exists contents,
    Sim.disk (world s) !! GetString "local_file_path" (data s) = Some contents
    /\ (Sim.lake (world s1) !! GetString "account_name" (data s))
         ≫= (fun files => files !! GetString "remote_file_path" (data s))
       = Some contents
    /\ Sim.disk (world s1) = Sim.disk (world s).
Proof.
  intros Hcreate.
  destruct (sim_file_create_upload s s1 Hcreate) as (files & contents & Hd & Hl & Hf & Hk).
  exists contents. rewrite Hl. cbn. auto.
Qed.

(** ** Further runs against the reference vendor *)

Lemma resolver_error_is_handed_on_witness :
  let V := outage "dial tcp: i/o timeout" in
  let s := Sim.start (Sim.storage_decl "logs") Sim.busy_world in
  stops_with (resourceArmStorageTableDelete V) s (VendorError "dial tcp: i/o timeout")
             [CallGetTableClient "rg" "acct"]
  /\ stops_with (resourceArmStorageQueueExists V) s (VendorError "dial tcp: i/o timeout")
                [CallGetQueueClient "rg" "acct"]
  /\ stops_with (resourceArmStorageContainerCreate V) s
                (VendorError "dial tcp: i/o timeout") [CallGetBlobClient "rg" "acct"].
Proof.
  intros V s.
  pose proof (resolver_error_is_handed_on V s "dial tcp: i/o timeout") as H.
  cbv zeta in H. destruct H as (Ht & Hq & Hc).
  destruct (Ht eq_refl) as (_ & _ & Htd).
  destruct (Hq eq_refl) as (_ & _ & Hqe & _).
  destruct (Hc eq_refl) as (Hcc & _).
  exact (conj Htd (conj Hqe Hcc)).
Defined.

Lemma file_create_needs_the_local_file_witness :
  let s := Sim.start Sim.file_decl Sim.bare_world in
  let s' := Sim.start Sim.file_decl Sim.busy_world in
  stops_with (resourceArmDataLakeStoreFileCreate Sim.vendor) s
             (Errorf "error opening file %q: %+v" ["/tmp/report.csv"]
                     (Some (VendorError "no such file or directory")))
             [CallOpen "/tmp/report.csv"]
  /\ stops_with (resourceArmDataLakeStoreFileCreate (outage "unexpected EOF")) s'
                (VendorError "unexpected EOF") [CallOpen "/tmp/report.csv"; CallReadAll].
Proof.
  intros s s'. split.
  - exact (proj1 (file_create_needs_the_local_file Sim.vendor s)
                 "no such file or directory" (world s) eq_refl).
  - exact (proj2 (file_create_needs_the_local_file (outage "unexpected EOF") s')
                 (list_ascii_of_string "a,b") (world s') "unexpected EOF" (world s')
                 eq_refl eq_refl).
Defined.

Lemma create_ends_in_two_ways_witness :
  let s := Sim.start (Sim.storage_decl "mail") Sim.busy_world in
  fst (resourceArmStorageQueueCreate Sim.vendor s) = Ok tt
  /\ In (CallQueueCreate "mail") (issued (resourceArmStorageQueueCreate Sim.vendor) s).
Proof.
  intros s.
  assert (H : fst (resourceArmStorageQueueCreate Sim.vendor s) = Ok tt)
    by (vm_compute; reflexivity).
  split; [exact H|].
  exact (proj1 (proj2 (proj2 (create_ends_in_two_ways Sim.vendor s))) H).
Defined.

(** A declared access type [Private], which the schema lets through, is
    sent as it is. *)
Lemma container_create_sets_declared_access_witness :
  let s := Sim.start (container_decl "assets" "Private") (Sim.fresh_world 0) in
  In (CallContainerSetPermissions "assets" "Private")
     (issued (resourceArmStorageContainerCreate Sim.vendor) s)
  /\ "Private" = (if String.eqb (GetStringOr "private" "container_access_type" (data s))
                                "private"
                  then EmptyString
                  else GetStringOr "private" "container_access_type" (data s)).
Proof.
  intros s.
  assert (H : In (CallContainerSetPermissions "assets" "Private")
                 (issued (resourceArmStorageContainerCreate Sim.vendor) s))
    by (vm_compute; auto 10).
  split; [exact H|].
  exact (proj2 (container_create_sets_declared_access Sim.vendor s "assets" "Private" H)).
Defined.

(** The declaration names [alpha]; after a Read, Delete asks for [zeta]. *)
Lemma table_delete_after_read_targets_last_witness :
  let s := Sim.start (Sim.storage_decl "alpha") Sim.busy_world in
  let tables := [{| Table_Name := "alpha" |}; {| Table_Name := "zeta" |}] in
  tables_response Sim.vendor (data s) (world s) = Some tables
  /\ existsb (named (GetString "name" (data s))) tables = true
  /\ issued (resourceArmStorageTableDelete Sim.vendor)
            (snd (resourceArmStorageTableRead Sim.vendor s))
     = [CallGetTableClient "rg" "acct"; CallTableDelete "zeta"].
Proof.
  intros s tables.
  assert (H1 : tables_response Sim.vendor (data s) (world s) = Some tables)
    by (vm_compute; reflexivity).
  assert (H2 : existsb (named (GetString "name" (data s))) tables = true)
    by (vm_compute; reflexivity).
  assert (H3 : getTableServiceClientForStorageAccount Sim.vendor "rg" "acct"
                 (world (snd (resourceArmStorageTableRead Sim.vendor s)))
               = (AccountFound ("rg", "acct"), Sim.busy_world))
    by (vm_compute; reflexivity).
  exact (conj H1 (conj H2
          (table_delete_after_read_targets_last Sim.vendor s tables ("rg", "acct")
             Sim.busy_world H1 H2 H3))).
Defined.

Lemma delete_then_read_is_absent_witness :
  let s := Sim.start (SetId "jobs" (Sim.storage_decl "jobs")) Sim.busy_world in
  let s1 := snd (resourceArmStorageQueueDelete Sim.vendor s) in
  resourceArmStorageQueueDelete Sim.vendor s = (Ok tt, s1)
  /\ fst (resourceArmStorageQueueRead Sim.vendor s1) = Ok tt
  /\ presence (data (snd (resourceArmStorageQueueRead Sim.vendor s1))) = ABSENT.
Proof.
  intros s s1.
  assert (H : resourceArmStorageQueueDelete Sim.vendor s = (Ok tt, s1))
    by (vm_compute; reflexivity).
  split; [exact H|].
  exact (proj1 (proj2 (delete_then_read_is_absent s s1)) H).
Defined.

Lemma second_create_is_refused_witness :
  let s := Sim.start (Sim.storage_decl "mid") Sim.busy_world in
  let s1 := snd (resourceArmStorageTableCreate Sim.vendor s) in
  let s2 := Sim.start (Sim.storage_decl "mid") (world s1) in
  resourceArmStorageTableCreate Sim.vendor s = (Ok tt, s1)
  /\ fst (resourceArmStorageTableCreate Sim.vendor s2)
     = Err (ImportAsExistsError "azurerm_storage_table" "mid").
Proof.
  intros s s1 s2.
  assert (H : resourceArmStorageTableCreate Sim.vendor s = (Ok tt, s1))
    by (vm_compute; reflexivity).
  split; [exact H|].
  exact (proj1 (second_create_is_refused s s1 s2 eq_refl eq_refl) H).
Defined.

Lemma file_create_uploads_the_local_bytes_witness :
  let s := Sim.start Sim.file_decl (Sim.fresh_world 0) in
  let s1 := snd (resourceArmDataLakeStoreFileCreate Sim.vendor s) in
  resourceArmDataLakeStoreFileCreate Sim.vendor s = (Ok tt, s1)
  /\ exists contents,
       Sim.disk (world s) !! GetString "local_file_path" (data s) = Some contents
       /\ (Sim.lake (world s1) !! GetString "account_name" (data s))
            ≫= (fun files => files !! GetString "remote_file_path" (data s))
          = Some contents
       /\ Sim.disk (world s1) = Sim.disk (world s).
Proof.
  intros s s1.
  assert (H : resourceArmDataLakeStoreFileCreate Sim.vendor s = (Ok tt, s1))
    by (vm_compute; reflexivity).
  split; [exact H|].
  exact (file_create_uploads_the_local_bytes s s1 H).
Defined.

(** ** Create and the Read that closes it *)

Section CreateThenRead.

Context {W : Type} (V : Vendor W).

Lemma presence_cleared (d : ResourceData) : presence (SetId EmptyString d) = ABSENT.
Proof. reflexivity. Qed.

(** Each Create that succeeds has set the identifier and handed over to
    Read: its outcome is the outcome of that Read. *)
Lemma table_create_closes_with_read (s s1 : State W) :
  resourceArmStorageTableCreate V s = (Ok tt, s1) ->
  exists sX, data sX = SetId (GetString "name" (data s)) (data s)
             /\ resourceArmStorageTableRead V sX = (Ok tt, s1).
Proof.
  unfold resourceArmStorageTableCreate. unfold_monad. cbn.
  repeat (goal_case; try discriminate).
  intros H. eexists. split; [|exact H]. reflexivity.
Qed.

Lemma queue_create_closes_with_read (s s1 : State W) :
  resourceArmStorageQueueCreate V s = (Ok tt, s1) ->
  exists sX, data sX = SetId (GetString "name" (data s)) (data s)
             /\ resourceArmStorageQueueRead V sX = (Ok tt, s1).
Proof.
  unfold resourceArmStorageQueueCreate. unfold_monad. cbn.
  repeat (goal_case; try discriminate).
  intros H. eexists. split; [|exact H]. reflexivity.
Qed.

Lemma file_create_closes_with_read (s s1 : State W) :
  resourceArmDataLakeStoreFileCreate V s = (Ok tt, s1) ->
  exists sX, data sX = SetId (GetString "remote_file_path" (data s)) (data s)
             /\ resourceArmDataLakeStoreFileRead V sX = (Ok tt, s1).
Proof.
  unfold resourceArmDataLakeStoreFileCreate. unfold_monad. cbn.
  repeat (goal_case; try discriminate).
  intros H. eexists. split; [|exact H]. reflexivity.
Qed.

Lemma container_create_closes_with_read (s s1 : State W) :
  resourceArmStorageContainerCreate V s = (Ok tt, s1) ->
  exists sX, data sX = SetId (GetString "name" (data s)) (data s)
             /\ resourceArmStorageContainerRead V sX = (Ok tt, s1).
Proof.
  unfold resourceArmStorageContainerCreate. unfold_monad. cbn.
  destruct (getBlobStorageClientForStorageAccount V _ _ (world s)) as [[e| |c] w1];
    cbn; try discriminate.
  destruct (Container_Exists V c _ w1) as [[e|[|]] w2]; cbn; try discriminate.
  unfold GetContainerReference.
  match goal with
  | |- context [Retry ?t (checkContainerIsCreated V ?ref) ?st] =>
      destruct (Retry_first_attempt V ref t st budget_is_positive) as (l & _ & Hd);
      destruct (Retry t (checkContainerIsCreated V ref) st) as [[[]|e] sR]
  end; cbn [snd fst data] in Hd |- *; [|discriminate].
  destruct (Container_SetPermissions V c _ _ (world sR)) as [[e|] w3]; cbn;
    [discriminate|].
  intros H. eexists. split; [|exact H]. cbn. now rewrite Hd.
Qed.

(** C8, as amended.  For every vendor and each of the four kinds, a
    Create that succeeds on a declaration whose name (for the file, whose
    remote path) is not empty has set the identifier to that name and
    closed with a Read, whose query decides what is left.  When that
    query reports the object missing, Create has still succeeded but the
    record is ABSENT.  When it reports the object, the record is PRESENT
    with the identifier equal to the declared name; and when the query of
    a Read right after reports the object too (for the table: answers
    with the same listing), that Read succeeds and leaves the record
    PRESENT with the identifier still equal to the declared name. *)
Theorem create_then_read_is_present (s s1 : State W) :
  (resourceArmStorageTableCreate V s = (Ok tt, s1) ->
   GetString "name" (data s) <> EmptyString ->
   exists sX,
     data sX = SetId (GetString "name" (data s)) (data s)
     /\ resourceArmStorageTableRead V sX = (Ok tt, s1)
     /\ (table_reported V (data sX) (world sX) = Some false ->
         presence (data s1) = ABSENT)
     /\ (forall tables,
           tables_response V (data sX) (world sX) = Some tables ->
           existsb (named (GetString "name" (data s))) tables = true ->
           Id (data s1) = GetString "name" (data s)
           /\ presence (data s1) = PRESENT
           /\ (tables_response V (data s1) (world s1) = Some tables ->
               fst (resourceArmStorageTableRead V s1) = Ok tt
               /\ Id (data (snd (resourceArmStorageTableRead V s1)))
                  = GetString "name" (data s)
               /\ presence (data (snd (resourceArmStorageTableRead V s1))) = PRESENT)))
  /\ (resourceArmStorageQueueCreate V s = (Ok tt, s1) ->
      GetString "name" (data s) <> EmptyString ->
      exists sX,
        data sX = SetId (GetString "name" (data s)) (data s)
        /\ resourceArmStorageQueueRead V sX = (Ok tt, s1)
        /\ (queue_reported V (data sX) (world sX) = Some false ->
            presence (data s1) = ABSENT)
        /\ (queue_reported V (data sX) (world sX) = Some true ->
            Id (data s1) = GetString "name" (data s)
            /\ presence (data s1) = PRESENT
            /\ (queue_reported V (data s1) (world s1) = Some true ->
                fst (resourceArmStorageQueueRead V s1) = Ok tt
                /\ Id (data (snd (resourceArmStorageQueueRead V s1)))
                   = GetString "name" (data s)
                /\ presence (data (snd (resourceArmStorageQueueRead V s1))) = PRESENT)))
  /\ (resourceArmStorageContainerCreate V s = (Ok tt, s1) ->
      GetString "name" (data s) <> EmptyString ->
      exists sX,
        data sX = SetId (GetString "name" (data s)) (data s)
        /\ resourceArmStorageContainerRead V sX = (Ok tt, s1)
        /\ (container_listed V (data sX) (world sX) = Some [] ->
            presence (data s1) = ABSENT)
        /\ (forall listed,
              container_listed V (data sX) (world sX) = Some listed -> listed <> [] ->
              Id (data s1) = GetString "name" (data s)
              /\ presence (data s1) = PRESENT
              /\ (forall listed',
                    container_listed V (data s1) (world s1) = Some listed' ->
                    listed' <> [] ->
                    fst (resourceArmStorageContainerRead V s1) = Ok tt
                    /\ Id (data (snd (resourceArmStorageContainerRead V s1)))
                       = GetString "name" (data s)
                    /\ presence (data (snd (resourceArmStorageContainerRead V s1)))
                       = PRESENT)))
  /\ (resourceArmDataLakeStoreFileCreate V s = (Ok tt, s1) ->
      GetString "remote_file_path" (data s) <> EmptyString ->
      exists sX,
        data sX = SetId (GetString "remote_file_path" (data s)) (data s)
        /\ resourceArmDataLakeStoreFileRead V sX = (Ok tt, s1)
        /\ (file_reported V (data sX) (world sX) = Some false ->
            presence (data s1) = ABSENT)
        /\ (file_reported V (data sX) (world sX) = Some true ->
            Id (data s1) = GetString "remote_file_path" (data s)
            /\ presence (data s1) = PRESENT
            /\ (file_reported V (data s1) (world s1) = Some true ->
                fst (resourceArmDataLakeStoreFileRead V s1) = Ok tt
                /\ Id (data (snd (resourceArmDataLakeStoreFileRead V s1)))
                   = GetString "remote_file_path" (data s)
                /\ presence (data (snd (resourceArmDataLakeStoreFileRead V s1)))
                   = PRESENT))).
Proof.
  split; [|split; [|split]]; intros Hcreate Hname.
  - destruct (table_create_closes_with_read s s1 Hcreate) as (sX & HdX & Hread).
    exists sX. split; [exact HdX|]. split; [exact Hread|]. split.
    + intros Hrep. destruct (table_read_when_not_reported V sX Hrep) as [_ Hd].
      rewrite Hread in Hd. cbn [snd] in Hd. rewrite Hd. apply presence_cleared.
    + intros tables Hresp Hmatch.
      destruct (table_read_when_listed V sX tables Hresp) as [_ Hd].
      rewrite Hread in Hd. cbn [snd] in Hd.
      rewrite HdX, GetString_SetId, Hmatch in Hd.
      assert (Hid : Id (data s1) = GetString "name" (data s)) by (now rewrite Hd).
      split; [exact Hid|]. split; [apply presence_of_id; now rewrite Hid|].
      intros Hresp1.
      destruct (table_read_when_listed V s1 tables Hresp1) as [Hok Hd1].
      assert (Hlast : existsb (named (GetString "name" (data s1))) tables = true).
      { rewrite Hd, GetString_SetAttr. exact (named_last_listed tables _ Hmatch). }
      rewrite Hlast in Hd1.
      assert (Hid1 : Id (data (snd (resourceArmStorageTableRead V s1)))
                     = GetString "name" (data s)) by (now rewrite Hd1).
      split; [exact Hok|]. split; [exact Hid1|]. apply presence_of_id. now rewrite Hid1.
  - destruct (queue_create_closes_with_read s s1 Hcreate) as (sX & HdX & Hread).
    exists sX. split; [exact HdX|]. split; [exact Hread|]. split.
    + intros Hrep. destruct (queue_read_when_reported V sX false Hrep) as [_ Hd].
      rewrite Hread in Hd. cbn [snd] in Hd. rewrite Hd. apply presence_cleared.
    + intros Hrep. destruct (queue_read_when_reported V sX true Hrep) as [_ Hd].
      rewrite Hread in Hd. cbn [snd] in Hd.
      assert (Hid : Id (data s1) = GetString "name" (data s)) by (now rewrite Hd, HdX).
      split; [exact Hid|]. split; [apply presence_of_id; now rewrite Hid|].
      intros Hrep1. destruct (queue_read_when_reported V s1 true Hrep1) as [Hok Hd1].
      rewrite Hd1. split; [exact Hok|]. split; [exact Hid|].
      apply presence_of_id; now rewrite Hid.
  - destruct (container_create_closes_with_read s s1 Hcreate) as (sX & HdX & Hread).
    exists sX. split; [exact HdX|]. split; [exact Hread|]. split.
    + intros Hl. destruct (container_read_when_not_listed V sX Hl) as [_ Hd].
      rewrite Hread in Hd. cbn [snd] in Hd. rewrite Hd. apply presence_cleared.
    + intros listed Hl Hne.
      destruct (container_read_when_listed V sX listed Hl Hne) as (_ & Hid0 & _).
      rewrite Hread in Hid0. cbn [snd] in Hid0.
      assert (Hid : Id (data s1) = GetString "name" (data s)) by (now rewrite Hid0, HdX).
      split; [exact Hid|]. split; [apply presence_of_id; now rewrite Hid|].
      intros listed' Hl1 Hne1.
      destruct (container_read_when_listed V s1 listed' Hl1 Hne1) as (Hok & Hid1 & _).
      rewrite Hid in Hid1.
      split; [exact Hok|]. split; [exact Hid1|]. apply presence_of_id; now rewrite Hid1.
  - destruct (file_create_closes_with_read s s1 Hcreate) as (sX & HdX & Hread).
    exists sX. split; [exact HdX|]. split; [exact Hread|]. split.
    + intros Hrep. destruct (file_read_when_reported V sX false Hrep) as [_ Hd].
      rewrite Hread in Hd. cbn [snd] in Hd. rewrite Hd. apply presence_cleared.
    + intros Hrep. destruct (file_read_when_reported V sX true Hrep) as [_ Hd].
      rewrite Hread in Hd. cbn [snd] in Hd.
      assert (Hid : Id (data s1) = GetString "remote_file_path" (data s))
        by (now rewrite Hd, HdX).
      split; [exact Hid|]. split; [apply presence_of_id; now rewrite Hid|].
      intros Hrep1. destruct (file_read_when_reported V s1 true Hrep1) as [Hok Hd1].
      rewrite Hd1. split; [exact Hok|]. split; [exact Hid|].
      apply presence_of_id; now rewrite Hid.
Qed.

End CreateThenRead.

(** A queue created in the account in use, against the reference vendor. *)
Lemma reference_create_then_read_is_present_witness :
  let s := Sim.start (Sim.storage_decl "mail") Sim.busy_world in
  let s1 := snd (resourceArmStorageQueueCreate Sim.vendor s) in
  resourceArmStorageQueueCreate Sim.vendor s = (Ok tt, s1)
  /\ GetString "name" (data s) <> EmptyString
  /\ Id (data s1) = "mail"
  /\ fst (resourceArmStorageQueueRead Sim.vendor s1) = Ok tt
  /\ Id (data (snd (resourceArmStorageQueueRead Sim.vendor s1))) = "mail"
  /\ presence (data (snd (resourceArmStorageQueueRead Sim.vendor s1))) = PRESENT.
Proof.
  intros s s1.
  assert (H1 : resourceArmStorageQueueCreate Sim.vendor s = (Ok tt, s1))
    by (vm_compute; reflexivity).
  assert (H2 : GetString "name" (data s) <> EmptyString)
    by (vm_compute; discriminate).
  exact (conj H1 (conj H2
          (proj1 (proj2 (reference_create_then_read_is_present s s1)) H1 H2))).
Defined.

(** The world a Read of the table ends in, against the reference vendor. *)
Lemma sim_table_read_result_world (s s1 : State Sim.World) (r : Result unit) :
  resourceArmStorageTableRead Sim.vendor s = (r, s1) -> world s1 = world s.
Proof. intros H. pose proof (sim_table_read_world s) as Hw. now rewrite H in Hw. Qed.

(** A table created beside two others, against the reference vendor: the
    closing Read and the Read after it get the same listing, and the
    identifier stays the declared name. *)
Lemma create_then_read_is_present_witness :
  let s := Sim.start (Sim.storage_decl "mid") Sim.busy_world in
  let s1 := snd (resourceArmStorageTableCreate Sim.vendor s) in
  let tables := [{| Table_Name := "mid" |}; {| Table_Name := "alpha" |};
                 {| Table_Name := "zeta" |}] in
  resourceArmStorageTableCreate Sim.vendor s = (Ok tt, s1)
  /\ GetString "name" (data s) <> EmptyString
  /\ tables_response Sim.vendor (data s1) (world s1) = Some tables
  /\ existsb (named (GetString "name" (data s))) tables = true
  /\ Id (data s1) = "mid"
  /\ presence (data s1) = PRESENT
  /\ fst (resourceArmStorageTableRead Sim.vendor s1) = Ok tt
  /\ Id (data (snd (resourceArmStorageTableRead Sim.vendor s1))) = "mid"
  /\ presence (data (snd (resourceArmStorageTableRead Sim.vendor s1))) = PRESENT.
Proof.
  intros s s1 tables.
  assert (H1 : resourceArmStorageTableCreate Sim.vendor s = (Ok tt, s1))
    by (vm_compute; reflexivity).
  assert (H2 : GetString "name" (data s) <> EmptyString)
    by (vm_compute; discriminate).
  assert (H3 : tables_response Sim.vendor (data s1) (world s1) = Some tables)
    by (vm_compute; reflexivity).
  assert (H4 : existsb (named (GetString "name" (data s))) tables = true)
    by (vm_compute; reflexivity).
  destruct (proj1 (create_then_read_is_present Sim.vendor s s1) H1 H2)
    as (sX & HdX & Hread & _ & Hfound).
  assert (H5 : tables_response Sim.vendor (SetId (GetString "name" (data s)) (data s))
                                (world s1) = Some tables)
    by (vm_compute; reflexivity).
  assert (HX : tables_response Sim.vendor (data sX) (world sX) = Some tables)
    by (rewrite <- (sim_table_read_result_world sX s1 _ Hread), HdX; exact H5).
  destruct (Hfound tables HX H4) as (Hid & Hpr & Hnext).
  destruct (Hnext H3) as (Hok & Hid1 & Hpr1).
  exact (conj H1 (conj H2 (conj H3 (conj H4 (conj Hid (conj Hpr
          (conj Hok (conj Hid1 Hpr1)))))))).
Defined.

(** Behind a listing of two tables a page the account holds [alpha] and
    [zeta]; Create of [zzz] issues the create call and returns no error,
    the table is in the account, and yet the closing Read, which gets
    [alpha] and [zeta], has cleared the identifier: the record is ABSENT
    after Create, and after the Read that follows. *)
Lemma create_succeeds_with_empty_identifier :
  let s := Sim.start (Sim.storage_decl "zzz") Sim.busy_world in
  let s1 := snd (resourceArmStorageTableCreate (paged 2) s) in
  fst (resourceArmStorageTableCreate (paged 2) s) = Ok tt
  /\ issued (resourceArmStorageTableCreate (paged 2)) s
     = [CallGetTableClient "rg" "acct"; CallQueryTables; CallTableCreate "zzz";
        CallGetTableClient "rg" "acct"; CallQueryTables]
  /\ fst (Sim.query_tables ("rg", "acct") (world s1))
     = inr [{| Table_Name := "alpha" |}; {| Table_Name := "zeta" |};
            {| Table_Name := "zzz" |}]
  /\ Id (data s1) = EmptyString
  /\ presence (data s1) = ABSENT
  /\ fst (resourceArmStorageTableRead (paged 2) s1) = Ok tt
  /\ presence (data (snd (resourceArmStorageTableRead (paged 2) s1))) = ABSENT.
Proof.
  intros s s1. repeat split; vm_compute; reflexivity.
Qed.
